(** * Budget tracker: the persistence service ([src/services/database.ts])

    A shallow embedding of [DatabaseService] and the properties of the
    transaction ledger, the statistics engine, the alert evaluator and the
    category registry, with the computations of the goals screen that read
    its results.

    Modelling conventions.
    - A JavaScript [number] is an IEEE-754 binary64 value, Rocq's primitive
      [float]: sums, differences, quotients and comparisons round and behave
      as the hardware's do, [NaN], the infinities and [-0] included.
    - [JSON.stringify] followed by [JSON.parse] keeps strings and booleans,
      writes a number that is not finite as [null] and [-0] as [0]; an
      [amount] read from storage is a finite number or [null].  What a
      method writes is the JSON image of its array, and what it reads is the
      JSON image of what the key holds.
    - [AsyncStorage] is a store of three keys, each absent or holding an
      array.  Every storage call may throw; which calls throw is decided by
      the [faults] plan of the [World].
    - [expensesByCategory] is a plain object: its own properties are a
      finite map, and a read that finds no own property falls through to
      [Object.prototype].  A value is a number, or the string that results
      from adding an amount to an inherited property.
    - A [string] holds the UTF-8 encoding of a JavaScript string; the
      default order of [sort()] is that of the UTF-16 code units.
    - [Date.now()], [Math.random()] and [new Date()] are oracles indexed by a
      tick counter; [Date.parse] and the local time zone are parameters.
    - An [async] method is a computation in the state-and-exception monad
      [M]; [try]/[catch] is [try_catch]. *)

From Stdlib Require Import Floats.
From Stdlib Require Import ZArith Ascii String Sorted Permutation.
From stdpp Require Import base numbers list gmap strings pretty fin_maps.

Local Open Scope Z_scope.

(** ** Numbers

    A JavaScript [number] is an IEEE-754 binary64 value: Rocq's primitive
    [float], whose operations round as the hardware does. *)

Local Open Scope float_scope.

(** [ToBoolean] of a number: [0], [-0] and [NaN] are falsy. *)
Definition number_truthy (n : float) : bool := negb (is_zero n || is_nan n).

(** [a >= b] and [a < b]; false when either operand is [NaN]. *)
Definition js_ge (a b : float) : bool := b <=? a.
Definition js_lt (a b : float) : bool := a <? b.

(** [Math.min(x, y)]: [NaN] if either is, and [-0] sorts before [+0]. *)
Definition Math_min (x y : float) : float :=
  if is_nan x || is_nan y then nan
  else if x <? y then x
  else if y <? x then y
  else if get_sign x then x else y.

(** The value of an [amount] property.  In memory it is a number; read back
    from storage it can also be [null], which is what [JSON.stringify]
    writes for [NaN], [Infinity] and [-Infinity]. *)
Inductive Amount : Type :=
  | Num (n : float)
  | Null.

(** [ToNumber]: [null] counts as [+0] in arithmetic. *)
Definition ToNumber (a : Amount) : float :=
  match a with
  | Num n => n
  | Null => 0
  end.

(** [JSON.parse(JSON.stringify(a))] on the value of a numeric property: a
    number that is not finite becomes [null], [-0] is written as [0], and
    any other number is read back as it was. *)
Definition JSON_number (a : Amount) : Amount :=
  match a with
  | Num n => if is_finite n then (if is_zero n then Num 0 else Num n) else Null
  | Null => Null
  end.

Local Close Scope float_scope.

(** ** Strings

    A [string] holds the UTF-8 encoding of a JavaScript string.  Equality of
    strings is equality of their bytes.  The order that [sort()] applies
    without a comparator is the lexicographic order of the UTF-16 code
    units, which differs from the order of the bytes; [code_units] gives the
    code units.  A byte that does not start a well-formed sequence counts as
    U+FFFD. *)

Definition continuation (a : ascii) : option N :=
  let b := N_of_ascii a in
  if ((128 <=? b) && (b <? 192))%N then Some (b - 128)%N else None.

Fixpoint code_points (s : string) : list N :=
  match s with
  | EmptyString => []
  | String a s1 =>
      let b := N_of_ascii a in
      if (b <? 128)%N then b :: code_points s1
      else
        match s1 with
        | String a2 s2 =>
            match continuation a2 with
            | Some c2 =>
                if ((192 <=? b) && (b <? 224))%N then
                  ((b - 192) * 64 + c2)%N :: code_points s2
                else
                  match s2 with
                  | String a3 s3 =>
                      match continuation a3 with
                      | Some c3 =>
                          if ((224 <=? b) && (b <? 240))%N then
                            ((b - 224) * 4096 + c2 * 64 + c3)%N :: code_points s3
                          else
                            match s3 with
                            | String a4 s4 =>
                                match continuation a4 with
                                | Some c4 =>
                                    if ((240 <=? b) && (b <? 248))%N then
                                      ((b - 240) * 262144 + c2 * 4096 + c3 * 64 + c4)%N
                                      :: code_points s4
                                    else 65533%N :: code_points s1
                                | None => 65533%N :: code_points s1
                                end
                            | EmptyString => 65533%N :: code_points s1
                            end
                      | None => 65533%N :: code_points s1
                      end
                  | EmptyString => 65533%N :: code_points s1
                  end
            | None => 65533%N :: code_points s1
            end
        | EmptyString => [65533%N]
        end
  end.

(** The UTF-16 encoding of a code point: itself, or a surrogate pair. *)
Definition utf16 (cp : N) : list N :=
  if (cp <? 65536)%N then [cp]
  else [(55296 + (cp - 65536) / 1024)%N; (56320 + (cp - 65536) mod 1024)%N].

Definition code_units (s : string) : list N :=
  flat_map utf16 (code_points s).

Fixpoint units_compare (x y : list N) : comparison :=
  match x, y with
  | [], [] => Eq
  | [], _ :: _ => Lt
  | _ :: _, [] => Gt
  | a :: x', b :: y' =>
      match (a ?= b)%N with
      | Eq => units_compare x' y'
      | c => c
      end
  end.

(** ** Data model *)

Inductive TxType : Type := income | expense.

Definition TxType_eqb (a b : TxType) : bool :=
  match a, b with
  | income, income => true
  | expense, expense => true
  | _, _ => false
  end.

Inductive Period : Type := monthly | annual.

Record Transaction : Type := mkTransaction {
  t_id : string;
  t_type : TxType;
  t_category : string;
  t_amount : Amount;
  t_description : option string;
  t_date : string
}.

(** [Omit<Transaction, 'id'>], as a caller passes it: the amount is a number,
    possibly [NaN] or infinite. *)
Record TransactionDraft : Type := mkDraft {
  d_type : TxType;
  d_category : string;
  d_amount : float;
  d_description : option string;
  d_date : string
}.

Record BudgetGoal : Type := mkGoal {
  g_id : string;
  g_category : string;
  g_amount : Amount;
  g_period : Period;
  g_isActive : bool;
  g_createdAt : string
}.

(** [Omit<BudgetGoal, 'id' | 'createdAt'>] *)
Record GoalDraft : Type := mkGoalDraft {
  gd_category : string;
  gd_amount : float;
  gd_period : Period;
  gd_isActive : bool
}.

(** [Partial<BudgetGoal>]: an absent property is [None]. *)
Record GoalUpdates : Type := mkGoalUpdates {
  gu_id : option string;
  gu_category : option string;
  gu_amount : option float;
  gu_period : option Period;
  gu_isActive : option bool;
  gu_createdAt : option string
}.

Record Category : Type := mkCategory {
  c_id : string;
  c_name : string;
  c_type : TxType;
  c_isCustom : bool;
  c_icon : option string;
  c_createdAt : string
}.

(** [Omit<Category, 'id' | 'createdAt'>] *)
Record CategoryDraft : Type := mkCategoryDraft {
  cd_name : string;
  cd_type : TxType;
  cd_isCustom : bool;
  cd_icon : option string
}.

(** [Partial<Category>] *)
Record CategoryUpdates : Type := mkCategoryUpdates {
  cu_id : option string;
  cu_name : option string;
  cu_type : option TxType;
  cu_isCustom : option bool;
  cu_icon : option string;
  cu_createdAt : option string
}.

(** ** JSON

    [JSON.parse(JSON.stringify(v))] on the records: strings, booleans and
    absent properties come back as they were, numbers as [JSON_number] has
    them.  A category has no numeric property and is its own image. *)

Definition JSON_transaction (t : Transaction) : Transaction :=
  mkTransaction (t_id t) (t_type t) (t_category t) (JSON_number (t_amount t))
    (t_description t) (t_date t).

Definition JSON_goal (g : BudgetGoal) : BudgetGoal :=
  mkGoal (g_id g) (g_category g) (JSON_number (g_amount g)) (g_period g)
    (g_isActive g) (g_createdAt g).

(** ** The key-value store and the world *)

Inductive Key : Type :=
  | STORAGE_KEY
  | GOALS_STORAGE_KEY
  | CATEGORIES_STORAGE_KEY.

(** Each key is absent or holds a JSON text; the text is kept as an array
    whose JSON image it denotes. *)
Record Store : Type := mkStore {
  s_transactions : option (list Transaction);
  s_goals : option (list BudgetGoal);
  s_categories : option (list Category)
}.

(** [faults]: the outcome of the coming storage calls, [true] for a call that
    throws; once the plan is exhausted no call throws.  [tick] indexes the
    clock and random oracles.  [writes] lists the keys written or removed so
    far, oldest first. *)
Record World : Type := mkWorld {
  store : Store;
  faults : list bool;
  tick : nat;
  writes : list Key
}.

Inductive exn : Type :=
  | StorageFailure
  | Error (msg : string).

Inductive result (A : Type) : Type :=
  | Ok (a : A)
  | Throw (e : exn).
Arguments Ok {A} a.
Arguments Throw {A} e.

Definition M (A : Type) : Type := World -> result A * World.

Definition ret {A} (a : A) : M A := fun w => (Ok a, w).

Definition throw {A} (e : exn) : M A := fun w => (Throw e, w).

Definition bind {A B} (m : M A) (k : A -> M B) : M B :=
  fun w =>
    match m w with
    | (Ok a, w') => k a w'
    | (Throw e, w') => (Throw e, w')
    end.

(** [try { m } catch (error) { h error }] *)
Definition try_catch {A} (m : M A) (h : exn -> M A) : M A :=
  fun w =>
    match m w with
    | (Ok a, w') => (Ok a, w')
    | (Throw e, w') => h e w'
    end.

Notation "'let*' x := m 'in' k" := (bind m (fun x => k))
  (at level 10, x name, m at level 100, k at level 200).
Notation "m ;;; k" := (bind m (fun _ => k))
  (at level 100, k at level 200, right associativity).

(** One storage call: consult the fault plan. *)
Definition storage_call : M unit :=
  fun w =>
    match faults w with
    | true :: fs =>
        (Throw StorageFailure,
         mkWorld (store w) fs (tick w) (writes w))
    | false :: fs =>
        (Ok tt, mkWorld (store w) fs (tick w) (writes w))
    | [] => (Ok tt, w)
    end.

Definition getItem {A} (proj : Store -> option A) : M (option A) :=
  storage_call ;;; fun w => (Ok (proj (store w)), w).

Definition put (k : Key) (upd : Store -> Store) : M unit :=
  storage_call ;;;
  fun w => (Ok tt, mkWorld (upd (store w)) (faults w) (tick w) (writes w ++ [k])).

Definition set_transactions (v : option (list Transaction)) (s : Store) : Store :=
  mkStore v (s_goals s) (s_categories s).
Definition set_goals (v : option (list BudgetGoal)) (s : Store) : Store :=
  mkStore (s_transactions s) v (s_categories s).
Definition set_categories (v : option (list Category)) (s : Store) : Store :=
  mkStore (s_transactions s) (s_goals s) v.

(** [AsyncStorage.setItem(key, JSON.stringify(v))]: what is written is the
    JSON image of [v]. *)
Definition setItem_transactions (l : list Transaction) : M unit :=
  put STORAGE_KEY (set_transactions (Some (map JSON_transaction l))).
Definition setItem_goals (l : list BudgetGoal) : M unit :=
  put GOALS_STORAGE_KEY (set_goals (Some (map JSON_goal l))).
Definition setItem_categories (l : list Category) : M unit :=
  put CATEGORIES_STORAGE_KEY (set_categories (Some l)).

(** [JSON.parse(json)] on the text of a key. *)
Definition JSON_parse_transactions (json : list Transaction) : list Transaction :=
  map JSON_transaction json.
Definition JSON_parse_goals (json : list BudgetGoal) : list BudgetGoal :=
  map JSON_goal json.

(** The next reading of an oracle. *)
Definition next_tick : M nat :=
  fun w => (Ok (tick w), mkWorld (store w) (faults w) (S (tick w)) (writes w)).

(** ** Dates (ECMAScript, Date objects)

    Time values are milliseconds since the epoch; [None] is the time value
    [NaN] of an Invalid Date. *)

Definition msPerDay : Z := 86400000.

Definition DayFromYear (y : Z) : Z :=
  365 * (y - 1970) + (y - 1969) / 4 - (y - 1901) / 100 + (y - 1601) / 400.

Definition InLeapYear (y : Z) : bool :=
  ((y mod 4 =? 0) && negb (y mod 100 =? 0)) || (y mod 400 =? 0).

(** Days from 1 January to the first day of month [mn] (0 = January). *)
Definition DaysBeforeMonth (leap : bool) (mn : Z) : Z :=
  let l := if leap then 1 else 0 in
  match mn with
  | 0 => 0
  | 1 => 31
  | 2 => 59 + l
  | 3 => 90 + l
  | 4 => 120 + l
  | 5 => 151 + l
  | 6 => 181 + l
  | 7 => 212 + l
  | 8 => 243 + l
  | 9 => 273 + l
  | 10 => 304 + l
  | _ => 334 + l
  end.

Definition MakeDay (year month date : Z) : Z :=
  let ym := year + month / 12 in
  let mn := month mod 12 in
  DayFromYear ym + DaysBeforeMonth (InLeapYear ym) mn + date - 1.

Definition MakeTime (hour min sec ms : Z) : Z :=
  hour * 3600000 + min * 60000 + sec * 1000 + ms.

Definition MakeDate (day time : Z) : Z := day * msPerDay + time.

Definition TimeClip (t : Z) : option Z :=
  if Z.abs t <=? 8640000000000000 then Some t else None.

(** [a >= b] and [a <= b] on Date objects; false when either is invalid. *)
Definition date_ge (a b : option Z) : bool :=
  match a, b with
  | Some x, Some y => y <=? x
  | _, _ => false
  end.

Definition date_le (a b : option Z) : bool :=
  match a, b with
  | Some x, Some y => x <=? y
  | _, _ => false
  end.

(** [if (n)] on an optional numeric argument: [undefined] and [0] are falsy. *)
Definition truthy (n : option Z) : bool :=
  match n with
  | Some z => negb (z =? 0)
  | None => false
  end.

(** ** Array.prototype.sort

    ECMAScript requires [sort] to be stable, so for a consistent comparator
    the result is determined; it is computed here by insertion.  A comparator
    result of [NaN] counts as [+0] (SortCompare); a comparator that returns
    [NaN] is not consistent, ECMAScript then leaves the order to the
    implementation, and the order computed here is one admissible outcome. *)

Section ArraySort.
Context {A : Type} (comparefn : A -> A -> option Z).

Definition SortCompare (x y : A) : Z := default 0 (comparefn x y).

Fixpoint sort_insert (x : A) (l : list A) : list A :=
  match l with
  | [] => [x]
  | y :: l' =>
      if SortCompare x y <=? 0 then x :: y :: l' else y :: sort_insert x l'
  end.

Fixpoint Array_sort (l : list A) : list A :=
  match l with
  | [] => []
  | x :: l' => sort_insert x (Array_sort l')
  end.
End ArraySort.

(** ** Plain objects

    [expensesByCategory] is built by assignments into [{}], an object whose
    prototype is [Object.prototype].  Its own properties are a finite map.
    A read of a key that is not an own property finds the property that
    [Object.prototype] has under that key, if any: a function, or for
    [__proto__] the prototype object itself.  Adding a number to such an
    object concatenates strings, so a value can also be a string; its text
    starts with what [String] makes of the inherited object (the source
    text of a function, which the implementation chooses, or
    [[object Object]]) and goes on with the amounts appended to it, so it is
    kept as the key it was inherited under and the amounts appended.  Such
    a string is never empty and never the text of a number. *)

Inductive value : Type :=
  | VNumber (n : float)
  | VString (inherited_under : string) (appended : list Amount)
  | VObject (inherited_under : string).

(** The keys of [Object.prototype] (ECMAScript, with Annex B). *)
Definition Object_prototype_keys : list string :=
  ["constructor"; "hasOwnProperty"; "isPrototypeOf"; "propertyIsEnumerable";
   "toLocaleString"; "toString"; "valueOf"; "__proto__"; "__defineGetter__";
   "__defineSetter__"; "__lookupGetter__"; "__lookupSetter__"]%string.

Definition inherited (k : string) : bool :=
  existsb (String.eqb k) Object_prototype_keys.

(** [obj[k]], with [None] for [undefined]. *)
Definition js_get (obj : gmap string value) (k : string) : option value :=
  match obj !! k with
  | Some v => Some v
  | None => if inherited k then Some (VObject k) else None
  end.

(** [obj[k] = v] for a primitive [v].  Without an own property [__proto__]
    the assignment reaches the setter of [Object.prototype], which ignores
    a value that is neither an object nor [null]. *)
Definition js_set (obj : gmap string value) (k : string) (v : value)
    : gmap string value :=
  match obj !! k with
  | Some _ => <[k := v]> obj
  | None => if String.eqb k "__proto__" then obj else <[k := v]> obj
  end.

Definition ToBoolean (v : value) : bool :=
  match v with
  | VNumber n => number_truthy n
  | VString _ _ => true
  | VObject _ => true
  end.

(** [ToNumber] of a value: the text of such a string is not the text of a
    number, and an object is converted through its string. *)
Definition value_ToNumber (v : value) : float :=
  match v with
  | VNumber n => n
  | VString _ _ => nan
  | VObject _ => nan
  end.

(** [v + a] for an amount [a]: the sum of two numbers, or the concatenation
    of two strings when [v] is a string or an object. *)
Definition js_add (v : value) (a : Amount) : value :=
  match v with
  | VNumber n => VNumber (n + ToNumber a)
  | VString k l => VString k (l ++ [a])
  | VObject k => VString k [a]
  end.

(** [v || 0] on a property read. *)
Definition or_zero (v : option value) : value :=
  match v with
  | Some x => if ToBoolean x then x else VNumber 0
  | None => VNumber 0
  end.

(** ** The service *)

Section DatabaseService.

(** [new Date(s).getTime()], with [None] for [NaN]. *)
Variable Date_parse : string -> option Z.
(** Offset of local time from UTC, in milliseconds, at local time [t]. *)
Variable LocalTZA : Z -> Z.
(** [Date.now().toString() + Math.random().toString(36).substr(2, 9)] *)
Variable genId : nat -> string.
(** [new Date().toISOString()] *)
Variable nowISO : nat -> string.

Definition UTC (t : Z) : Z := t - LocalTZA t.

(** [new Date(year, month, date, hours, minutes, seconds)] *)
Definition Date_local (year month date hours minutes seconds : Z) : option Z :=
  let yr := if (0 <=? year) && (year <=? 99) then 1900 + year else year in
  TimeClip (UTC (MakeDate (MakeDay yr month date) (MakeTime hours minutes seconds 0))).

(** *** Transaction ledger *)

Definition startDate (month year : Z) : option Z :=
  Date_local year (month - 1) 1 0 0 0.

Definition endDate (month year : Z) : option Z :=
  Date_local year month 0 23 59 59.

Definition in_month (month year : Z) (transaction : Transaction) : bool :=
  let transactionDate := Date_parse (t_date transaction) in
  date_ge transactionDate (startDate month year)
  && date_le transactionDate (endDate month year).

(** [month && year] selects the filter. *)
Definition month_filter (month year : option Z) (transactions : list Transaction)
  : list Transaction :=
  match month, year with
  | Some m, Some y =>
      if truthy month && truthy year
      then List.filter (in_month m y) transactions
      else transactions
  | _, _ => transactions
  end.

(** [(a, b) => new Date(b.date).getTime() - new Date(a.date).getTime()] *)
Definition by_date_desc (a b : Transaction) : option Z :=
  match Date_parse (t_date b), Date_parse (t_date a) with
  | Some tb, Some ta => Some (tb - ta)
  | _, _ => None
  end.

Definition getTransactions (month year : option Z) : M (list Transaction) :=
  try_catch
    (let* transactionsJson := getItem s_transactions in
     match transactionsJson with
     | None => ret []
     | Some json =>
         let transactions := JSON_parse_transactions json in
         ret (Array_sort by_date_desc (month_filter month year transactions))
     end)
    (fun _ => ret []).

(** [{ ...transaction, id }] *)
Definition with_id (transaction : TransactionDraft) (id : string) : Transaction :=
  mkTransaction id (d_type transaction) (d_category transaction)
    (Num (d_amount transaction)) (d_description transaction) (d_date transaction).

Definition addTransaction (transaction : TransactionDraft) : M Transaction :=
  try_catch
    (let* n := next_tick in
     let id := genId n in
     let newTransaction := with_id transaction id in
     let* existingTransactions := getTransactions None None in
     let updatedTransactions := newTransaction :: existingTransactions in
     setItem_transactions updatedTransactions ;;;
     ret newTransaction)
    (fun error => throw error).

Definition deleteTransaction (id : string) : M unit :=
  try_catch
    (let* transactions := getTransactions None None in
     let updatedTransactions :=
       List.filter (fun t => negb (String.eqb (t_id t) id)) transactions in
     setItem_transactions updatedTransactions)
    (fun error => throw error).

(** *** Statistics engine *)

Record Stats : Type := mkStats {
  totalIncome : float;
  totalExpense : float;
  netBalance : float;
  expensesByCategory : gmap string value
}.

Definition is_type (ty : TxType) (t : Transaction) : bool :=
  TxType_eqb (t_type t) ty.

(** [(sum, t) => sum + t.amount] *)
Definition add_amount (sum : float) (t : Transaction) : float :=
  (sum + ToNumber (t_amount t))%float.

(** [acc[t.category] = (acc[t.category] || 0) + t.amount; return acc] *)
Definition add_expense (acc : gmap string value) (t : Transaction)
    : gmap string value :=
  js_set acc (t_category t)
    (js_add (or_zero (js_get acc (t_category t))) (t_amount t)).

Definition compute_stats (transactions : list Transaction) : Stats :=
  let totalIncome :=
    fold_left add_amount (List.filter (is_type income) transactions) 0%float in
  let totalExpense :=
    fold_left add_amount (List.filter (is_type expense) transactions) 0%float in
  let netBalance := (totalIncome - totalExpense)%float in
  let expensesByCategory :=
    fold_left add_expense (List.filter (is_type expense) transactions) ∅ in
  mkStats totalIncome totalExpense netBalance expensesByCategory.

Definition getTransactionStats (month year : option Z) : M Stats :=
  let* transactions := getTransactions month year in
  ret (compute_stats transactions).

(** *** Budget goal store *)

Definition getBudgetGoals : M (list BudgetGoal) :=
  try_catch
    (let* goalsJson := getItem s_goals in
     match goalsJson with
     | None => ret []
     | Some json => ret (JSON_parse_goals json)
     end)
    (fun _ => ret []).

Definition addBudgetGoal (goal : GoalDraft) : M BudgetGoal :=
  try_catch
    (let* n := next_tick in
     let id := genId n in
     let* n' := next_tick in
     let newGoal :=
       mkGoal id (gd_category goal) (Num (gd_amount goal)) (gd_period goal)
         (gd_isActive goal) (nowISO n') in
     let* existingGoals := getBudgetGoals in
     let updatedGoals := newGoal :: existingGoals in
     setItem_goals updatedGoals ;;;
     ret newGoal)
    (fun error => throw error).

(** [{ ...goal, ...updates }] *)
Definition merge_goal (goal : BudgetGoal) (updates : GoalUpdates) : BudgetGoal :=
  mkGoal (default (g_id goal) (gu_id updates))
    (default (g_category goal) (gu_category updates))
    (match gu_amount updates with Some n => Num n | None => g_amount goal end)
    (default (g_period goal) (gu_period updates))
    (default (g_isActive goal) (gu_isActive updates))
    (default (g_createdAt goal) (gu_createdAt updates)).

Definition updateBudgetGoal (id : string) (updates : GoalUpdates) : M unit :=
  try_catch
    (let* goals := getBudgetGoals in
     let updatedGoals :=
       map (fun goal => if String.eqb (g_id goal) id then merge_goal goal updates else goal)
         goals in
     setItem_goals updatedGoals)
    (fun error => throw error).

Definition deleteBudgetGoal (id : string) : M unit :=
  try_catch
    (let* goals := getBudgetGoals in
     let updatedGoals :=
       List.filter (fun goal => negb (String.eqb (g_id goal) id)) goals in
     setItem_goals updatedGoals)
    (fun error => throw error).

(** *** Alert evaluator *)

Record Alert : Type := mkAlert {
  a_goal : BudgetGoal;
  a_currentSpending : value;
  a_percentage : float
}.

Record Alerts : Type := mkAlerts {
  exceededGoals : list Alert;
  warningGoals : list Alert
}.

(** [stats.expensesByCategory[goal.category] || 0] *)
Definition currentSpending_of (stats : Stats) (goal : BudgetGoal) : value :=
  or_zero (js_get (expensesByCategory stats) (g_category goal)).

(** [(currentSpending / goal.amount) * 100] *)
Definition percentage_of (stats : Stats) (goal : BudgetGoal) : float :=
  (value_ToNumber (currentSpending_of stats goal) / ToNumber (g_amount goal)
   * 100)%float.

(** The body of [goals.forEach(goal => ...)]. *)
Definition evaluate_goal (stats : Stats) (acc : Alerts) (goal : BudgetGoal) : Alerts :=
  if negb (g_isActive goal) then acc
  else
    let currentSpending := currentSpending_of stats goal in
    let percentage := percentage_of stats goal in
    if js_ge percentage 100 then
      mkAlerts (exceededGoals acc ++ [mkAlert goal currentSpending percentage])
        (warningGoals acc)
    else if js_ge percentage 80 then
      mkAlerts (exceededGoals acc)
        (warningGoals acc ++ [mkAlert goal currentSpending percentage])
    else acc.

Definition evaluate_goals (goals : list BudgetGoal) (stats : Stats) : Alerts :=
  fold_left (evaluate_goal stats) goals (mkAlerts [] []).

Definition checkBudgetAlerts (month year : option Z) : M Alerts :=
  try_catch
    (let* goals := getBudgetGoals in
     let* stats := getTransactionStats month year in
     ret (evaluate_goals goals stats))
    (fun _ => ret (mkAlerts [] [])).

(** *** Category registry *)

Definition defaultExpenseCategories : list string :=
  ["Food & Dining"; "Transportation"; "Shopping"; "Entertainment";
   "Healthcare"; "Utilities"; "Housing"; "Education"; "Travel"; "Other"]%string.

Definition defaultIncomeCategories : list string :=
  ["Salary"; "Freelance"; "Investment"; "Business"; "Gift"; "Other Income"]%string.

(** [names.forEach((name, index) => categories.push({...}))], reading the
    clock once for each entry. *)
Fixpoint push_defaults (prefix : string) (ty : TxType) (names : list string)
    (index : nat) (categories : list Category) : M (list Category) :=
  match names with
  | [] => ret categories
  | name :: rest =>
      let* n := next_tick in
      push_defaults prefix ty rest (S index)
        (categories ++
           [mkCategory (prefix +:+ pretty index) name ty false None (nowISO n)])
  end.

Definition initializeDefaultCategories : M (list Category) :=
  let* categories := push_defaults "expense-" expense defaultExpenseCategories 0 [] in
  let* categories := push_defaults "income-" income defaultIncomeCategories 0 categories in
  setItem_categories categories ;;;
  ret categories.

Definition getCategories : M (list Category) :=
  try_catch
    (let* categoriesJson := getItem s_categories in
     match categoriesJson with
     | None =>
         let* defaultCategories := initializeDefaultCategories in
         ret defaultCategories
     | Some categories => ret categories
     end)
    (fun _ => ret []).

Definition addCategory (category : CategoryDraft) : M Category :=
  try_catch
    (let* n := next_tick in
     let id := genId n in
     let* n' := next_tick in
     let newCategory :=
       mkCategory id (cd_name category) (cd_type category) (cd_isCustom category)
         (cd_icon category) (nowISO n') in
     let* categories := getCategories in
     let updatedCategories := categories ++ [newCategory] in
     setItem_categories updatedCategories ;;;
     ret newCategory)
    (fun error => throw error).

Definition rename_transaction (oldCategoryName newCategoryName : string)
    (transaction : Transaction) : Transaction :=
  if String.eqb (t_category transaction) oldCategoryName then
    mkTransaction (t_id transaction) (t_type transaction) newCategoryName
      (t_amount transaction) (t_description transaction) (t_date transaction)
  else transaction.

Definition rename_goal (oldCategoryName newCategoryName : string)
    (goal : BudgetGoal) : BudgetGoal :=
  if String.eqb (g_category goal) oldCategoryName then
    mkGoal (g_id goal) newCategoryName (g_amount goal) (g_period goal)
      (g_isActive goal) (g_createdAt goal)
  else goal.

Definition updateCategoryInTransactions (oldCategoryName newCategoryName : string)
    : M unit :=
  try_catch
    (let* transactions := getTransactions None None in
     let updatedTransactions :=
       map (rename_transaction oldCategoryName newCategoryName) transactions in
     setItem_transactions updatedTransactions)
    (fun error => throw error).

Definition updateCategoryInGoals (oldCategoryName newCategoryName : string)
    : M unit :=
  try_catch
    (let* goals := getBudgetGoals in
     let updatedGoals := map (rename_goal oldCategoryName newCategoryName) goals in
     setItem_goals updatedGoals)
    (fun error => throw error).

(** [{ ...oldCategory, ...updates }] *)
Definition merge_category (oldCategory : Category) (updates : CategoryUpdates)
    : Category :=
  mkCategory (default (c_id oldCategory) (cu_id updates))
    (default (c_name oldCategory) (cu_name updates))
    (default (c_type oldCategory) (cu_type updates))
    (default (c_isCustom oldCategory) (cu_isCustom updates))
    (match cu_icon updates with Some i => Some i | None => c_icon oldCategory end)
    (default (c_createdAt oldCategory) (cu_createdAt updates)).

(** [categories.findIndex(cat => cat.id === id)], [None] for [-1]. *)
Fixpoint findIndex (id : string) (categories : list Category) : option nat :=
  match categories with
  | [] => None
  | cat :: rest =>
      if String.eqb (c_id cat) id then Some 0%nat
      else option_map S (findIndex id rest)
  end.

(** [updates.name && oldCategory.name !== updates.name]: the new name, when
    it is supplied, non-empty and different from the old one. *)
Definition name_changed (oldCategory : Category) (updates : CategoryUpdates)
    : option string :=
  match cu_name updates with
  | Some name =>
      if negb (String.eqb name "") && negb (String.eqb (c_name oldCategory) name)
      then Some name else None
  | None => None
  end.

Definition updateCategory (id : string) (updates : CategoryUpdates) : M unit :=
  try_catch
    (let* categories := getCategories in
     match findIndex id categories with
     | None => throw (Error "Category not found")
     | Some categoryIndex =>
         match categories !! categoryIndex with
         | None => throw (Error "TypeError")
         | Some oldCategory =>
             let updatedCategory := merge_category oldCategory updates in
             let categories := <[categoryIndex := updatedCategory]> categories in
             (match name_changed oldCategory updates with
              | Some name =>
                  updateCategoryInTransactions (c_name oldCategory) name ;;;
                  updateCategoryInGoals (c_name oldCategory) name
              | None => ret tt
              end) ;;;
             setItem_categories categories
         end
     end)
    (fun error => throw error).

Definition deleteCategory (id : string) : M unit :=
  try_catch
    (let* categories := getCategories in
     match List.find (fun cat => String.eqb (c_id cat) id) categories with
     | None => throw (Error "Category not found")
     | Some category =>
         if negb (c_isCustom category) then
           throw (Error "Cannot delete default categories")
         else
           let updatedCategories :=
             List.filter (fun cat => negb (String.eqb (c_id cat) id)) categories in
           updateCategoryInTransactions (c_name category) "Other" ;;;
           updateCategoryInGoals (c_name category) "Other" ;;;
           setItem_categories updatedCategories
     end)
    (fun error => throw error).

Definition clearAllData : M unit :=
  try_catch
    (put STORAGE_KEY (set_transactions None) ;;;
     put GOALS_STORAGE_KEY (set_goals None) ;;;
     put CATEGORIES_STORAGE_KEY (set_categories None))
    (fun error => throw error).

End DatabaseService.

(** ** A concrete platform: UTC, ISO 8601 date strings

    An instance of the parameters, used to run the service on concrete
    inputs.  [parse_iso] reads the two ECMAScript date-time string forms
    [YYYY-MM-DD] (UTC midnight) and [YYYY-MM-DDTHH:mm:ss(.sss)Z]; any other
    string is an Invalid Date. *)

Definition digit_of (a : ascii) : option Z :=
  let n := Z.of_nat (nat_of_ascii a) in
  if (48 <=? n) && (n <=? 57) then Some (n - 48) else None.

Fixpoint read_digits (k : nat) (acc : Z) (s : string) : option (Z * string) :=
  match k, s with
  | O, _ => Some (acc, s)
  | S k', String a s' =>
      d ← digit_of a; read_digits k' (acc * 10 + d) s'
  | S _, EmptyString => None
  end.

Definition expect (c : ascii) (s : string) : option string :=
  match s with
  | String a s' => if Ascii.eqb a c then Some s' else None
  | EmptyString => None
  end.

Definition DaysInMonth (year month : Z) : Z :=
  MakeDay year month 1 - MakeDay year (month - 1) 1.

Definition read_time (s : string) : option Z :=
  s ← expect "T" s;
  '(h, s) ← read_digits 2 0 s;
  s ← expect ":" s;
  '(mi, s) ← read_digits 2 0 s;
  s ← expect ":" s;
  '(sec, s) ← read_digits 2 0 s;
  '(ms, s) ← match expect "." s with
              | Some s' => read_digits 3 0 s'
              | None => Some (0, s)
              end;
  s ← expect "Z" s;
  if String.eqb s "" && (h <=? 23) && (mi <=? 59) && (sec <=? 59)
  then Some (MakeTime h mi sec ms) else None.

Definition parse_iso (s : string) : option Z :=
  '(y, s) ← read_digits 4 0 s;
  s ← expect "-" s;
  '(m, s) ← read_digits 2 0 s;
  s ← expect "-" s;
  '(d, s) ← read_digits 2 0 s;
  time ← (if String.eqb s "" then Some 0 else read_time s);
  if (1 <=? m) && (m <=? 12) && (1 <=? d) && (d <=? DaysInMonth y m)
  then TimeClip (MakeDate (MakeDay y (m - 1) d) time) else None.

Definition utc_zone (t : Z) : Z := 0.

(** A device five hours behind UTC. *)
Definition est_zone (t : Z) : Z := -18000000.

Definition demo_id (n : nat) : string := "id-" +:+ pretty n.

Definition demo_now (n : nat) : string := "2024-03-01T12:00:00.000Z".

Definition world_of (s : Store) : World := mkWorld s [] 0 [].

(** Sample records. *)

Definition tx_food : Transaction :=
  mkTransaction "t1" expense "Food" (Num 50) None "2024-01-05".

Definition tx_salary : Transaction :=
  mkTransaction "t2" income "Salary" (Num 2000) None "2024-01-01".

Definition tx_last_second : Transaction :=
  mkTransaction "t3" expense "Food" (Num 7) None "2024-01-31T23:59:59.500Z".


Definition tx_february : Transaction :=
  mkTransaction "t6" expense "Food" (Num 30) None "2024-02-01".

Definition tx_groceries : Transaction :=
  mkTransaction "t5" expense "Food" (Num 400) None "2024-01-12".

(** An expense whose category is a key of [Object.prototype]. *)
Definition tx_proto : Transaction :=
  mkTransaction "t7" expense "__proto__" (Num 50) None "2024-01-05".

Definition tx_constructor : Transaction :=
  mkTransaction "t8" expense "constructor" (Num 50) None "2024-01-05".

(** A stored record whose id is the generator's first value. *)
Definition tx_same_id : Transaction :=
  mkTransaction "id-0" income "Salary" (Num 2000) None "2024-01-01".

(** A draft whose amount is [NaN]. *)
Definition draft_nan : TransactionDraft :=
  mkDraft expense "Food" nan None "2024-01-03".

Definition draft_rent : TransactionDraft :=
  mkDraft expense "Housing" 900 (Some "rent") "2024-01-03".

Definition cat_food : Category :=
  mkCategory "c1" "Food" expense true None "2024-01-01T00:00:00.000Z".

Definition cat_other : Category :=
  mkCategory "expense-9" "Other" expense false None "2024-01-01T00:00:00.000Z".

Definition goal_food : BudgetGoal :=
  mkGoal "g1" "Food" (Num 500) monthly true "2024-01-01T00:00:00.000Z".

Definition rename_to (name : string) : CategoryUpdates :=
  mkCategoryUpdates None (Some name) None None None None.

Definition demo_store : Store :=
  mkStore (Some [tx_food; tx_salary]) (Some [goal_food]) (Some [cat_food; cat_other]).

Definition demo_world : World := world_of demo_store.

Definition empty_world : World := world_of (mkStore None None None).

(** ** Vocabulary of the specification *)

Definition has_category (c : string) (t : Transaction) : bool :=
  String.eqb (t_category t) c.

(** The transaction carries one of two categories. *)
Definition has_either (c1 c2 : string) (t : Transaction) : bool :=
  has_category c1 t || has_category c2 t.

(** The collections as [JSON.parse] yields them. *)
Definition stored_transactions (w : World) : list Transaction :=
  JSON_parse_transactions (default [] (s_transactions (store w))).

Definition stored_goals (w : World) : list BudgetGoal :=
  JSON_parse_goals (default [] (s_goals (store w))).

(** The sum of the amounts of a list of transactions: the binary64 sum,
    taken from the left, starting from 0, a [null] amount counting as 0. *)
Definition sum_amounts (l : list Transaction) : float :=
  fold_left (fun sum a => (sum + ToNumber a)%float) (map t_amount l) 0%float.

(** The time value of a transaction's date. *)
Definition time_of (Date_parse : string -> option Z) (t : Transaction) : option Z :=
  Date_parse (t_date t).

Definition valid_date (Date_parse : string -> option Z) (t : Transaction) : Prop :=
  is_Some (time_of Date_parse t).

(** [a] may stand before [b] in a list ordered by date, most recent first. *)
Definition date_desc (Date_parse : string -> option Z) (a b : Transaction) : Prop :=
  exists ta tb,
    time_of Date_parse a = Some ta /\ time_of Date_parse b = Some tb /\ tb <= ta.

(** The transaction is dated exactly at time value [k]. *)
Definition at_time (Date_parse : string -> option Z) (k : Z) (t : Transaction) : bool :=
  match time_of Date_parse t with
  | Some z => z =? k
  | None => false
  end.

(** The spending a goal is measured against: the breakdown's entry for the
    goal's category, 0 if there is none
    ([expensesByCategory[goal.category] ?? 0]). *)
Definition spending (stats : Stats) (goal : BudgetGoal) : value :=
  default (VNumber 0) (js_get (expensesByCategory stats) (g_category goal)).

(** [spending / goal.amount * 100], in binary64. *)
Definition percentage (stats : Stats) (goal : BudgetGoal) : float :=
  (value_ToNumber (spending stats goal) / ToNumber (g_amount goal) * 100)%float.

Definition alert_for (stats : Stats) (goal : BudgetGoal) : Alert :=
  mkAlert goal (spending stats goal) (percentage stats goal).

Definition is_exceeded (stats : Stats) (goal : BudgetGoal) : bool :=
  g_isActive goal && js_ge (percentage stats goal) 100.

Definition is_warning (stats : Stats) (goal : BudgetGoal) : bool :=
  g_isActive goal && js_ge (percentage stats goal) 80
  && js_lt (percentage stats goal) 100.

(** What the fold leaves in the breakdown under key [c] when the selected
    expense transactions of category [c] carry the amounts [spent], in that
    order.  Nothing for [__proto__]; a string for the other keys of
    [Object.prototype]; otherwise the binary64 sum taken from the left, in
    which a partial sum that is [0], [-0] or [NaN] counts as [+0]. *)
Definition running_total (spent : list Amount) : float :=
  fold_left
    (fun sum a => ((if number_truthy sum then sum else 0) + ToNumber a)%float)
    spent 0%float.

Definition breakdown_entry (c : string) (spent : list Amount) : option value :=
  match spent with
  | [] => None
  | _ :: _ =>
      if String.eqb c "__proto__" then None
      else if inherited c then Some (VString c spent)
      else Some (VNumber (running_total spent))
  end.

(** The sum of the values of the breakdown, as the specification speaks of
    it: the values of the own properties added up from 0, a value that is
    not a number counting as [NaN].  It is 0 for a breakdown without keys,
    whatever the order of the keys. *)
Definition breakdown_total (stats : Stats) : float :=
  fold_left (fun sum v => (sum + value_ToNumber v)%float)
    (map snd (map_to_list (expensesByCategory stats))) 0%float.

(** What one expense of category [c] and amount [a] makes of the entry [e]
    under [c]. *)
Definition entry_step (c : string) (e : option value) (a : Amount) : option value :=
  let read :=
    match e with
    | Some v => Some v
    | None => if inherited c then Some (VObject c) else None
    end in
  let v := js_add (or_zero read) a in
  match e with
  | Some _ => Some v
  | None => if String.eqb c "__proto__" then None else Some v
  end.

(** The default entries that [push_defaults] appends when the first clock
    reading is [n]. *)
Fixpoint default_entries (nowISO : nat -> string) (prefix : string) (ty : TxType)
    (names : list string) (index n : nat) : list Category :=
  match names with
  | [] => []
  | name :: rest =>
      mkCategory (prefix +:+ pretty index) name ty false None (nowISO n)
      :: default_entries nowISO prefix ty rest (S index) (S n)
  end.

(** The sixteen default categories seeded at tick [n]. *)
Definition seeded_categories (nowISO : nat -> string) (n : nat) : list Category :=
  default_entries nowISO "expense-" expense defaultExpenseCategories 0 n
  ++ default_entries nowISO "income-" income defaultIncomeCategories 0 (n + 10).

(** The category list a successful [getCategories] yields in world [w], and
    the world it leaves: the stored list and [w] itself, or, when no list is
    stored yet, the freshly seeded defaults and [w] with them persisted. *)
Definition visible_categories (nowISO : nat -> string) (w : World) : list Category :=
  match s_categories (store w) with
  | Some categories => categories
  | None => seeded_categories nowISO (tick w)
  end.

Definition after_getCategories (nowISO : nat -> string) (w : World) : World :=
  match s_categories (store w) with
  | Some _ => w
  | None =>
      mkWorld (set_categories (Some (seeded_categories nowISO (tick w))) (store w))
        (faults w) (tick w + 16) (writes w ++ [CATEGORIES_STORAGE_KEY])
  end.


(** World [w] once the fault plan has been consumed down to [fs]. *)
Definition with_faults (w : World) (fs : list bool) : World :=
  mkWorld (store w) fs (tick w) (writes w).

(** The world in which [addCategory] calls [getCategories]: two readings of
    the oracles later. *)
Definition two_ticks (w : World) : World :=
  mkWorld (store w) (faults w) (S (S (tick w))) (writes w).

(** ** The other methods of the service and the computations of its callers *)

(** *** getUniqueCategories ([services/database.ts]) *)

Definition defaultCategories : list string :=
  ["Food & Dining"; "Transportation"; "Shopping"; "Entertainment";
   "Healthcare"; "Utilities"; "Housing"; "Education"; "Travel"; "Other"]%string.

(** [set.add(x)]: a set keeps its elements in order of first insertion. *)
Definition Set_add (set : list string) (x : string) : list string :=
  if existsb (String.eqb x) set then set else set ++ [x].

(** [[...new Set(l)]] *)
Definition Set_from (l : list string) : list string := fold_left Set_add l [].

(** The comparison [sort()] applies when it is given no comparator: the
    strings are compared by their UTF-16 code units. *)
Definition default_compare (x y : string) : option Z :=
  Some (match units_compare (code_units x) (code_units y) with
        | Lt => -1
        | Eq => 0
        | Gt => 1
        end).

Definition getUniqueCategories (Date_parse : string -> option Z) (LocalTZA : Z -> Z)
    : M (list string) :=
  try_catch
    (let* transactions := getTransactions Date_parse LocalTZA None None in
     let categories :=
       map t_category (List.filter (is_type expense) transactions) in
     let allCategories :=
       Array_sort default_compare (Set_from (categories ++ defaultCategories)) in
     ret allCategories)
    (fun _ => ret defaultCategories).

(** *** The budget goals screen ([screens/BudgetGoalsScreen.tsx]) *)

Record GoalProgress : Type := mkGoalProgress {
  p_currentSpending : value;
  p_percentage : float
}.

Definition getGoalProgress (stats : Stats) (goal : BudgetGoal) : GoalProgress :=
  let currentSpending := or_zero (js_get (expensesByCategory stats) (g_category goal)) in
  let percentage :=
    Math_min
      (value_ToNumber currentSpending / ToNumber (g_amount goal) * 100)%float 100 in
  mkGoalProgress currentSpending percentage.

Definition getProgressColor (percentage : float) : string :=
  if js_ge percentage 100 then "#FF3B30"
  else if js_ge percentage 80 then "#FF9500"
  else if js_ge percentage 60 then "#FFCC00"
  else "#34C759".

(** [{ isActive: !goal.isActive }] *)
Definition toggle_updates (goal : BudgetGoal) : GoalUpdates :=
  mkGoalUpdates None None None None (Some (negb (g_isActive goal))) None.

(** The storage effect of [handleToggleGoal]; an error ends in an alert
    dialog and is not rethrown. *)
Definition handleToggleGoal (goal : BudgetGoal) : M unit :=
  try_catch (updateBudgetGoal (g_id goal) (toggle_updates goal)) (fun _ => ret tt).

(** *** The annual report of the dashboard ([generatePDF], annual branch) *)

Definition months_of_year : list Z := [1; 2; 3; 4; 5; 6; 7; 8; 9; 10; 11; 12].

(** [for (month ...) { allYearTransactions.push(...await getTransactions(month, selectedYear)) }] *)
Fixpoint collect_months (Date_parse : string -> option Z) (LocalTZA : Z -> Z)
    (months : list Z) (selectedYear : Z) (allYearTransactions : list Transaction)
    : M (list Transaction) :=
  match months with
  | [] => ret allYearTransactions
  | month :: rest =>
      let* monthTransactions :=
        getTransactions Date_parse LocalTZA (Some month) (Some selectedYear) in
      collect_months Date_parse LocalTZA rest selectedYear
        (allYearTransactions ++ monthTransactions)
  end.

Definition annual_stats (allYearTransactions : list Transaction) : Stats :=
  let annualIncome :=
    fold_left add_amount (List.filter (is_type income) allYearTransactions) 0%float in
  let annualExpenses :=
    fold_left add_amount (List.filter (is_type expense) allYearTransactions) 0%float in
  let annualExpensesByCategory :=
    fold_left add_expense (List.filter (is_type expense) allYearTransactions) ∅ in
  mkStats annualIncome annualExpenses (annualIncome - annualExpenses)%float
    annualExpensesByCategory.

Definition generatePDF_annual (Date_parse : string -> option Z) (LocalTZA : Z -> Z)
    (selectedYear : Z) : M Stats :=
  let* allYearTransactions :=
    collect_months Date_parse LocalTZA months_of_year selectedYear [] in
  ret (annual_stats allYearTransactions).

(** Vocabulary for the properties of these functions. *)

(** [a] does not come after [b] in the order of the UTF-16 code units. *)
Definition units_le (a b : string) : Prop :=
  units_compare (code_units a) (code_units b) <> Gt.

(** The list of alerts has an entry for the goal. *)
Definition alerted (alerts : list Alert) (goal : BudgetGoal) : Prop :=
  exists alert, In alert alerts /\ a_goal alert = goal.

(** The transaction lies in one of the twelve month ranges of the year. *)
Definition in_year (Date_parse : string -> option Z) (LocalTZA : Z -> Z) (year : Z)
    (t : Transaction) : bool :=
  existsb (fun month => in_month Date_parse LocalTZA month year t) months_of_year.

(** More sample records. *)

Definition tx_big : Transaction :=
  mkTransaction "t9" expense "Housing" (Num 9007199254740992) None "2024-01-15".

Definition tx_one : Transaction :=
  mkTransaction "t10" expense "Food" (Num 1) None "2024-02-02".

Definition tx_one_more : Transaction :=
  mkTransaction "t11" expense "Food" (Num 1) None "2024-02-01".

Definition rounding_world : World :=
  world_of (mkStore (Some [tx_big; tx_one; tx_one_more]) None None).

Definition goal_rent : BudgetGoal :=
  mkGoal "g2" "Housing" (Num 900) monthly false "2024-01-01T00:00:00.000Z".

Definition draft_goal : GoalDraft := mkGoalDraft "Travel" 300 monthly true.

Definition draft_category : CategoryDraft :=
  mkCategoryDraft "Pets" expense true None.

Definition goals_world : World :=
  world_of (mkStore (Some [tx_food; tx_salary]) (Some [goal_food; goal_rent])
              (Some [cat_food; cat_other])).

Definition stats_groceries : Stats := compute_stats [tx_groceries].

Definition icon_only : CategoryUpdates :=
  mkCategoryUpdates None None None None (Some "cart"%string) None.

(** * Properties *)

(** ** Binary64 comparisons

    The comparisons of the primitive floats, through their specification on
    [spec_float]. *)

Section FloatOrder.
Local Open Scope float_scope.

Lemma cont_Eq_compare (m1 m2 : positive) :
  PosDef.Pos.compare_cont Eq m1 m2 = (m1 ?= m2)%positive.
Proof. reflexivity. Qed.

Lemma IntDef_compare (e1 e2 : Z) : IntDef.Z.compare e1 e2 = (e1 ?= e2)%Z.
Proof. reflexivity. Qed.

Lemma SFcompare_antisym (x y : spec_float) :
  SFcompare y x = option_map CompOpp (SFcompare x y).
Proof.
  destruct x as [sx|sx| |sx mx ex], y as [sy|sy| |sy my ey]; simpl; try done;
    try (by destruct sx); try (by destruct sy); try (by destruct sx, sy).
  rewrite !cont_Eq_compare, ?IntDef_compare.
  rewrite (Z.compare_antisym ex ey), (Pos.compare_antisym mx my).
  destruct sx, sy; simpl; try done;
    destruct (ex ?= ey)%Z; simpl; try done;
    by destruct (mx ?= my)%positive.
Qed.

Lemma SFcompare_refl (x : spec_float) :
  x <> S754_nan -> SFcompare x x = Some Eq.
Proof.
  destruct x as [s|s| |s m e]; simpl; intros H; try done;
    try (by destruct s).
  rewrite cont_Eq_compare, ?IntDef_compare, Z.compare_refl, Pos.compare_refl.
  by destruct s.
Qed.

Lemma SFcompare_None (x y : spec_float) :
  SFcompare x y = None <-> x = S754_nan \/ y = S754_nan.
Proof.
  destruct x as [sx|sx| |sx mx ex], y as [sy|sy| |sy my ey]; simpl;
    split; intros H; try done; try (by left); try (by right);
    by destruct H.
Qed.

Lemma is_nan_spec (x : float) : is_nan x = true <-> Prim2SF x = S754_nan.
Proof.
  unfold is_nan. rewrite FloatAxioms.eqb_spec. unfold SFeqb. split.
  - intros H. destruct (Prim2SF x) as [s|s| |s m e] eqn:E; try done.
    + destruct s; simpl in H; discriminate.
    + by rewrite (SFcompare_refl (S754_finite s m e)) in H.
  - by intros ->.
Qed.

Lemma is_nan_false (x : float) : is_nan x = false <-> Prim2SF x <> S754_nan.
Proof.
  rewrite <- is_nan_spec. by destruct (is_nan x).
Qed.

Lemma leb_not_nan (x y : float) :
  (x <=? y) = true -> is_nan x = false /\ is_nan y = false.
Proof.
  rewrite FloatAxioms.leb_spec, !is_nan_false. unfold SFleb. intros H.
  split; intros E; rewrite E in H; [done|].
  by destruct (Prim2SF x).
Qed.

Lemma ltb_not_nan (x y : float) :
  (x <? y) = true -> is_nan x = false /\ is_nan y = false.
Proof.
  rewrite FloatAxioms.ltb_spec, !is_nan_false. unfold SFltb. intros H.
  split; intros E; rewrite E in H; [done|].
  by destruct (Prim2SF x).
Qed.

(** Two numbers, neither of them [NaN], are comparable. *)
Lemma ltb_leb_total (x y : float) :
  is_nan x = false -> is_nan y = false -> (x <? y) = negb (y <=? x).
Proof.
  rewrite !is_nan_false, FloatAxioms.ltb_spec, FloatAxioms.leb_spec. unfold SFltb, SFleb. intros Hx Hy.
  rewrite (SFcompare_antisym (Prim2SF x) (Prim2SF y)).
  destruct (SFcompare (Prim2SF x) (Prim2SF y)) as [[]|] eqn:E; try done.
  apply SFcompare_None in E. by destruct E.
Qed.

Lemma ltb_leb (x y : float) : (x <? y) = true -> (x <=? y) = true.
Proof.
  rewrite FloatAxioms.ltb_spec, FloatAxioms.leb_spec. unfold SFltb, SFleb.
  by destruct (SFcompare (Prim2SF x) (Prim2SF y)) as [[]|].
Qed.

Lemma ltb_asym (x y : float) : (x <? y) = true -> (y <=? x) = false.
Proof.
  intros H. destruct (ltb_not_nan x y H) as [Hx Hy].
  rewrite (ltb_leb_total x y Hx Hy) in H. by destruct (y <=? x).
Qed.

Lemma lex_Lt (e1 e2 : Z) (m1 m2 : positive) :
  match (e1 ?= e2)%Z with
  | Eq => (m1 ?= m2)%positive
  | Lt => Lt
  | Gt => Gt
  end = Lt <-> (e1 < e2)%Z \/ (e1 = e2 /\ (m1 < m2)%positive).
Proof.
  destruct (Z.compare_spec e1 e2) as [->|H|H].
  - rewrite Pos.compare_lt_iff. intuition lia.
  - intuition lia.
  - split; [done|]. intros [?|[? _]]; lia.
Qed.

Lemma lex_Gt (e1 e2 : Z) (m1 m2 : positive) :
  match (e1 ?= e2)%Z with
  | Eq => (m1 ?= m2)%positive
  | Lt => Lt
  | Gt => Gt
  end = Gt <-> (e2 < e1)%Z \/ (e1 = e2 /\ (m2 < m1)%positive).
Proof.
  destruct (Z.compare_spec e1 e2) as [->|H|H].
  - rewrite Pos.compare_gt_iff. intuition lia.
  - split; [done|]. intros [?|[? _]]; lia.
  - intuition lia.
Qed.

Lemma lex_Opp_Lt (e1 e2 : Z) (m1 m2 : positive) :
  match (e1 ?= e2)%Z with
  | Eq => CompOpp (m1 ?= m2)%positive
  | Lt => Gt
  | Gt => Lt
  end = Lt <-> (e2 < e1)%Z \/ (e1 = e2 /\ (m2 < m1)%positive).
Proof.
  rewrite <- lex_Gt.
  destruct (e1 ?= e2)%Z; try done. by destruct (m1 ?= m2)%positive.
Qed.

Lemma SFcompare_Lt_trans (x y z : spec_float) :
  SFcompare x y = Some Lt -> SFcompare y z = Some Lt -> SFcompare x z = Some Lt.
Proof.
  destruct x as [sx|sx| |sx mx ex], y as [sy|sy| |sy my ey],
    z as [sz|sz| |sz mz ez]; simpl; try done;
    try (by destruct sx); try (by destruct sy); try (by destruct sz);
    try (by destruct sx, sy); try (by destruct sy, sz);
    try (by destruct sx, sz); try (by destruct sx, sy, sz).
  rewrite !cont_Eq_compare, ?IntDef_compare.
  destruct sx, sy, sz; try done; intros H1 H2;
    injection H1 as H1; injection H2 as H2; f_equal.
  - apply lex_Opp_Lt in H1, H2. apply lex_Opp_Lt. lia.
  - apply lex_Lt in H1, H2. apply lex_Lt. lia.
Qed.

Lemma ltb_trans (x y z : float) :
  (x <? y) = true -> (y <? z) = true -> (x <? z) = true.
Proof.
  rewrite !FloatAxioms.ltb_spec. unfold SFltb. intros H1 H2.
  destruct (SFcompare (Prim2SF x) (Prim2SF y)) as [[]|] eqn:E1; try done.
  destruct (SFcompare (Prim2SF y) (Prim2SF z)) as [[]|] eqn:E2; try done.
  by rewrite (SFcompare_Lt_trans _ _ _ E1 E2).
Qed.

Lemma lex_Eq (e1 e2 : Z) (m1 m2 : positive) :
  match (e1 ?= e2)%Z with
  | Eq => (m1 ?= m2)%positive
  | Lt => Lt
  | Gt => Gt
  end = Eq <-> e1 = e2 /\ m1 = m2.
Proof.
  destruct (Z.compare_spec e1 e2) as [->|H|H].
  - rewrite Pos.compare_eq_iff. intuition.
  - split; [done|]. intros [? _]; lia.
  - split; [done|]. intros [? _]; lia.
Qed.

Lemma lex_Opp_Eq (e1 e2 : Z) (m1 m2 : positive) :
  match (e1 ?= e2)%Z with
  | Eq => CompOpp (m1 ?= m2)%positive
  | Lt => Gt
  | Gt => Lt
  end = Eq <-> e1 = e2 /\ m1 = m2.
Proof.
  rewrite <- lex_Eq.
  destruct (e1 ?= e2)%Z; try done. by destruct (m1 ?= m2)%positive.
Qed.

Lemma SFcompare_Eq_Lt (x y z : spec_float) :
  SFcompare x y = Some Eq -> SFcompare y z = Some Lt -> SFcompare x z = Some Lt.
Proof.
  destruct x as [sx|sx| |sx mx ex], y as [sy|sy| |sy my ey],
    z as [sz|sz| |sz mz ez]; simpl; try done;
    try (by destruct sx); try (by destruct sy); try (by destruct sz);
    try (by destruct sx, sy); try (by destruct sy, sz);
    try (by destruct sx, sz); try (by destruct sx, sy, sz).
  rewrite !cont_Eq_compare, ?IntDef_compare.
  destruct sx, sy, sz; try done; intros H1 H2;
    injection H1 as H1; injection H2 as H2.
  - apply lex_Opp_Eq in H1 as [-> ->]. f_equal. exact H2.
  - apply lex_Eq in H1 as [-> ->]. f_equal. exact H2.
Qed.

Lemma SFcompare_Lt_Eq (x y z : spec_float) :
  SFcompare x y = Some Lt -> SFcompare y z = Some Eq -> SFcompare x z = Some Lt.
Proof.
  destruct x as [sx|sx| |sx mx ex], y as [sy|sy| |sy my ey],
    z as [sz|sz| |sz mz ez]; simpl; try done;
    try (by destruct sx); try (by destruct sy); try (by destruct sz);
    try (by destruct sx, sy); try (by destruct sy, sz);
    try (by destruct sx, sz); try (by destruct sx, sy, sz).
  rewrite !cont_Eq_compare, ?IntDef_compare.
  destruct sx, sy, sz; try done; intros H1 H2;
    injection H1 as H1; injection H2 as H2.
  - apply lex_Opp_Eq in H2 as [<- <-]. f_equal. exact H1.
  - apply lex_Eq in H2 as [<- <-]. f_equal. exact H1.
Qed.

Lemma leb_ltb_trans (x y z : float) :
  (x <=? y) = true -> (y <? z) = true -> (x <? z) = true.
Proof.
  rewrite !FloatAxioms.ltb_spec, FloatAxioms.leb_spec. unfold SFltb, SFleb.
  intros H1 H2.
  destruct (SFcompare (Prim2SF y) (Prim2SF z)) as [[]|] eqn:E2; try done.
  destruct (SFcompare (Prim2SF x) (Prim2SF y)) as [[]|] eqn:E1; try done.
  - by rewrite (SFcompare_Eq_Lt _ _ _ E1 E2).
  - by rewrite (SFcompare_Lt_trans _ _ _ E1 E2).
Qed.

Lemma ltb_leb_trans (x y z : float) :
  (x <? y) = true -> (y <=? z) = true -> (x <? z) = true.
Proof.
  rewrite !FloatAxioms.ltb_spec, FloatAxioms.leb_spec. unfold SFltb, SFleb.
  intros H1 H2.
  destruct (SFcompare (Prim2SF x) (Prim2SF y)) as [[]|] eqn:E1; try done.
  destruct (SFcompare (Prim2SF y) (Prim2SF z)) as [[]|] eqn:E2; try done.
  - by rewrite (SFcompare_Lt_Eq _ _ _ E1 E2).
  - by rewrite (SFcompare_Lt_trans _ _ _ E1 E2).
Qed.

(** A comparison with [NaN] is false. *)
Lemma leb_nan_r (x y : float) : is_nan y = true -> (x <=? y) = false.
Proof.
  intros H. destruct (x <=? y) eqn:E; [|done].
  destruct (leb_not_nan x y E) as [_ Hy]. congruence.
Qed.

(** A falsy number is a zero or [NaN]. *)
Lemma number_falsy (n : float) :
  number_truthy n = false ->
  Prim2SF n = S754_nan \/ exists s, Prim2SF n = S754_zero s.
Proof.
  unfold number_truthy. intros H. apply negb_false_iff, orb_true_iff in H.
  destruct H as [H|H]; [|left; by apply is_nan_spec].
  unfold is_zero in H. rewrite FloatAxioms.eqb_spec in H. unfold SFeqb in H.
  change (Prim2SF PrimFloat.zero) with (S754_zero false) in H.
  destruct (Prim2SF n) as [s|s| |s m e]; simpl in H; try done.
  - right. by exists s.
  - by destruct s.
  - by destruct s.
Qed.

(** A falsy spending never reaches a positive threshold, whatever the
    amount of the goal. *)
Lemma falsy_percentage (n a c : float) :
  number_truthy n = false -> (0 <? c) = true -> js_ge (n / a * 100) c = false.
Proof.
  intros Hn Hc. unfold js_ge. rewrite FloatAxioms.leb_spec, FloatAxioms.mul_spec, FloatAxioms.div_spec.
  rewrite FloatAxioms.ltb_spec in Hc. change (Prim2SF 0) with (S754_zero false) in Hc.
  change (Prim2SF 100) with (S754_finite false 7036874417766400 (-46)).
  unfold SFltb in Hc. unfold SFleb.
  destruct (number_falsy n Hn) as [->|[s ->]].
  - simpl. by destruct (Prim2SF c).
  - destruct (Prim2SF c) as [sc|sc| |sc mc ec]; simpl in Hc; try done;
      destruct sc; try done;
      destruct (Prim2SF a) as [sa|sa| |sa ma ea]; simpl; done.
Qed.

End FloatOrder.

(** ** JSON images *)

Lemma JSON_number_idem (a : Amount) : JSON_number (JSON_number a) = JSON_number a.
Proof.
  destruct a as [n|]; [|done]. simpl.
  destruct (is_finite n) eqn:F; [|done].
  destruct (is_zero n) eqn:Z; simpl; [done|]. by rewrite F, Z.
Qed.

Lemma JSON_transaction_idem (t : Transaction) :
  JSON_transaction (JSON_transaction t) = JSON_transaction t.
Proof. unfold JSON_transaction. simpl. by rewrite JSON_number_idem. Qed.

Lemma JSON_goal_idem (g : BudgetGoal) : JSON_goal (JSON_goal g) = JSON_goal g.
Proof. unfold JSON_goal. simpl. by rewrite JSON_number_idem. Qed.

(** A number that is finite and not a zero is written and read back as it
    is. *)
Lemma JSON_number_finite (n : float) :
  is_finite n = true -> is_zero n = false -> JSON_number (Num n) = Num n.
Proof. simpl. by intros -> ->. Qed.

Lemma JSON_number_not_finite (n : float) :
  is_finite n = false -> JSON_number (Num n) = Null.
Proof. simpl. by intros ->. Qed.

Lemma map_fixed {A} (f : A -> A) (l : list A) :
  Forall (fun x => f x = x) l -> map f l = l.
Proof. induction 1 as [|x l Hx _ IH]; simpl; [done|]. by rewrite Hx, IH. Qed.

Lemma Forall_filter_list {A} (P : A -> Prop) (f : A -> bool) (l : list A) :
  Forall P l -> Forall P (List.filter f l).
Proof.
  induction 1 as [|x l Hx _ IH]; simpl; [constructor|].
  destruct (f x); [by constructor | done].
Qed.

Lemma stored_transactions_JSON (w : World) :
  Forall (fun t => JSON_transaction t = t) (stored_transactions w).
Proof.
  unfold stored_transactions, JSON_parse_transactions.
  apply Forall_map, Forall_forall. intros t _. apply JSON_transaction_idem.
Qed.

Lemma stored_goals_JSON (w : World) :
  Forall (fun g => JSON_goal g = g) (stored_goals w).
Proof.
  unfold stored_goals, JSON_parse_goals.
  apply Forall_map, Forall_forall. intros g _. apply JSON_goal_idem.
Qed.

Lemma rename_transaction_JSON (old new : string) (t : Transaction) :
  JSON_transaction t = t ->
  JSON_transaction (rename_transaction old new t) = rename_transaction old new t.
Proof.
  intros H. unfold rename_transaction.
  destruct (String.eqb (t_category t) old); [|done].
  unfold JSON_transaction. simpl. f_equal.
  by apply (f_equal t_amount) in H.
Qed.

Lemma rename_goal_JSON (old new : string) (g : BudgetGoal) :
  JSON_goal g = g -> JSON_goal (rename_goal old new g) = rename_goal old new g.
Proof.
  intros H. unfold rename_goal.
  destruct (String.eqb (g_category g) old); [|done].
  unfold JSON_goal. simpl. f_equal.
  by apply (f_equal g_amount) in H.
Qed.

Lemma filter_perm {A} (f : A -> bool) (l1 l2 : list A) :
  Permutation l1 l2 -> Permutation (List.filter f l1) (List.filter f l2).
Proof.
  induction 1 as [|x l l' _ IH|x y l|l l' l'' _ IH1 _ IH2]; simpl.
  - done.
  - destruct (f x); [by constructor | done].
  - destruct (f x), (f y); try done. apply perm_swap.
  - by etrans.
Qed.

(** ** The sort *)

Section SortFacts.
Context {A : Type} (comparefn : A -> A -> option Z).

Lemma sort_insert_perm (x : A) (l : list A) :
  Permutation (sort_insert comparefn x l) (x :: l).
Proof.
  induction l as [|y l IH]; simpl; [done|].
  destruct (SortCompare comparefn x y <=? 0); [done|].
  rewrite IH. apply perm_swap.
Qed.

Lemma Array_sort_perm (l : list A) : Permutation (Array_sort comparefn l) l.
Proof.
  induction l as [|x l IH]; simpl; [done|].
  rewrite sort_insert_perm. by constructor.
Qed.

(** Where the inserted element lands: after a run of elements that the
    comparator puts strictly before it. *)
Lemma sort_insert_split (x : A) (l : list A) :
  exists l1 l2,
    sort_insert comparefn x l = l1 ++ x :: l2 /\ l = l1 ++ l2 /\
    Forall (fun e => 0 < SortCompare comparefn x e) l1.
Proof.
  induction l as [|y l (l1 & l2 & E & El & F)]; simpl.
  - exists [], []. by repeat split.
  - destruct (SortCompare comparefn x y <=? 0) eqn:C.
    + exists [], (y :: l). by repeat split.
    + exists (y :: l1), l2. rewrite E, El. repeat split.
      constructor; [lia | done].
Qed.

Lemma Array_sort_Forall (P : A -> Prop) (l : list A) :
  Forall P l -> Forall P (Array_sort comparefn l).
Proof. intros H. by rewrite Array_sort_perm. Qed.

(** The sort commutes with a map that the comparator does not see. *)
Lemma sort_insert_map (f : A -> A) (x : A) (l : list A) :
  (forall a b, comparefn (f a) (f b) = comparefn a b) ->
  sort_insert comparefn (f x) (map f l) = map f (sort_insert comparefn x l).
Proof.
  intros H. induction l as [|y l IH]; simpl; [done|].
  unfold SortCompare. rewrite H.
  destruct (default 0 (comparefn x y) <=? 0); simpl; [done|]. by rewrite IH.
Qed.

Lemma Array_sort_map (f : A -> A) (l : list A) :
  (forall a b, comparefn (f a) (f b) = comparefn a b) ->
  Array_sort comparefn (map f l) = map f (Array_sort comparefn l).
Proof.
  intros H. induction l as [|x l IH]; simpl; [done|].
  by rewrite IH, sort_insert_map.
Qed.

End SortFacts.

Section Properties.
Variable Date_parse : string -> option Z.
Variable LocalTZA : Z -> Z.
Variable genId : nat -> string.
Variable nowISO : nat -> string.

Local Abbreviation by_date := (by_date_desc Date_parse).
Local Abbreviation sorted_by_date := (Array_sort (by_date_desc Date_parse)).

Lemma SortCompare_by_date (a b : Transaction) (ta tb : Z) :
  time_of Date_parse a = Some ta -> time_of Date_parse b = Some tb ->
  SortCompare by_date a b = tb - ta.
Proof.
  unfold SortCompare, by_date_desc, time_of. by intros -> ->.
Qed.

Lemma SortCompare_pos (a b : Transaction) :
  0 < SortCompare by_date a b ->
  exists ta tb,
    time_of Date_parse a = Some ta /\ time_of Date_parse b = Some tb /\ ta < tb.
Proof.
  unfold SortCompare, by_date_desc, time_of.
  destruct (Date_parse (t_date b)) as [tb|], (Date_parse (t_date a)) as [ta|];
    simpl; try lia.
  intros H. exists ta, tb. repeat split. lia.
Qed.

Lemma sort_insert_sorted (x : Transaction) (l : list Transaction) :
  valid_date Date_parse x -> Forall (valid_date Date_parse) l ->
  StronglySorted (date_desc Date_parse) l ->
  StronglySorted (date_desc Date_parse) (sort_insert by_date x l).
Proof.
  intros [tx Hx] Hv Hs. induction Hs as [|y l Hs IH Hy]; simpl.
  - repeat constructor.
  - apply Forall_cons in Hv as [[ty Hty] Hv].
    rewrite (SortCompare_by_date x y tx ty) by done.
    destruct (ty - tx <=? 0) eqn:C.
    + constructor; [by constructor|].
      constructor; [exists tx, ty; repeat split; [done..|lia]|].
      eapply Forall_impl; [exact Hy|].
      intros e (ty' & te & Hty' & Hte & Hle).
      exists tx, te. repeat split; [done..|].
      rewrite Hty in Hty'. injection Hty' as <-. lia.
    + constructor; [by apply IH|].
      rewrite sort_insert_perm. constructor; [|done].
      exists ty, tx. repeat split; [done..|lia].
Qed.

Lemma Array_sort_valid (l : list Transaction) :
  Forall (valid_date Date_parse) l ->
  Forall (valid_date Date_parse) (sorted_by_date l).
Proof. intros H. by rewrite Array_sort_perm. Qed.

(** Parseable dates come out most recent first. *)
Lemma Array_sort_sorted (l : list Transaction) :
  Forall (valid_date Date_parse) l ->
  StronglySorted (date_desc Date_parse) (sorted_by_date l).
Proof.
  induction 1 as [|x l Hx Hl IH]; simpl; [constructor|].
  apply sort_insert_sorted; [done| |done].
  by apply Array_sort_valid.
Qed.

Lemma sort_insert_stable (k : Z) (x : Transaction) (l : list Transaction) :
  List.filter (at_time Date_parse k) (sort_insert by_date x l)
  = List.filter (at_time Date_parse k) (x :: l).
Proof.
  induction l as [|y l IH]; simpl; [done|].
  destruct (SortCompare by_date x y <=? 0) eqn:C; [done|].
  simpl. rewrite IH. simpl.
  destruct (at_time Date_parse k x) eqn:Ex; [|done].
  destruct (at_time Date_parse k y) eqn:Ey; [|done].
  exfalso. apply Z.leb_gt in C.
  apply SortCompare_pos in C as (tx & ty & Hx & Hy & Hlt).
  unfold at_time in Ex, Ey. rewrite Hx in Ex. rewrite Hy in Ey. lia.
Qed.

(** A list already in date order is left as it is. *)
Lemma Array_sort_sorted_id (l : list Transaction) :
  StronglySorted (date_desc Date_parse) l -> sorted_by_date l = l.
Proof.
  induction 1 as [|x l Hs IH Hx]; simpl; [done|].
  rewrite IH. destruct l as [|y l']; simpl; [done|].
  apply Forall_cons in Hx as [(tx & ty & Htx & Hty & Hle) _].
  rewrite (SortCompare_by_date x y tx ty) by done.
  destruct (Z.leb_spec (ty - tx) 0); [done|lia].
Qed.

Lemma Array_sort_idempotent (l : list Transaction) :
  Forall (valid_date Date_parse) l ->
  sorted_by_date (sorted_by_date l) = sorted_by_date l.
Proof. intros H. by apply Array_sort_sorted_id, Array_sort_sorted. Qed.

(** Stability: the records dated at any one instant keep their order. *)
Lemma Array_sort_stable (k : Z) (l : list Transaction) :
  List.filter (at_time Date_parse k) (sorted_by_date l)
  = List.filter (at_time Date_parse k) l.
Proof.
  induction l as [|x l IH]; simpl; [done|].
  rewrite sort_insert_stable. simpl. by rewrite IH.
Qed.

(** ** Running the service when no storage call fails *)

Lemma storage_call_quiet (w : World) :
  faults w = [] -> storage_call w = (Ok tt, w).
Proof. unfold storage_call. by intros ->. Qed.

Lemma getItem_quiet {A} (proj : Store -> option A) (w : World) :
  faults w = [] -> getItem proj w = (Ok (proj (store w)), w).
Proof. intros H. unfold getItem, bind. by rewrite storage_call_quiet. Qed.

Lemma put_quiet (k : Key) (upd : Store -> Store) (w : World) :
  faults w = [] ->
  put k upd w = (Ok tt, mkWorld (upd (store w)) [] (tick w) (writes w ++ [k])).
Proof.
  intros H. unfold put, bind. rewrite storage_call_quiet by done. by rewrite H.
Qed.

Lemma month_filter_nil (month year : option Z) : month_filter Date_parse LocalTZA month year [] = [].
Proof.
  unfold month_filter. destruct month, year; try done.
  by destruct (truthy _ && truthy _).
Qed.

Lemma month_filter_Forall (P : Transaction -> Prop) (month year : option Z)
    (l : list Transaction) :
  Forall P l -> Forall P (month_filter Date_parse LocalTZA month year l).
Proof.
  intros H. unfold month_filter. destruct month, year; try done.
  destruct (truthy _ && truthy _); [|done]. by apply Forall_filter_list.
Qed.

Lemma getTransactions_quiet (month year : option Z) (w : World) :
  faults w = [] ->
  getTransactions Date_parse LocalTZA month year w
  = (Ok (sorted_by_date
           (month_filter Date_parse LocalTZA month year (stored_transactions w))), w).
Proof.
  intros H. unfold getTransactions, try_catch, bind, stored_transactions.
  rewrite getItem_quiet by done.
  destruct (s_transactions (store w)); simpl; [done|].
  by rewrite month_filter_nil.
Qed.

(** What [getTransactions] returns is its own JSON image. *)
Lemma selected_JSON (month year : option Z) (w : World) :
  Forall (fun t => JSON_transaction t = t)
    (sorted_by_date
       (month_filter Date_parse LocalTZA month year (stored_transactions w))).
Proof.
  apply Array_sort_Forall, month_filter_Forall, stored_transactions_JSON.
Qed.

(** [getTransactions] never throws: its [catch] block returns. *)
Lemma getTransactions_total (month year : option Z) (w : World) :
  exists l w', getTransactions Date_parse LocalTZA month year w = (Ok l, w').
Proof.
  unfold getTransactions, try_catch, bind, getItem, bind, storage_call, ret.
  destruct (faults w) as [|[] fs]; simpl; eauto;
    destruct (s_transactions (store w)); eauto.
Qed.

Lemma getBudgetGoals_quiet (w : World) :
  faults w = [] -> getBudgetGoals w = (Ok (stored_goals w), w).
Proof.
  intros H. unfold getBudgetGoals, try_catch, bind, stored_goals.
  rewrite getItem_quiet by done.
  by destruct (s_goals (store w)).
Qed.

Lemma getTransactionStats_quiet (month year : option Z) (w : World) :
  faults w = [] ->
  getTransactionStats Date_parse LocalTZA month year w
  = (Ok (compute_stats
           (sorted_by_date
              (month_filter Date_parse LocalTZA month year (stored_transactions w)))), w).
Proof.
  intros H. unfold getTransactionStats, bind.
  by rewrite getTransactions_quiet.
Qed.

(** The collection a write leaves, read back. *)
Lemma stored_transactions_set (l : list Transaction) (s : Store) (fs : list bool)
    (n : nat) (ws : list Key) :
  stored_transactions (mkWorld (set_transactions (Some l) s) fs n ws)
  = map JSON_transaction l.
Proof. done. Qed.

Lemma stored_goals_set (l : list BudgetGoal) (s : Store) (fs : list bool)
    (n : nat) (ws : list Key) :
  stored_goals (mkWorld (set_goals (Some l) s) fs n ws) = map JSON_goal l.
Proof. done. Qed.

(** ** Statistics engine *)

Lemma fold_left_add_amount (l : list Transaction) (acc : float) :
  fold_left add_amount l acc
  = fold_left (fun sum a => (sum + ToNumber a)%float) (map t_amount l) acc.
Proof. revert acc. induction l as [|t l IH]; intros acc; simpl; [done|]. apply IH. Qed.

Lemma compute_stats_income (l : list Transaction) :
  totalIncome (compute_stats l) = sum_amounts (List.filter (is_type income) l).
Proof. apply fold_left_add_amount. Qed.

Lemma compute_stats_expense (l : list Transaction) :
  totalExpense (compute_stats l) = sum_amounts (List.filter (is_type expense) l).
Proof. apply fold_left_add_amount. Qed.


(** C2. For every world and every (month, year) selector,
    [getTransactionStats] returns [totalIncome] equal to the sum of the
    amounts of the selected transactions of type income, [totalExpense]
    equal to the sum of those of type expense, and [netBalance] equal to
    [totalIncome - totalExpense].  The selected transactions are those that
    [getTransactions] returns for the selector, the stored ones that pass
    the month filter, in date order; the sums and the difference are the
    binary64 ones, taken from the left in that order. *)
Theorem getTransactionStats_totals (w : World) (month year : option Z) :
  exists selected stats w',
    getTransactions Date_parse LocalTZA month year w = (Ok selected, w') /\
    getTransactionStats Date_parse LocalTZA month year w = (Ok stats, w') /\
    totalIncome stats = sum_amounts (List.filter (is_type income) selected) /\
    totalExpense stats = sum_amounts (List.filter (is_type expense) selected) /\
    netBalance stats = (totalIncome stats - totalExpense stats)%float /\
    (faults w = [] ->
     w' = w /\
     selected
     = sorted_by_date
         (month_filter Date_parse LocalTZA month year (stored_transactions w)) /\
     Permutation selected
       (month_filter Date_parse LocalTZA month year (stored_transactions w))).
Proof.
  destruct (getTransactions_total month year w) as (l & w' & E).
  exists l, (compute_stats l), w'. split; [done|].
  split; [unfold getTransactionStats, bind; by rewrite E|].
  split; [apply compute_stats_income|]. split; [apply compute_stats_expense|].
  split; [done|]. intros H. rewrite getTransactions_quiet in E by done.
  injection E as <- <-. split; [done|]. split; [done|]. apply Array_sort_perm.
Qed.

(** *** The breakdown *)

Lemma add_expense_lookup (acc : gmap string value) (t : Transaction) (c : string) :
  add_expense acc t !! c
  = if has_category c t then entry_step c (acc !! c) (t_amount t) else acc !! c.
Proof.
  unfold add_expense, has_category, js_set, js_get, entry_step.
  destruct (String.eqb_spec (t_category t) c) as [->|Hne].
  - destruct (acc !! c) as [v|] eqn:E.
    + by rewrite lookup_insert_eq.
    + destruct (String.eqb c "__proto__"); [done|]. by rewrite lookup_insert_eq.
  - destruct (acc !! t_category t) as [v|] eqn:E.
    + by rewrite lookup_insert_ne.
    + destruct (String.eqb (t_category t) "__proto__"); [done|].
      by rewrite lookup_insert_ne.
Qed.

Lemma fold_add_expense_lookup (l : list Transaction) (acc : gmap string value)
    (c : string) :
  fold_left add_expense l acc !! c
  = fold_left (entry_step c) (map t_amount (List.filter (has_category c) l))
      (acc !! c).
Proof.
  revert acc. induction l as [|t l IH]; intros acc; simpl; [done|].
  rewrite IH, add_expense_lookup. by destruct (has_category c t).
Qed.

Lemma entry_step_proto (spent : list Amount) :
  fold_left (entry_step "__proto__") spent None = None.
Proof. induction spent as [|a l IH]; simpl; [done|]. exact IH. Qed.

Lemma entry_step_string (c k : string) (l : list Amount) (a : Amount) :
  entry_step c (Some (VString k l)) a = Some (VString k (l ++ [a])).
Proof. done. Qed.

Lemma entry_step_sum (c : string) (sum : float) (a : Amount) :
  entry_step c (Some (VNumber sum)) a
  = Some (VNumber ((if number_truthy sum then sum else 0) + ToNumber a)%float).
Proof. unfold entry_step. simpl. by destruct (number_truthy sum). Qed.

Lemma entry_step_inherited (c k : string) (spent l : list Amount) :
  fold_left (entry_step c) spent (Some (VString k l)) = Some (VString k (l ++ spent)).
Proof.
  revert l. induction spent as [|a spent IH]; intros l; cbn [fold_left].
  - by rewrite app_nil_r.
  - rewrite entry_step_string, IH. by rewrite <- app_assoc.
Qed.

Lemma entry_step_number (c : string) (spent : list Amount) (sum : float) :
  fold_left (entry_step c) spent (Some (VNumber sum))
  = Some (VNumber
            (fold_left
               (fun sum a =>
                  ((if number_truthy sum then sum else 0) + ToNumber a)%float)
               spent sum)).
Proof.
  revert sum. induction spent as [|a spent IH]; intros sum; cbn [fold_left]; [done|].
  by rewrite entry_step_sum, IH.
Qed.

Lemma entry_step_first (c : string) (a : Amount) :
  entry_step c None a
  = if String.eqb c "__proto__" then None
    else if inherited c then Some (VString c [a])
    else Some (VNumber ((if number_truthy 0 then 0 else 0) + ToNumber a)%float).
Proof.
  unfold entry_step. destruct (String.eqb c "__proto__"); [done|].
  by destruct (inherited c).
Qed.

Lemma breakdown_entry_fold (c : string) (spent : list Amount) :
  fold_left (entry_step c) spent None = breakdown_entry c spent.
Proof.
  destruct spent as [|a spent]; [done|].
  unfold breakdown_entry.
  destruct (String.eqb_spec c "__proto__") as [->|Hne].
  - apply entry_step_proto.
  - cbn [fold_left]. rewrite entry_step_first.
    destruct (String.eqb_spec c "__proto__"); [done|].
    destruct (inherited c).
    + by rewrite entry_step_inherited.
    + by rewrite entry_step_number.
Qed.

Lemma compute_stats_lookup (l : list Transaction) (c : string) :
  expensesByCategory (compute_stats l) !! c
  = breakdown_entry c
      (map t_amount (List.filter (has_category c) (List.filter (is_type expense) l))).
Proof.
  unfold compute_stats; simpl.
  by rewrite fold_add_expense_lookup, lookup_empty, breakdown_entry_fold.
Qed.



(** ** Alert evaluator *)

Lemma evaluate_goal_cases (stats : Stats) (acc : Alerts) (goal : BudgetGoal) :
  evaluate_goal stats acc goal
  = mkAlerts
      (exceededGoals acc ++
         if is_exceeded stats goal then [alert_for stats goal] else [])
      (warningGoals acc ++
         if is_warning stats goal then [alert_for stats goal] else []).
Proof.
  unfold evaluate_goal, is_exceeded, is_warning, alert_for.
  destruct acc as [ex wa]; simpl.
  destruct (g_isActive goal); simpl; [|by rewrite !app_nil_r].
  unfold percentage_of, percentage, currentSpending_of, spending.
  destruct (js_get (expensesByCategory stats) (g_category goal)) as [v|] eqn:E;
    simpl.
  2:{ set (p := (0 / ToNumber (g_amount goal) * 100)%float).
      assert (H100 : js_ge p 100 = false) by (by apply falsy_percentage).
      assert (H80 : js_ge p 80 = false) by (by apply falsy_percentage).
      rewrite H100, H80. simpl. by rewrite !app_nil_r. }
  destruct (ToBoolean v) eqn:Tv.
  - set (p := (value_ToNumber v / ToNumber (g_amount goal) * 100)%float).
    destruct (js_ge p 100) eqn:E100; simpl.
    + destruct (leb_not_nan _ _ E100) as [_ Hp].
      unfold js_lt. rewrite (ltb_leb_total p 100 Hp eq_refl).
      unfold js_ge in E100. rewrite E100, andb_false_r. simpl.
      by rewrite app_nil_r.
    + destruct (js_ge p 80) eqn:E80; simpl; [|by rewrite !app_nil_r].
      destruct (leb_not_nan _ _ E80) as [_ Hp].
      unfold js_lt. rewrite (ltb_leb_total p 100 Hp eq_refl).
      unfold js_ge in E100. rewrite E100. simpl. by rewrite app_nil_r.
  - destruct v as [n|k l|k]; simpl in Tv; try done. simpl.
    set (p0 := (0 / ToNumber (g_amount goal) * 100)%float).
    set (p := (n / ToNumber (g_amount goal) * 100)%float).
    assert (H100 : js_ge p0 100 = false) by (by apply falsy_percentage).
    assert (H80 : js_ge p0 80 = false) by (by apply falsy_percentage).
    assert (G100 : js_ge p 100 = false) by (by apply falsy_percentage).
    assert (G80 : js_ge p 80 = false) by (by apply falsy_percentage).
    rewrite H100, H80, G100, G80. simpl. by rewrite !app_nil_r.
Qed.

Lemma evaluate_goals_from (stats : Stats) (goals : list BudgetGoal) (acc : Alerts) :
  fold_left (evaluate_goal stats) goals acc
  = mkAlerts
      (exceededGoals acc ++ map (alert_for stats) (List.filter (is_exceeded stats) goals))
      (warningGoals acc ++ map (alert_for stats) (List.filter (is_warning stats) goals)).
Proof.
  revert acc. induction goals as [|g goals IH]; intros acc; simpl.
  - destruct acc. by rewrite !app_nil_r.
  - rewrite IH, evaluate_goal_cases. simpl.
    destruct (is_exceeded stats g), (is_warning stats g); simpl;
      by rewrite <- ?app_assoc, ?app_nil_r.
Qed.

Lemma checkBudgetAlerts_quiet (month year : option Z) (w : World) :
  faults w = [] ->
  checkBudgetAlerts Date_parse LocalTZA month year w
  = (Ok (evaluate_goals (stored_goals w)
           (compute_stats
              (sorted_by_date
                 (month_filter Date_parse LocalTZA month year (stored_transactions w))))),
     w).
Proof.
  intros H. unfold checkBudgetAlerts, try_catch, bind.
  rewrite getBudgetGoals_quiet by done.
  by rewrite getTransactionStats_quiet.
Qed.

Lemma js_get_own (obj : gmap string value) (k : string) (v : value) :
  obj !! k = Some v -> js_get obj k = Some v.
Proof. unfold js_get. by intros ->. Qed.

(** C1. [checkBudgetAlerts] evaluates the stored goals against the
    statistics of the period; for every goal list and statistics result
    exactly the active goals are classified, with currentSpending the
    breakdown's entry for the goal's category (0 if there is none) and
    percentage = currentSpending / amount * 100 in binary64: a goal is in
    exceededGoals iff it is active and percentage >= 100, in warningGoals
    iff it is active and 80 <= percentage < 100, in store order, and in
    neither otherwise.  Spending 400 against 500 gives exactly 80 and a
    warning; spending 500 gives exactly 100 and an exceeded goal. *)
Theorem checkBudgetAlerts_classification :
  (forall (w : World) (month year : option Z),
      faults w = [] ->
      exists stats,
        getTransactionStats Date_parse LocalTZA month year w = (Ok stats, w) /\
        checkBudgetAlerts Date_parse LocalTZA month year w
        = (Ok (evaluate_goals (stored_goals w) stats), w)) /\
  (forall (goals : list BudgetGoal) (stats : Stats),
      exceededGoals (evaluate_goals goals stats)
      = map (alert_for stats) (List.filter (is_exceeded stats) goals) /\
      warningGoals (evaluate_goals goals stats)
      = map (alert_for stats) (List.filter (is_warning stats) goals)) /\
  (forall (goal : BudgetGoal) (stats : Stats),
      g_isActive goal = true -> g_amount goal = Num 500 ->
      (expensesByCategory stats !! g_category goal = Some (VNumber 400) ->
       percentage stats goal = 80%float /\
       evaluate_goals [goal] stats
       = mkAlerts [] [mkAlert goal (VNumber 400) 80]) /\
      (expensesByCategory stats !! g_category goal = Some (VNumber 500) ->
       percentage stats goal = 100%float /\
       evaluate_goals [goal] stats
       = mkAlerts [mkAlert goal (VNumber 500) 100] [])).
Proof.
  split; [|split].
  - intros w month year H. eexists. split.
    + by apply getTransactionStats_quiet.
    + by apply checkBudgetAlerts_quiet.
  - intros goals stats. unfold evaluate_goals.
    by rewrite evaluate_goals_from.
  - intros goal stats Ha Hamt.
    split; intros Hs%js_get_own.
    + assert (S : spending stats goal = VNumber 400)
        by (unfold spending; by rewrite Hs).
      assert (P : percentage stats goal = 80%float)
        by (unfold percentage; by rewrite S, Hamt).
      split; [done|].
      unfold evaluate_goals. rewrite evaluate_goals_from. simpl.
      unfold is_exceeded, is_warning, alert_for. rewrite Ha, P.
      change (js_ge 80 100) with false. change (js_ge 80 80) with true.
      change (js_lt 80 100) with true. cbn [andb map]. by rewrite P, S.
    + assert (S : spending stats goal = VNumber 500)
        by (unfold spending; by rewrite Hs).
      assert (P : percentage stats goal = 100%float)
        by (unfold percentage; by rewrite S, Hamt).
      split; [done|].
      unfold evaluate_goals. rewrite evaluate_goals_from. simpl.
      unfold is_exceeded, is_warning, alert_for. rewrite Ha, P.
      change (js_ge 100 100) with true. change (js_ge 100 80) with true.
      change (js_lt 100 100) with false. cbn [andb map]. by rewrite P, S.
Qed.

(** ** Transaction ledger *)

Lemma month_filter_none (l : list Transaction) :
  month_filter Date_parse LocalTZA None None l = l.
Proof. done. Qed.

Lemma sorted_stored_JSON (w : World) :
  map JSON_transaction (sorted_by_date (stored_transactions w))
  = sorted_by_date (stored_transactions w).
Proof. apply map_fixed, (selected_JSON None None w). Qed.

Lemma addTransaction_quiet (x : TransactionDraft) (w : World) :
  faults w = [] ->
  addTransaction Date_parse LocalTZA genId x w
  = (Ok (with_id x (genId (tick w))),
     mkWorld
       (set_transactions
          (Some (JSON_transaction (with_id x (genId (tick w)))
                 :: sorted_by_date (stored_transactions w)))
          (store w))
       [] (S (tick w)) (writes w ++ [STORAGE_KEY])).
Proof.
  intros H. unfold addTransaction, try_catch, bind at 1 2. unfold next_tick.
  rewrite getTransactions_quiet by done. rewrite month_filter_none.
  unfold setItem_transactions, bind. rewrite put_quiet by done.
  cbn [map store faults tick writes]. by rewrite sorted_stored_JSON.
Qed.

Lemma read_back (x : Transaction) (l : list Transaction) :
  exists l1 l2,
    sorted_by_date (x :: sorted_by_date l) = l1 ++ x :: l2 /\
    Permutation (l1 ++ l2) l /\
    Forall (fun e => exists te tx,
               time_of Date_parse e = Some te /\ time_of Date_parse x = Some tx /\
               tx < te) l1.
Proof.
  simpl.
  destruct (sort_insert_split by_date x (sorted_by_date (sorted_by_date l)))
    as (l1 & l2 & E & El & F).
  exists l1, l2. split; [done|]. split.
  - rewrite <- El. by rewrite !Array_sort_perm.
  - eapply Forall_impl; [exact F|].
    intros e He. apply SortCompare_pos in He as (tx & te & Hx & He & Hlt).
    by exists te, tx.
Qed.

(** C8, as the code has it.  [addTransaction x] takes the generator's next
    value as the id, without looking at the stored ids, and returns the
    draft with that id.  What it stores, in front of the collection it read,
    is the JSON image of that record: the same record, except that an amount
    that is not finite is stored as [null] and [-0] as [0].  A following
    [getTransactions()] contains the stored record, and every pre-existing
    record with a strictly earlier date comes after it; when the stored
    dates parse, it returns what it would return had the record been put in
    front of the stored list as it was.  The stored ids stay pairwise
    distinct if the generated value is unused, and do not if it is used. *)
Theorem addTransaction_roundtrip (w : World) (x : TransactionDraft) :
  faults w = [] ->
  let new := with_id x (genId (tick w)) in
  let kept := JSON_transaction new in
  exists w1,
    addTransaction Date_parse LocalTZA genId x w = (Ok new, w1) /\
    stored_transactions w1 = kept :: sorted_by_date (stored_transactions w) /\
    Permutation (stored_transactions w1) (kept :: stored_transactions w) /\
    t_id new = genId (tick w) /\
    t_type new = d_type x /\ t_category new = d_category x /\
    t_amount new = Num (d_amount x) /\ t_description new = d_description x /\
    t_date new = d_date x /\
    t_id kept = t_id new /\ t_type kept = t_type new /\
    t_category kept = t_category new /\
    t_amount kept = JSON_number (Num (d_amount x)) /\
    t_description kept = t_description new /\ t_date kept = t_date new /\
    (is_finite (d_amount x) = true -> is_zero (d_amount x) = false -> kept = new) /\
    (is_finite (d_amount x) = false -> t_amount kept = Null) /\
    tick w1 = S (tick w) /\
    ((forall t, In t (stored_transactions w) -> t_id t <> t_id new) ->
     NoDup (map t_id (stored_transactions w)) ->
     NoDup (map t_id (stored_transactions w1))) /\
    ((exists t, In t (stored_transactions w) /\ t_id t = t_id new) ->
     ~ NoDup (map t_id (stored_transactions w1))) /\
    (Forall (valid_date Date_parse) (stored_transactions w) ->
     getTransactions Date_parse LocalTZA None None w1
     = (Ok (sorted_by_date (kept :: stored_transactions w)), w1)) /\
    exists l1 l2,
      getTransactions Date_parse LocalTZA None None w1 = (Ok (l1 ++ kept :: l2), w1) /\
      Permutation (l1 ++ l2) (stored_transactions w) /\
      forall y ty tn,
        In y (stored_transactions w) ->
        time_of Date_parse y = Some ty -> time_of Date_parse new = Some tn ->
        ty < tn ->
        In y l2 /\ ~ In y l1.
Proof.
  intros H new kept. eexists. split; [by apply addTransaction_quiet|].
  fold new kept.
  assert (Hs : stored_transactions
                 (mkWorld
                    (set_transactions
                       (Some (kept :: sorted_by_date (stored_transactions w)))
                       (store w))
                    [] (S (tick w)) (writes w ++ [STORAGE_KEY]))
               = kept :: sorted_by_date (stored_transactions w)).
  { rewrite stored_transactions_set. cbn [map].
    unfold kept. by rewrite JSON_transaction_idem, sorted_stored_JSON. }
  rewrite Hs.
  assert (P : Permutation (kept :: sorted_by_date (stored_transactions w))
                (kept :: stored_transactions w))
    by (constructor; apply Array_sort_perm).
  do 14 (split; [done|]).
  split. { intros Hf Hz. unfold kept, JSON_transaction.
           change (t_amount new) with (Num (d_amount x)).
           by rewrite JSON_number_finite. }
  split. { intros Hf. change (t_amount kept) with (JSON_number (Num (d_amount x))).
           by rewrite JSON_number_not_finite. }
  split; [done|].
  split; [|split; [|split]].
  - intros Hfresh Hnd.
    rewrite (Permutation_map t_id P). simpl. apply NoDup_cons. split; [|done].
    intros Hin%list_elem_of_In. apply in_map_iff in Hin as (t & Ht & Hin).
    by apply (Hfresh t).
  - intros (t & Hin & Hid) Hnd.
    rewrite (Permutation_map t_id P) in Hnd. simpl in Hnd.
    apply NoDup_cons in Hnd as [Hnot _]. apply Hnot.
    apply list_elem_of_In, in_map_iff. exists t. by split.
  - intros Hv. rewrite getTransactions_quiet by done.
    rewrite month_filter_none, Hs.
    cbn [Array_sort]. by rewrite Array_sort_idempotent.
  - destruct (read_back kept (stored_transactions w)) as (l1 & l2 & E & Pm & F).
    exists l1, l2. split; [|split; [done|]].
    + rewrite getTransactions_quiet by done.
      by rewrite month_filter_none, Hs, <- E.
    + intros y ty tn Hy Hty Htn Hlt.
      assert (Hn1 : ~ In y l1).
      { intros Hin. rewrite Forall_forall in F.
        destruct (F y) as (te & tx & He & Hx & Hlt'); [by apply list_elem_of_In|].
        change (time_of Date_parse kept) with (time_of Date_parse new) in Hx.
        rewrite Hty in He. rewrite Htn in Hx.
        injection He as <-. injection Hx as <-. lia. }
      split; [|done].
      assert (Hin : In y (l1 ++ l2)).
      { apply list_elem_of_In. rewrite Pm. by apply list_elem_of_In. }
      apply in_app_or in Hin as [Hin|Hin]; [done|done].
Qed.

(** ** Category registry *)

Lemma push_defaults_run (prefix : string) (ty : TxType) (names : list string)
    (index : nat) (categories : list Category) (w : World) :
  push_defaults nowISO prefix ty names index categories w
  = (Ok (categories ++ default_entries nowISO prefix ty names index (tick w)),
     mkWorld (store w) (faults w) (tick w + length names) (writes w)).
Proof.
  revert index categories w.
  induction names as [|name rest IH]; intros index categories w; simpl.
  - unfold ret. rewrite app_nil_r, Nat.add_0_r. by destruct w.
  - unfold bind at 1. unfold next_tick. rewrite IH. simpl.
    rewrite <- app_assoc. simpl. do 3 f_equal. lia.
Qed.

Lemma getCategories_quiet (w : World) :
  faults w = [] ->
  getCategories nowISO w
  = (Ok (visible_categories nowISO w), after_getCategories nowISO w).
Proof.
  intros H. unfold getCategories, try_catch, bind at 1.
  rewrite getItem_quiet by done.
  unfold visible_categories, after_getCategories.
  destruct (s_categories (store w)) eqn:E; [done|].
  unfold bind at 1. unfold initializeDefaultCategories.
  unfold bind at 1. rewrite push_defaults_run.
  unfold bind at 1. rewrite push_defaults_run.
  change (length defaultExpenseCategories) with 10%nat.
  change (length defaultIncomeCategories) with 6%nat.
  cbn [store faults tick writes app].
  unfold setItem_categories, bind. rewrite put_quiet by done.
  cbn [store faults tick writes]. unfold ret, seeded_categories. rewrite H.
  replace (tick w + 10 + 6)%nat with (tick w + 16)%nat by lia. done.
Qed.

Lemma after_getCategories_quiet (w : World) :
  faults w = [] -> faults (after_getCategories nowISO w) = [].
Proof. unfold after_getCategories. by destruct (s_categories (store w)). Qed.

Lemma after_getCategories_stored (w : World) :
  is_Some (s_categories (store w)) -> after_getCategories nowISO w = w.
Proof. unfold after_getCategories. by intros [l ->]. Qed.

Lemma after_getCategories_transactions (w : World) :
  s_transactions (store (after_getCategories nowISO w)) = s_transactions (store w).
Proof. unfold after_getCategories. by destruct (s_categories (store w)). Qed.

Lemma after_getCategories_goals (w : World) :
  s_goals (store (after_getCategories nowISO w)) = s_goals (store w).
Proof. unfold after_getCategories. by destruct (s_categories (store w)). Qed.

Lemma after_getCategories_categories (w : World) :
  s_categories (store (after_getCategories nowISO w))
  = Some (visible_categories nowISO w).
Proof.
  unfold after_getCategories, visible_categories.
  by destruct (s_categories (store w)) eqn:E.
Qed.

Lemma find_id_None (id : string) (categories : list Category) :
  (forall c, In c categories -> c_id c <> id) ->
  List.find (fun cat => String.eqb (c_id cat) id) categories = None.
Proof.
  induction categories as [|c l IH]; intros H; simpl; [done|].
  destruct (String.eqb_spec (c_id c) id) as [E|_].
  - exfalso. apply (H c); [by left | done].
  - apply IH. intros c' Hc'. apply H. by right.
Qed.

Lemma findIndex_None (id : string) (categories : list Category) :
  (forall c, In c categories -> c_id c <> id) ->
  findIndex id categories = None.
Proof.
  induction categories as [|c l IH]; intros H; simpl; [done|].
  destruct (String.eqb_spec (c_id c) id) as [E|_].
  - exfalso. apply (H c); [by left | done].
  - rewrite IH; [done|]. intros c' Hc'. apply H. by right.
Qed.

Lemma renamed_JSON (old new : string) (w : World) :
  map JSON_transaction
    (map (rename_transaction old new) (sorted_by_date (stored_transactions w)))
  = map (rename_transaction old new) (sorted_by_date (stored_transactions w)).
Proof.
  apply map_fixed, Forall_map.
  eapply Forall_impl; [apply (selected_JSON None None w)|].
  intros t Ht. by apply rename_transaction_JSON.
Qed.

Lemma renamed_goals_JSON (old new : string) (w : World) :
  map JSON_goal (map (rename_goal old new) (stored_goals w))
  = map (rename_goal old new) (stored_goals w).
Proof.
  apply map_fixed, Forall_map.
  eapply Forall_impl; [apply stored_goals_JSON|].
  intros g Hg. by apply rename_goal_JSON.
Qed.

Lemma updateCategoryInTransactions_quiet (old new : string) (w : World) :
  faults w = [] ->
  updateCategoryInTransactions Date_parse LocalTZA old new w
  = (Ok tt,
     mkWorld
       (set_transactions
          (Some (map (rename_transaction old new)
                   (sorted_by_date (stored_transactions w))))
          (store w))
       [] (tick w) (writes w ++ [STORAGE_KEY])).
Proof.
  intros H. unfold updateCategoryInTransactions, try_catch, bind.
  rewrite getTransactions_quiet by done. rewrite month_filter_none.
  unfold setItem_transactions. rewrite put_quiet by done.
  by rewrite renamed_JSON.
Qed.

Lemma updateCategoryInGoals_quiet (old new : string) (w : World) :
  faults w = [] ->
  updateCategoryInGoals old new w
  = (Ok tt,
     mkWorld
       (set_goals (Some (map (rename_goal old new) (stored_goals w))) (store w))
       [] (tick w) (writes w ++ [GOALS_STORAGE_KEY])).
Proof.
  intros H. unfold updateCategoryInGoals, try_catch, bind.
  rewrite getBudgetGoals_quiet by done.
  unfold setItem_goals. rewrite put_quiet by done.
  by rewrite renamed_goals_JSON.
Qed.

(** The cascade followed by the write of the category list. *)
Lemma cascade_quiet (old new : string) (categories : list Category) (w : World) :
  faults w = [] ->
  (updateCategoryInTransactions Date_parse LocalTZA old new ;;;
   updateCategoryInGoals old new ;;;
   setItem_categories categories) w
  = (Ok tt,
     mkWorld
       (mkStore
          (Some (map (rename_transaction old new)
                   (sorted_by_date (stored_transactions w))))
          (Some (map (rename_goal old new) (stored_goals w)))
          (Some categories))
       [] (tick w)
       (writes w ++ [STORAGE_KEY; GOALS_STORAGE_KEY; CATEGORIES_STORAGE_KEY])).
Proof.
  intros H. unfold bind at 1.
  rewrite updateCategoryInTransactions_quiet by done.
  unfold bind at 1. rewrite updateCategoryInGoals_quiet by done.
  unfold setItem_categories. rewrite put_quiet by done. simpl.
  by rewrite <- !app_assoc.
Qed.

Lemma bind_assoc {A B C} (m : M A) (f : A -> M B) (g : B -> M C) (w : World) :
  bind (bind m f) g w = bind m (fun x => bind (f x) g) w.
Proof. unfold bind. destruct (m w) as [[a|e] w']; [|done]. done. Qed.

Lemma stored_transactions_after (w : World) :
  stored_transactions (after_getCategories nowISO w) = stored_transactions w.
Proof. unfold stored_transactions. by rewrite after_getCategories_transactions. Qed.

Lemma stored_goals_after (w : World) :
  stored_goals (after_getCategories nowISO w) = stored_goals w.
Proof. unfold stored_goals. by rewrite after_getCategories_goals. Qed.

Lemma rename_transaction_hit (old new : string) (t : Transaction) :
  t_category t = old ->
  rename_transaction old new t
  = mkTransaction (t_id t) (t_type t) new (t_amount t) (t_description t) (t_date t).
Proof. intros <-. unfold rename_transaction. by rewrite String.eqb_refl. Qed.

Lemma rename_transaction_miss (old new : string) (t : Transaction) :
  t_category t <> old -> rename_transaction old new t = t.
Proof.
  intros H. unfold rename_transaction.
  by destruct (String.eqb_spec (t_category t) old).
Qed.

Lemma rename_goal_hit (old new : string) (g : BudgetGoal) :
  g_category g = old ->
  rename_goal old new g
  = mkGoal (g_id g) new (g_amount g) (g_period g) (g_isActive g) (g_createdAt g).
Proof. intros <-. unfold rename_goal. by rewrite String.eqb_refl. Qed.

Lemma rename_goal_miss (old new : string) (g : BudgetGoal) :
  g_category g <> old -> rename_goal old new g = g.
Proof.
  intros H. unfold rename_goal.
  by destruct (String.eqb_spec (g_category g) old).
Qed.

Lemma rename_transaction_clears (old new : string) (t : Transaction) :
  new <> old -> t_category (rename_transaction old new t) <> old.
Proof.
  intros H. unfold rename_transaction.
  by destruct (String.eqb_spec (t_category t) old).
Qed.

Lemma rename_goal_clears (old new : string) (g : BudgetGoal) :
  new <> old -> g_category (rename_goal old new g) <> old.
Proof.
  intros H. unfold rename_goal.
  by destruct (String.eqb_spec (g_category g) old).
Qed.

(** C10, as the code has it.  [deleteCategory id] with an id that matches no
    category of the list [getCategories] yields throws "Category not found";
    transactions and goals are untouched, and the category list is untouched
    whenever one is stored.  On a store with no category list yet the call
    has first seeded and persisted the default categories. *)
Theorem deleteCategory_unknown_id (w : World) (id : string) :
  faults w = [] ->
  (forall c, In c (visible_categories nowISO w) -> c_id c <> id) ->
  deleteCategory Date_parse LocalTZA nowISO id w
  = (Throw (Error "Category not found"), after_getCategories nowISO w) /\
  s_transactions (store (after_getCategories nowISO w)) = s_transactions (store w) /\
  s_goals (store (after_getCategories nowISO w)) = s_goals (store w) /\
  (is_Some (s_categories (store w)) -> after_getCategories nowISO w = w) /\
  (s_categories (store w) = None ->
   s_categories (store (after_getCategories nowISO w))
   = Some (seeded_categories nowISO (tick w))).
Proof.
  intros H Hid. repeat split.
  - unfold deleteCategory, try_catch, bind at 1.
    rewrite getCategories_quiet by done. by rewrite find_id_None.
  - apply after_getCategories_transactions.
  - apply after_getCategories_goals.
  - apply after_getCategories_stored.
  - intros E. rewrite after_getCategories_categories.
    unfold visible_categories. by rewrite E.
Qed.

(** C5, as the code has it.  [deleteCategory id] on a category that is not
    custom throws "Cannot delete default categories"; transactions and goals
    are untouched, and the category list is untouched whenever one is
    stored, while on a store with no category list yet the call has first
    seeded and persisted the default categories.  On a custom category it
    rewrites the category of every transaction and goal tagged with the
    category's name to "Other", leaves the other records as they are, and
    removes the entry. *)
Theorem deleteCategory_custom_gate (w : World) (id : string) (category : Category) :
  faults w = [] ->
  let categories := visible_categories nowISO w in
  let w0 := after_getCategories nowISO w in
  List.find (fun cat => String.eqb (c_id cat) id) categories = Some category ->
  (c_isCustom category = false ->
   deleteCategory Date_parse LocalTZA nowISO id w
   = (Throw (Error "Cannot delete default categories"), w0) /\
   s_transactions (store w0) = s_transactions (store w) /\
   s_goals (store w0) = s_goals (store w) /\
   (is_Some (s_categories (store w)) -> w0 = w) /\
   (s_categories (store w) = None ->
    s_categories (store w0) = Some (seeded_categories nowISO (tick w)))) /\
  (c_isCustom category = true ->
   exists w',
     deleteCategory Date_parse LocalTZA nowISO id w = (Ok tt, w') /\
     s_transactions (store w')
     = Some (map (rename_transaction (c_name category) "Other")
               (sorted_by_date (stored_transactions w))) /\
     s_goals (store w')
     = Some (map (rename_goal (c_name category) "Other") (stored_goals w)) /\
     s_categories (store w')
     = Some (List.filter (fun cat => negb (String.eqb (c_id cat) id)) categories) /\
     Permutation (stored_transactions w')
       (map (rename_transaction (c_name category) "Other") (stored_transactions w)) /\
     stored_goals w' = map (rename_goal (c_name category) "Other") (stored_goals w) /\
     (forall cat, In cat (default [] (s_categories (store w'))) -> c_id cat <> id) /\
     (c_name category <> "Other" ->
      (forall t, In t (stored_transactions w') -> t_category t <> c_name category) /\
      (forall g, In g (stored_goals w') -> g_category g <> c_name category))) /\
  (forall old new t,
      (t_category t = old ->
       rename_transaction old new t
       = mkTransaction (t_id t) (t_type t) new (t_amount t) (t_description t)
           (t_date t)) /\
      (t_category t <> old -> rename_transaction old new t = t)) /\
  (forall old new g,
      (g_category g = old ->
       rename_goal old new g
       = mkGoal (g_id g) new (g_amount g) (g_period g) (g_isActive g)
           (g_createdAt g)) /\
      (g_category g <> old -> rename_goal old new g = g)).
Proof.
  intros H categories w0 Hfind.
  assert (Hrun : getCategories nowISO w = (Ok categories, w0))
    by (by apply getCategories_quiet).
  assert (H0 : faults w0 = []) by (by apply after_getCategories_quiet).
  split; [|split; [|split]].
  - intros Hcustom. split.
    { unfold deleteCategory, try_catch, bind at 1.
      rewrite Hrun, Hfind, Hcustom. done. }
    split; [apply after_getCategories_transactions|].
    split; [apply after_getCategories_goals|].
    split; [apply after_getCategories_stored|].
    intros E. unfold w0. rewrite after_getCategories_categories.
    unfold visible_categories. by rewrite E.
  - intros Hcustom. eexists. split.
    { unfold deleteCategory, try_catch, bind at 1.
      rewrite Hrun, Hfind, Hcustom. cbn [negb].
      rewrite cascade_quiet by done.
      unfold w0. by rewrite stored_transactions_after, stored_goals_after. }
    cbn [store s_transactions s_goals s_categories].
    assert (Ht : forall fs n ws c,
               stored_transactions
                 (mkWorld
                    (mkStore
                       (Some (map (rename_transaction (c_name category) "Other")
                                (sorted_by_date (stored_transactions w))))
                       (Some (map (rename_goal (c_name category) "Other")
                                (stored_goals w))) c) fs n ws)
               = map (rename_transaction (c_name category) "Other")
                   (sorted_by_date (stored_transactions w)))
      by (intros; apply renamed_JSON).
    assert (Hg : forall fs n ws c,
               stored_goals
                 (mkWorld
                    (mkStore
                       (Some (map (rename_transaction (c_name category) "Other")
                                (sorted_by_date (stored_transactions w))))
                       (Some (map (rename_goal (c_name category) "Other")
                                (stored_goals w))) c) fs n ws)
               = map (rename_goal (c_name category) "Other") (stored_goals w))
      by (intros; apply renamed_goals_JSON).
    rewrite Ht, Hg.
    do 3 (split; [done|]).
    split; [apply Permutation_map, Array_sort_perm|]. split; [done|].
    split; [|split].
    + intros cat Hin. cbn in Hin. apply filter_In in Hin as [_ Hne].
      intros E. rewrite E, String.eqb_refl in Hne. done.
    + intros t Hin. apply in_map_iff in Hin as (t0 & <- & _).
      apply rename_transaction_clears. congruence.
    + intros g Hin. apply in_map_iff in Hin as (g0 & <- & _).
      apply rename_goal_clears. congruence.
  - intros old new t. split;
      [apply rename_transaction_hit | apply rename_transaction_miss].
  - intros old new g. split; [apply rename_goal_hit | apply rename_goal_miss].
Qed.

Lemma name_changed_Some (old : Category) (updates : CategoryUpdates) (name : string) :
  cu_name updates = Some name -> name <> "" -> name <> c_name old ->
  name_changed old updates = Some name.
Proof.
  intros Hn Hne Hd. unfold name_changed. rewrite Hn.
  destruct (String.eqb_spec name ""); [done|].
  destruct (String.eqb_spec (c_name old) name); [congruence|done].
Qed.

(** C4, as the code has it.  [updateCategory id updates] whose updates carry
    a non-empty name different from the category's old name rewrites the
    category of exactly the transactions and goals tagged with the old name
    to the new name, writing transactions, then goals, then the updated
    category list; if [id] matches no category of the list [getCategories]
    yields, it throws "Category not found". *)
Theorem updateCategory_cascade (w : World) (id : string) (updates : CategoryUpdates) :
  faults w = [] ->
  let categories := visible_categories nowISO w in
  let w0 := after_getCategories nowISO w in
  ((forall c, In c categories -> c_id c <> id) ->
   updateCategory Date_parse LocalTZA nowISO id updates w
   = (Throw (Error "Category not found"), w0)) /\
  (forall i old name,
      findIndex id categories = Some i -> categories !! i = Some old ->
      cu_name updates = Some name -> name <> "" -> name <> c_name old ->
      updateCategory Date_parse LocalTZA nowISO id updates w
      = (Ok tt,
         mkWorld
           (mkStore
              (Some (map (rename_transaction (c_name old) name)
                       (sorted_by_date (stored_transactions w))))
              (Some (map (rename_goal (c_name old) name) (stored_goals w)))
              (Some (<[i := merge_category old updates]> categories)))
           [] (tick w0)
           (writes w0 ++ [STORAGE_KEY; GOALS_STORAGE_KEY; CATEGORIES_STORAGE_KEY]))) /\
  (forall old new t,
      (t_category t = old ->
       rename_transaction old new t
       = mkTransaction (t_id t) (t_type t) new (t_amount t) (t_description t)
           (t_date t)) /\
      (t_category t <> old -> rename_transaction old new t = t)) /\
  (forall old new g,
      (g_category g = old ->
       rename_goal old new g
       = mkGoal (g_id g) new (g_amount g) (g_period g) (g_isActive g)
           (g_createdAt g)) /\
      (g_category g <> old -> rename_goal old new g = g)).
Proof.
  intros H categories w0. split; [|split; [|split]].
  - intros Hid. unfold updateCategory, try_catch, bind at 1.
    rewrite getCategories_quiet by done. fold categories.
    by rewrite findIndex_None.
  - intros i old name Hi Hold Hname Hne Hd.
    unfold updateCategory, try_catch, bind at 1.
    rewrite getCategories_quiet by done. fold categories w0.
    rewrite Hi, Hold, (name_changed_Some old updates name) by done.
    rewrite bind_assoc.
    rewrite cascade_quiet by (by apply after_getCategories_quiet).
    unfold w0. by rewrite stored_transactions_after, stored_goals_after.
  - intros old new t. split;
      [apply rename_transaction_hit | apply rename_transaction_miss].
  - intros old new g. split; [apply rename_goal_hit | apply rename_goal_miss].
Qed.

(** ** Storage failures *)

Ltac run_service :=
  cbv [getTransactions addTransaction deleteTransaction getTransactionStats
       getBudgetGoals addBudgetGoal updateBudgetGoal deleteBudgetGoal
       checkBudgetAlerts getCategories addCategory updateCategory deleteCategory
       updateCategoryInTransactions updateCategoryInGoals clearAllData
       setItem_transactions setItem_goals setItem_categories
       try_catch bind ret throw getItem put storage_call next_tick with_faults
       faults store tick writes];
  cbn [faults store tick writes].





























(** A read failure inside a mutating operation is not harmless: the empty
    list that stands in for the unreadable collection is written back. *)
Lemma deleteTransaction_read_failure (id : string) (w : World) (fs : list bool) :
  faults w = true :: false :: fs ->
  deleteTransaction Date_parse LocalTZA id w
  = (Ok tt,
     mkWorld (set_transactions (Some []) (store w)) fs (tick w)
       (writes w ++ [STORAGE_KEY])).
Proof. destruct w as [s f t wr]; simpl; intros ->. by run_service. Qed.

(** ** The month filter and the order of the result *)

Lemma in_month_valid (m y : Z) (t : Transaction) :
  in_month Date_parse LocalTZA m y t = true -> valid_date Date_parse t.
Proof.
  unfold in_month, valid_date, time_of.
  destruct (Date_parse (t_date t)); [eauto|done].
Qed.

(** With a month and a year that are both non-zero, the result holds exactly
    the stored transactions dated from [startDate] to [endDate], most recent
    first, those of one instant in their stored order. *)
Lemma getTransactions_month (w : World) (m y : Z) :
  faults w = [] -> m <> 0 -> y <> 0 ->
  exists l,
    getTransactions Date_parse LocalTZA (Some m) (Some y) w = (Ok l, w) /\
    Permutation l
      (List.filter (in_month Date_parse LocalTZA m y) (stored_transactions w)) /\
    StronglySorted (date_desc Date_parse) l /\
    forall k,
      List.filter (at_time Date_parse k) l
      = List.filter (at_time Date_parse k)
          (List.filter (in_month Date_parse LocalTZA m y) (stored_transactions w)).
Proof.
  intros H Hm Hy. eexists. split; [by apply getTransactions_quiet|].
  assert (E : month_filter Date_parse LocalTZA (Some m) (Some y) (stored_transactions w)
              = List.filter (in_month Date_parse LocalTZA m y) (stored_transactions w)).
  { unfold month_filter, truthy.
    destruct (Z.eqb_spec m 0); [done|]. by destruct (Z.eqb_spec y 0). }
  rewrite E. split; [apply Array_sort_perm|].
  split; [|intros k; apply Array_sort_stable].
  apply Array_sort_sorted, Forall_forall.
  intros t Ht%list_elem_of_In. apply filter_In in Ht as [_ Ht].
  by eapply in_month_valid.
Qed.

(** Without a selector the whole collection is returned, most recent first
    when every stored date parses, records of one instant in stored order. *)
Lemma getTransactions_all (w : World) :
  faults w = [] ->
  exists l,
    getTransactions Date_parse LocalTZA None None w = (Ok l, w) /\
    Permutation l (stored_transactions w) /\
    (Forall (valid_date Date_parse) (stored_transactions w) ->
     StronglySorted (date_desc Date_parse) l) /\
    forall k,
      List.filter (at_time Date_parse k) l
      = List.filter (at_time Date_parse k) (stored_transactions w).
Proof.
  intros H. eexists. split; [by apply getTransactions_quiet|].
  rewrite month_filter_none.
  split; [apply Array_sort_perm|]. split; [apply Array_sort_sorted|].
  intros k. apply Array_sort_stable.
Qed.

(** The end of the month, in local time, is one second before the start of
    the next month: the filter's upper bound leaves out the 999 milliseconds
    that follow it. *)
Lemma endDate_before_next_month (m y : Z) :
  MakeDate (MakeDay y m 0) (MakeTime 23 59 59 0)
  = MakeDate (MakeDay y m 1) (MakeTime 0 0 0 0) - 1000.
Proof. unfold MakeDate, MakeDay, MakeTime, msPerDay. lia. Qed.

End Properties.

(** * The service on the concrete platform *)

Lemma parse_iso_samples :
  parse_iso "2024-01-05" = Some 1704412800000 /\
  parse_iso "1970-01-01" = Some 0 /\
  parse_iso "2024-01-31T23:59:59.500Z" = Some 1706745599500 /\
  parse_iso "2023-02-29" = None /\
  parse_iso "yesterday" = None.
Proof. by vm_compute. Qed.

(** The scenario of the specification: an expense of 50 on Food and a salary
    of 2000 in January 2024. *)
Lemma stats_scenario :
  exists stats,
    getTransactionStats parse_iso utc_zone (Some 1) (Some 2024) demo_world
    = (Ok stats, demo_world) /\
    totalIncome stats = 2000%float /\ totalExpense stats = 50%float /\
    netBalance stats = 1950%float /\
    map_to_list (expensesByCategory stats) = [("Food"%string, VNumber 50)].
Proof. eexists. split; [by apply getTransactionStats_quiet|]. by vm_compute. Qed.

(** The sums are binary64 sums taken in the order of the list: the same
    three amounts add up to different totals in different orders, and the
    total of the expenses differs from what the values of the breakdown add
    up to. *)
Lemma sum_amounts_order :
  sum_amounts [tx_big; tx_one; tx_one_more] = 9007199254740992%float /\
  sum_amounts [tx_one; tx_one_more; tx_big] = 9007199254740994%float /\
  totalExpense (compute_stats [tx_big; tx_one; tx_one_more]) = 9007199254740992%float /\
  map_to_list (expensesByCategory (compute_stats [tx_big; tx_one; tx_one_more]))
  = [("Food"%string, VNumber 2); ("Housing"%string, VNumber 9007199254740992)] /\
  (9007199254740992 + 2 = 9007199254740994)%float.
Proof. by vm_compute. Qed.

(** The thresholds of the alerts apply to the rounded percentage.  A
    spending of 4000000000000003 against a goal of 5000000000000004 is less
    than 80 hundredths of the goal, yet its binary64 percentage is exactly
    80 and the goal is a warning. *)
Lemma rounded_percentage_warns :
  let goal :=
    mkGoal "g3" "Food" (Num 5000000000000004) monthly true "2024-01-01T00:00:00.000Z" in
  let stats :=
    compute_stats
      [mkTransaction "t12" expense "Food" (Num 4000000000000003) None "2024-01-05"] in
  100 * 4000000000000003 < 80 * 5000000000000004 /\
  percentage_of stats goal = 80%float /\
  evaluate_goals [goal] stats
  = mkAlerts [] [mkAlert goal (VNumber 4000000000000003) 80].
Proof. by vm_compute. Qed.

(** The annual report adds the amounts of the twelve month views one after
    the other; its total is not the sum of the monthly totals. *)
Lemma annual_total_rounds :
  exists annual jan feb,
    generatePDF_annual parse_iso utc_zone 2024 rounding_world
    = (Ok annual, rounding_world) /\
    getTransactionStats parse_iso utc_zone (Some 1) (Some 2024) rounding_world
    = (Ok jan, rounding_world) /\
    getTransactionStats parse_iso utc_zone (Some 2) (Some 2024) rounding_world
    = (Ok feb, rounding_world) /\
    totalExpense annual = 9007199254740992%float /\
    totalExpense jan = 9007199254740992%float /\
    totalExpense feb = 2%float /\
    (totalExpense jan + totalExpense feb = 9007199254740994)%float.
Proof. do 3 eexists. by vm_compute. Qed.

(** [sort()] without a comparator orders strings by their UTF-16 code units,
    not by the bytes of their UTF-8 encoding: a name that starts with U+1F600
    (a surrogate pair, first unit D83D) sorts before one that starts with
    U+FF5E, although its first byte is the larger one. *)
Lemma default_compare_code_units :
  code_units "😀fun" = [55357; 56832; 102; 117; 110]%N /\
  code_units "～wave" = [65374; 119; 97; 118; 101]%N /\
  default_compare "😀fun" "～wave" = Some (-1) /\
  String.compare "😀fun" "～wave" = Gt /\
  Array_sort default_compare ["～wave"; "😀fun"; "Food"]%string
  = ["Food"; "😀fun"; "～wave"]%string.
Proof. by vm_compute. Qed.

(** C3, at the input where the code departs from the claim.  On the UTC
    platform a transaction dated 2024-01-31T23:59:59.500Z lies in January
    2024: at or after the start of January and before the start of
    February.  The filter's upper bound is 23:59:59.000, so the transaction
    is returned neither for January nor for February. *)
Theorem getTransactions_drops_last_second :
  let w := world_of (mkStore (Some [tx_last_second]) None None) in
  time_of parse_iso tx_last_second = Some 1706745599500 /\
  startDate utc_zone 1 2024 = Some 1704067200000 /\
  endDate utc_zone 1 2024 = Some 1706745599000 /\
  startDate utc_zone 2 2024 = Some 1706745600000 /\
  getTransactions parse_iso utc_zone (Some 1) (Some 2024) w = (Ok [], w) /\
  getTransactions parse_iso utc_zone (Some 2) (Some 2024) w = (Ok [], w) /\
  getTransactions parse_iso utc_zone None None w = (Ok [tx_last_second], w).
Proof. by vm_compute. Qed.

(** The bounds of the filter are local times while a date-only string is
    read as UTC midnight: five hours behind UTC, a transaction dated
    2024-02-01 is returned for January and not for February. *)
Lemma getTransactions_month_is_local :
  let w := world_of (mkStore (Some [tx_february]) None None) in
  time_of parse_iso tx_february = Some 1706745600000 /\
  endDate est_zone 1 2024 = Some 1706763599000 /\
  startDate est_zone 2 2024 = Some 1706763600000 /\
  getTransactions parse_iso est_zone (Some 1) (Some 2024) w = (Ok [tx_february], w) /\
  getTransactions parse_iso est_zone (Some 2) (Some 2024) w = (Ok [], w).
Proof. by vm_compute. Qed.

(** C7, at the inputs where the code departs from the claim.  The only
    stored transaction is an expense of 50 dated in January 2024.  When its
    category is [__proto__], [totalExpense] is 50 while [expensesByCategory]
    has no key at all, so its values sum to 0.  When its category is
    [constructor], [totalExpense] is 50 while the only value of
    [expensesByCategory] is a string, not the number 50. *)
Theorem expensesByCategory_loses_spending :
  let w := world_of (mkStore (Some [tx_proto]) None None) in
  let w' := world_of (mkStore (Some [tx_constructor]) None None) in
  (exists stats,
      getTransactionStats parse_iso utc_zone (Some 1) (Some 2024) w = (Ok stats, w) /\
      totalExpense stats = 50%float /\
      expensesByCategory stats = ∅ /\
      breakdown_total stats = 0%float) /\
  (exists stats,
      getTransactionStats parse_iso utc_zone (Some 1) (Some 2024) w' = (Ok stats, w') /\
      totalExpense stats = 50%float /\
      map_to_list (expensesByCategory stats)
      = [("constructor"%string, VString "constructor" [Num 50])] /\
      is_nan (breakdown_total stats) = true).
Proof.
  split; eexists; (split; [by apply getTransactionStats_quiet|]); by vm_compute.
Qed.

(** C4 fails as stated.  Renaming the stored category "Food" to the empty
    string succeeds and renames the entry, yet the transaction and the goal
    tagged "Food" keep their tag; and on a store with no category list the
    id of a default category, which matches no stored category, is found
    among the freshly seeded defaults and updated. *)
Lemma updateCategory_not_as_stated :
  (exists w',
      updateCategory parse_iso utc_zone demo_now "c1" (rename_to "") demo_world
      = (Ok tt, w') /\
      s_categories (store w')
      = Some [mkCategory "c1" "" expense true None "2024-01-01T00:00:00.000Z";
              cat_other] /\
      s_transactions (store w') = Some [tx_food; tx_salary] /\
      s_goals (store w') = Some [goal_food] /\
      t_category tx_food = "Food"%string /\ g_category goal_food = "Food"%string) /\
  s_categories (store empty_world) = None /\
  fst (updateCategory parse_iso utc_zone demo_now "expense-0" (rename_to "Dining")
         empty_world) = Ok tt.
Proof. split; [eexists; by vm_compute | by vm_compute]. Qed.

(** C5 fails as stated.  On a store with no category list,
    [deleteCategory "expense-0"] fails with "Cannot delete default
    categories", and the categories collection does not stay as it was: the
    call has persisted the sixteen default categories under a key that was
    absent. *)
Lemma deleteCategory_default_on_fresh_store :
  exists w',
    deleteCategory parse_iso utc_zone demo_now "expense-0" empty_world
    = (Throw (Error "Cannot delete default categories"), w') /\
    s_categories (store empty_world) = None /\
    s_categories (store w') = Some (seeded_categories demo_now 0) /\
    length (seeded_categories demo_now 0) = 16%nat /\
    writes w' = [CATEGORIES_STORAGE_KEY].
Proof. eexists. by vm_compute. Qed.


(** C8 fails as stated.  The id is the generator's next value, whatever the
    stored ids are: when the store already holds a record with that id, the
    new record gets it too.  And the record that a following
    [getTransactions()] returns is the JSON image of the returned one: for a
    draft whose amount is [NaN] the returned record has amount [NaN], the
    stored one has amount [null], and the returned record is not among the
    records read back. *)
Lemma addTransaction_not_as_stated :
  let w := world_of (mkStore (Some [tx_same_id]) None None) in
  (exists w1,
      addTransaction parse_iso utc_zone demo_id draft_rent w
      = (Ok (with_id draft_rent "id-0"), w1) /\
      map t_id (stored_transactions w) = ["id-0"%string] /\
      map t_id (stored_transactions w1) = ["id-0"; "id-0"]%string) /\
  (exists new l w1 w2,
      addTransaction parse_iso utc_zone demo_id draft_nan empty_world = (Ok new, w1) /\
      getTransactions parse_iso utc_zone None None w1 = (Ok l, w2) /\
      t_amount new = Num nan /\
      map t_amount l = [Null] /\
      ~ In new l).
Proof.
  split.
  - eexists. by vm_compute.
  - do 4 eexists. split; [by vm_compute|]. split; [by vm_compute|].
    split; [by vm_compute|]. split; [by vm_compute|].
    intros [H|[]]. by apply (f_equal t_amount) in H.
Qed.


(** C10 fails as stated.  On a store with no category list,
    [deleteCategory "nope"] throws "Category not found" but leaves the
    sixteen default categories persisted under the categories key; and
    [deleteCategory "expense-0"], whose id matches no stored category
    either, throws "Cannot delete default categories". *)
Lemma deleteCategory_seeds_defaults :
  exists w',
    deleteCategory parse_iso utc_zone demo_now "nope" empty_world
    = (Throw (Error "Category not found"), w') /\
    s_categories (store empty_world) = None /\
    s_categories (store w') = Some (seeded_categories demo_now 0) /\
    length (seeded_categories demo_now 0) = 16%nat /\
    writes w' = [CATEGORIES_STORAGE_KEY] /\
    fst (deleteCategory parse_iso utc_zone demo_now "expense-0" empty_world)
    = Throw (Error "Cannot delete default categories").
Proof. eexists. by vm_compute. Qed.

(** * Instances of the theorems on the sample store *)

Lemma checkBudgetAlerts_classification_witness :
  let stats := compute_stats [tx_groceries] in
  faults demo_world = [] /\
  g_isActive goal_food = true /\ g_amount goal_food = Num 500 /\
  expensesByCategory stats !! g_category goal_food = Some (VNumber 400) /\
  percentage stats goal_food = 80%float /\
  evaluate_goals [goal_food] stats
  = mkAlerts [] [mkAlert goal_food (VNumber 400) 80] /\
  exists stats',
    checkBudgetAlerts parse_iso utc_zone (Some 1) (Some 2024) demo_world
    = (Ok (evaluate_goals (stored_goals demo_world) stats'), demo_world).
Proof.
  intros stats.
  assert (Hs : expensesByCategory stats !! g_category goal_food = Some (VNumber 400))
    by (by vm_compute).
  destruct (checkBudgetAlerts_classification parse_iso utc_zone)
    as (Hrun & _ & Hcase).
  destruct (Hcase goal_food stats eq_refl eq_refl) as [H400 _].
  destruct (H400 Hs) as [Hp He].
  destruct (Hrun demo_world (Some 1) (Some 2024) eq_refl) as (stats' & _ & Hc).
  repeat split; try done. by exists stats'.
Defined.

Lemma getTransactionStats_totals_witness :
  faults demo_world = [] /\
  exists stats,
    getTransactionStats parse_iso utc_zone (Some 1) (Some 2024) demo_world
    = (Ok stats, demo_world) /\
    totalIncome stats = sum_amounts [tx_salary] /\
    totalExpense stats = sum_amounts [tx_food] /\
    netBalance stats = (totalIncome stats - totalExpense stats)%float.
Proof.
  split; [reflexivity|].
  destruct (getTransactionStats_totals parse_iso utc_zone demo_world (Some 1) (Some 2024))
    as (selected & stats & w' & _ & Es & Hi & He & Hn & Hq).
  destruct (Hq eq_refl) as (-> & -> & _).
  exists stats. split; [exact Es|]. split; [exact Hi|]. split; [exact He | exact Hn].
Defined.


Lemma addTransaction_roundtrip_witness :
  faults demo_world = [] /\
  exists w1,
    addTransaction parse_iso utc_zone demo_id draft_rent demo_world
    = (Ok (with_id draft_rent "id-0"), w1) /\
    stored_transactions w1 = [with_id draft_rent "id-0"; tx_food; tx_salary] /\
    tick w1 = 1%nat.
Proof.
  split; [reflexivity|].
  destruct (addTransaction_roundtrip parse_iso utc_zone demo_id demo_world draft_rent
              eq_refl)
    as (w1 & E & Hs & _ & _ & _ & _ & _ & _ & _ & _ & _ & _ & _ & _ & _ & _ & _ & Ht & _).
  exists w1. split; [exact E|]. split; [exact Hs | exact Ht].
Defined.

Lemma updateCategory_cascade_witness :
  faults demo_world = [] /\
  findIndex "c1" (visible_categories demo_now demo_world) = Some 0%nat /\
  visible_categories demo_now demo_world !! 0%nat = Some cat_food /\
  cu_name (rename_to "Dining") = Some "Dining"%string /\
  "Dining"%string <> ""%string /\ "Dining"%string <> c_name cat_food /\
  exists w',
    updateCategory parse_iso utc_zone demo_now "c1" (rename_to "Dining") demo_world
    = (Ok tt, w') /\
    s_transactions (store w')
    = Some [mkTransaction "t1" expense "Dining" (Num 50) None "2024-01-05"; tx_salary] /\
    writes w' = [STORAGE_KEY; GOALS_STORAGE_KEY; CATEGORIES_STORAGE_KEY].
Proof.
  assert (H1 : "Dining"%string <> ""%string) by done.
  assert (H2 : "Dining"%string <> c_name cat_food) by done.
  do 6 (split; [done|]).
  destruct (updateCategory_cascade parse_iso utc_zone demo_now demo_world "c1"
              (rename_to "Dining") eq_refl) as (_ & Hc & _).
  eexists. split; [exact (Hc 0%nat cat_food "Dining"%string eq_refl eq_refl eq_refl H1 H2)|].
  split; reflexivity.
Defined.

Lemma deleteCategory_custom_gate_witness :
  faults demo_world = [] /\ faults empty_world = [] /\
  List.find (fun cat => String.eqb (c_id cat) "c1")
    (visible_categories demo_now demo_world) = Some cat_food /\
  List.find (fun cat => String.eqb (c_id cat) "expense-9")
    (visible_categories demo_now demo_world) = Some cat_other /\
  c_isCustom cat_food = true /\ c_isCustom cat_other = false /\
  deleteCategory parse_iso utc_zone demo_now "expense-9" demo_world
  = (Throw (Error "Cannot delete default categories"), demo_world) /\
  (exists w',
      deleteCategory parse_iso utc_zone demo_now "c1" demo_world = (Ok tt, w') /\
      s_categories (store w') = Some [cat_other]) /\
  deleteCategory parse_iso utc_zone demo_now "expense-0" empty_world
  = (Throw (Error "Cannot delete default categories"),
     after_getCategories demo_now empty_world).
Proof.
  do 6 (split; [reflexivity|]).
  destruct (deleteCategory_custom_gate parse_iso utc_zone demo_now demo_world
              "expense-9" cat_other eq_refl eq_refl) as (Hdefault & _).
  destruct (deleteCategory_custom_gate parse_iso utc_zone demo_now demo_world
              "c1" cat_food eq_refl eq_refl) as (_ & Hcustom & _).
  destruct (deleteCategory_custom_gate parse_iso utc_zone demo_now empty_world
              "expense-0"
              (mkCategory "expense-0" "Food & Dining" expense false None (demo_now 0))
              eq_refl eq_refl) as (Hfresh & _).
  split; [exact (proj1 (Hdefault eq_refl))|].
  split; [|exact (proj1 (Hfresh eq_refl))].
  destruct (Hcustom eq_refl) as (w' & E & _ & _ & Hcats & _).
  exists w'. split; [exact E | exact Hcats].
Defined.


Lemma deleteCategory_unknown_id_witness :
  faults demo_world = [] /\
  (forall c, In c (visible_categories demo_now demo_world) -> c_id c <> "nope"%string) /\
  deleteCategory parse_iso utc_zone demo_now "nope" demo_world
  = (Throw (Error "Category not found"), demo_world).
Proof.
  assert (Hid : forall c, In c (visible_categories demo_now demo_world) ->
                          c_id c <> "nope"%string).
  { intros c [<-|[<-|[]]]; done. }
  split; [reflexivity|]. split; [exact Hid|].
  exact (proj1 (deleteCategory_unknown_id parse_iso utc_zone demo_now demo_world "nope"
                  eq_refl Hid)).
Defined.

(** * Further properties of the service and its callers *)

Ltac run_calls :=
  cbv [getTransactions addTransaction deleteTransaction getTransactionStats
       getBudgetGoals addBudgetGoal updateBudgetGoal deleteBudgetGoal
       checkBudgetAlerts getCategories addCategory updateCategory deleteCategory
       updateCategoryInTransactions updateCategoryInGoals clearAllData
       getUniqueCategories handleToggleGoal
       setItem_transactions setItem_goals setItem_categories
       try_catch bind ret throw getItem put storage_call next_tick with_faults
       faults store tick writes];
  cbn [faults store tick writes].

Section MoreProperties.
Variable Date_parse : string -> option Z.
Variable LocalTZA : Z -> Z.
Variable genId : nat -> string.
Variable nowISO : nat -> string.

Local Abbreviation sorted_desc := (Array_sort (by_date_desc Date_parse)).

(** ** deleteTransaction *)

(** A part of what [getTransactions] returns is written as it is. *)
Lemma kept_JSON (f : Transaction -> bool) (w : World) :
  map JSON_transaction (List.filter f (sorted_desc (stored_transactions w)))
  = List.filter f (sorted_desc (stored_transactions w)).
Proof.
  apply map_fixed, Forall_filter_list.
  pose proof (selected_JSON Date_parse LocalTZA None None w) as H.
  by rewrite month_filter_none in H.
Qed.

Lemma deleteTransaction_quiet (id : string) (w : World) :
  faults w = [] ->
  deleteTransaction Date_parse LocalTZA id w
  = (Ok tt,
     mkWorld
       (set_transactions
          (Some (List.filter (fun t => negb (String.eqb (t_id t) id))
                   (sorted_desc (stored_transactions w))))
          (store w))
       [] (tick w) (writes w ++ [STORAGE_KEY])).
Proof.
  intros H. unfold deleteTransaction, try_catch, bind.
  rewrite getTransactions_quiet by done. rewrite month_filter_none.
  unfold setItem_transactions. rewrite put_quiet by done. by rewrite kept_JSON.
Qed.

Lemma filter_all {A} (f : A -> bool) (l : list A) :
  (forall x, In x l -> f x = true) -> List.filter f l = l.
Proof.
  induction l as [|x l IH]; intros H; simpl; [done|].
  rewrite (H x) by (by left). f_equal. apply IH. intros y Hy. apply H. by right.
Qed.

(** [deleteTransaction id] removes exactly the stored records whose id is
    [id] and keeps all others; when no record has that id it is not an
    error and the collection keeps its records and its size.  Goals and
    categories are not touched. *)
Theorem deleteTransaction_removes_id (w : World) (id : string) :
  faults w = [] ->
  exists w',
    deleteTransaction Date_parse LocalTZA id w = (Ok tt, w') /\
    (forall t, In t (stored_transactions w')
               <-> In t (stored_transactions w) /\ t_id t <> id) /\
    s_goals (store w') = s_goals (store w) /\
    s_categories (store w') = s_categories (store w) /\
    ((forall t, In t (stored_transactions w) -> t_id t <> id) ->
     Permutation (stored_transactions w') (stored_transactions w) /\
     length (stored_transactions w') = length (stored_transactions w)).
Proof.
  intros H. eexists. split; [by apply deleteTransaction_quiet|].
  rewrite stored_transactions_set, kept_JSON.
  split; [|split; [done|split; [done|]]].
  - intros t. rewrite filter_In. split.
    + intros [Hin Hne]. split.
      * apply list_elem_of_In. rewrite <- (Array_sort_perm (by_date_desc Date_parse)).
        by apply list_elem_of_In.
      * intros E. by rewrite E, String.eqb_refl in Hne.
    + intros [Hin Hne]. split.
      * apply list_elem_of_In. rewrite Array_sort_perm. by apply list_elem_of_In.
      * by destruct (String.eqb_spec (t_id t) id).
  - intros Habs.
    rewrite filter_all.
    + split; [apply Array_sort_perm|]. apply Permutation_length, Array_sort_perm.
    + intros t Hin.
      assert (Hin' : In t (stored_transactions w)).
      { apply list_elem_of_In. rewrite <- (Array_sort_perm (by_date_desc Date_parse)).
        by apply list_elem_of_In. }
      specialize (Habs t Hin'). by destruct (String.eqb_spec (t_id t) id).
Qed.

Lemma filter_sort_insert_out {A} (comparefn : A -> A -> option Z) (f : A -> bool)
    (x : A) (l : list A) :
  f x = false ->
  List.filter f (sort_insert comparefn x l) = List.filter f l.
Proof.
  intros Hx.
  destruct (sort_insert_split comparefn x l) as (l1 & l2 & -> & -> & _).
  rewrite !List.filter_app. simpl. by rewrite Hx.
Qed.

(** Adding a transaction and deleting it again by the id that was returned
    gives back the collection: when the generated id is unused and the
    stored dates parse, the store holds the collection in its date order and
    [getTransactions()] returns what it returned before. *)
Theorem addTransaction_then_deleteTransaction (w : World) (x : TransactionDraft) :
  faults w = [] ->
  Forall (valid_date Date_parse) (stored_transactions w) ->
  (forall t, In t (stored_transactions w) -> t_id t <> genId (tick w)) ->
  exists new w1 w2,
    addTransaction Date_parse LocalTZA genId x w = (Ok new, w1) /\
    deleteTransaction Date_parse LocalTZA (t_id new) w1 = (Ok tt, w2) /\
    stored_transactions w2 = sorted_desc (stored_transactions w) /\
    fst (getTransactions Date_parse LocalTZA None None w2)
    = fst (getTransactions Date_parse LocalTZA None None w).
Proof.
  intros H Hv Hfresh. do 3 eexists.
  split; [by apply addTransaction_quiet|].
  split; [by apply deleteTransaction_quiet|].
  set (kept := JSON_transaction (with_id x (genId (tick w)))).
  cbn [t_id with_id].
  assert (Ek : map JSON_transaction (kept :: sorted_desc (stored_transactions w))
               = kept :: sorted_desc (stored_transactions w)).
  { cbn [map]. unfold kept at 1. rewrite JSON_transaction_idem. f_equal.
    apply (sorted_stored_JSON Date_parse LocalTZA). }
  assert (E : List.filter (fun t => negb (String.eqb (t_id t) (genId (tick w))))
                (sorted_desc (kept :: sorted_desc (stored_transactions w)))
              = sorted_desc (stored_transactions w)).
  { cbn [Array_sort]. rewrite filter_sort_insert_out
      by (cbn; by rewrite String.eqb_refl).
    rewrite Array_sort_idempotent by done.
    apply filter_all. intros t Hin.
    assert (Hin' : In t (stored_transactions w)).
    { apply list_elem_of_In. rewrite <- (Array_sort_perm (by_date_desc Date_parse)).
      by apply list_elem_of_In. }
    specialize (Hfresh t Hin').
    by destruct (String.eqb_spec (t_id t) (genId (tick w))). }
  rewrite !stored_transactions_set, Ek, E, (sorted_stored_JSON Date_parse LocalTZA).
  split; [done|].
  rewrite !getTransactions_quiet by done. rewrite !month_filter_none.
  rewrite !stored_transactions_set, (sorted_stored_JSON Date_parse LocalTZA). cbn [fst].
  by rewrite Array_sort_idempotent.
Qed.

(** ** The month view against the full view *)

Lemma sort_insert_filter (f : Transaction -> bool) (x : Transaction)
    (l : list Transaction) :
  valid_date Date_parse x ->
  StronglySorted (date_desc Date_parse) l ->
  List.filter f (sort_insert (by_date_desc Date_parse) x l)
  = if f x then sort_insert (by_date_desc Date_parse) x (List.filter f l)
    else List.filter f l.
Proof.
  intros [tx Hx] Hs. induction Hs as [|y l Hs IH Hy]; simpl.
  - by destruct (f x).
  - destruct (SortCompare (by_date_desc Date_parse) x y <=? 0) eqn:C; simpl.
    + destruct (f x) eqn:Fx; [|done].
      destruct (f y) eqn:Fy; simpl; [by rewrite C|].
      destruct (List.filter f l) as [|e l'] eqn:El; simpl; [done|].
      assert (He : In e l).
      { apply (proj1 (filter_In f e l)). rewrite El. by left. }
      rewrite Forall_forall in Hy.
      destruct (Hy e) as (ty & te & Hty & Hte & Hle); [by apply list_elem_of_In|].
      rewrite (SortCompare_by_date _ x e tx te) by done.
      rewrite (SortCompare_by_date _ x y tx ty) in C by done.
      destruct (Z.leb_spec (te - tx) 0); [done|]. apply Z.leb_le in C. lia.
    + rewrite IH. destruct (f y) eqn:Fy; simpl; [|done].
      destruct (f x); [|done]. by rewrite C.
Qed.

Lemma Array_sort_filter (f : Transaction -> bool) (l : list Transaction) :
  Forall (valid_date Date_parse) l ->
  sorted_desc (List.filter f l) = List.filter f (sorted_desc l).
Proof.
  induction 1 as [|x l Hx Hl IH]; simpl; [done|].
  rewrite sort_insert_filter by (done || by apply Array_sort_sorted).
  destruct (f x); simpl; by rewrite IH.
Qed.

(** With a month and a year that are both non-zero, [getTransactions(month,
    year)] returns the records of [getTransactions()] that lie between
    [startDate] and [endDate], in the same order, provided the stored dates
    parse: the month view is the full view, filtered. *)
Theorem getTransactions_month_view (w : World) (m y : Z) :
  faults w = [] -> m <> 0 -> y <> 0 ->
  Forall (valid_date Date_parse) (stored_transactions w) ->
  exists all,
    getTransactions Date_parse LocalTZA None None w = (Ok all, w) /\
    getTransactions Date_parse LocalTZA (Some m) (Some y) w
    = (Ok (List.filter (in_month Date_parse LocalTZA m y) all), w).
Proof.
  intros H Hm Hy Hv. eexists. split; [by apply getTransactions_quiet|].
  rewrite getTransactions_quiet by done. rewrite month_filter_none.
  f_equal. f_equal. unfold month_filter, truthy.
  destruct (Z.eqb_spec m 0); [done|]. destruct (Z.eqb_spec y 0); [done|]. simpl.
  by apply Array_sort_filter.
Qed.

(** ** The budget goal store *)

Lemma stored_goals_fixed (l : list BudgetGoal) (s : Store) (fs : list bool)
    (t : nat) (wr : list Key) :
  Forall (fun g => JSON_goal g = g) l ->
  stored_goals (mkWorld (set_goals (Some l) s) fs t wr) = l.
Proof. intros H. rewrite stored_goals_set. by apply map_fixed. Qed.

Lemma addBudgetGoal_quiet (goal : GoalDraft) (w : World) :
  faults w = [] ->
  let newGoal :=
    mkGoal (genId (tick w)) (gd_category goal) (Num (gd_amount goal)) (gd_period goal)
      (gd_isActive goal) (nowISO (S (tick w))) in
  addBudgetGoal genId nowISO goal w
  = (Ok newGoal,
     mkWorld (set_goals (Some (JSON_goal newGoal :: stored_goals w)) (store w))
       [] (S (S (tick w))) (writes w ++ [GOALS_STORAGE_KEY])).
Proof.
  intros H newGoal. unfold addBudgetGoal, try_catch, bind at 1 2 3.
  unfold next_tick. cbn [tick store faults writes].
  rewrite getBudgetGoals_quiet by done.
  unfold setItem_goals, bind. rewrite put_quiet by done.
  change (stored_goals (mkWorld (store w) (faults w) (S (S (tick w))) (writes w)))
    with (stored_goals w).
  cbn [map store tick writes]. by rewrite (map_fixed _ _ (stored_goals_JSON w)).
Qed.

(** [addBudgetGoal] returns the draft completed with the generated id and the
    current time, and a following [getBudgetGoals()] returns the JSON image
    of that goal in front of the goals stored before, newest first: the goal
    itself when its amount is finite and not [-0], and the goal with amount
    [null] when its amount is not finite.  No field is checked: whatever
    amount the caller passes is stored.  Transactions and categories are not
    touched. *)
Theorem addBudgetGoal_roundtrip (w : World) (goal : GoalDraft) :
  faults w = [] ->
  exists newGoal w',
    addBudgetGoal genId nowISO goal w = (Ok newGoal, w') /\
    getBudgetGoals w' = (Ok (JSON_goal newGoal :: stored_goals w), w') /\
    (is_finite (gd_amount goal) = true -> is_zero (gd_amount goal) = false ->
     getBudgetGoals w' = (Ok (newGoal :: stored_goals w), w')) /\
    (is_finite (gd_amount goal) = false -> g_amount (JSON_goal newGoal) = Null) /\
    g_id newGoal = genId (tick w) /\ g_createdAt newGoal = nowISO (S (tick w)) /\
    g_category newGoal = gd_category goal /\ g_amount newGoal = Num (gd_amount goal) /\
    g_period newGoal = gd_period goal /\ g_isActive newGoal = gd_isActive goal /\
    s_transactions (store w') = s_transactions (store w) /\
    s_categories (store w') = s_categories (store w).
Proof.
  intros H. do 2 eexists. split; [by apply addBudgetGoal_quiet|].
  set (newGoal := mkGoal _ _ _ _ _ _).
  assert (E : getBudgetGoals
                (mkWorld (set_goals (Some (JSON_goal newGoal :: stored_goals w)) (store w))
                   [] (S (S (tick w))) (writes w ++ [GOALS_STORAGE_KEY]))
              = (Ok (JSON_goal newGoal :: stored_goals w),
                 mkWorld (set_goals (Some (JSON_goal newGoal :: stored_goals w)) (store w))
                   [] (S (S (tick w))) (writes w ++ [GOALS_STORAGE_KEY]))).
  { rewrite getBudgetGoals_quiet by done. rewrite stored_goals_fixed; [done|].
    constructor; [apply JSON_goal_idem | apply stored_goals_JSON]. }
  split; [exact E|]. split; [|split; [|done]].
  - intros Hfin Hz. rewrite E. do 3 f_equal.
    unfold JSON_goal, newGoal. cbn [g_id g_category g_amount g_period g_isActive g_createdAt].
    by rewrite JSON_number_finite.
  - intros Hfin. unfold JSON_goal, newGoal. cbn [g_amount].
    by apply JSON_number_not_finite.
Qed.

Lemma updateBudgetGoal_quiet (id : string) (updates : GoalUpdates) (w : World) :
  faults w = [] ->
  updateBudgetGoal id updates w
  = (Ok tt,
     mkWorld
       (set_goals
          (Some (map (fun goal => if String.eqb (g_id goal) id
                                  then JSON_goal (merge_goal goal updates) else goal)
                   (stored_goals w)))
          (store w))
       [] (tick w) (writes w ++ [GOALS_STORAGE_KEY])).
Proof.
  intros H. unfold updateBudgetGoal, try_catch, bind.
  rewrite getBudgetGoals_quiet by done.
  unfold setItem_goals. rewrite put_quiet by done. rewrite map_map.
  do 4 f_equal. apply map_ext_in. intros g Hg.
  destruct (String.eqb (g_id g) id); [done|].
  pose proof (stored_goals_JSON w) as HJ. rewrite Forall_forall in HJ.
  apply HJ. by apply list_elem_of_In.
Qed.

Lemma merged_goals_JSON (id : string) (updates : GoalUpdates) (w : World) :
  Forall (fun g => JSON_goal g = g)
    (map (fun goal => if String.eqb (g_id goal) id
                      then JSON_goal (merge_goal goal updates) else goal)
       (stored_goals w)).
Proof.
  apply Forall_forall. intros g Hg. apply list_elem_of_In, in_map_iff in Hg.
  destruct Hg as (g0 & <- & Hg0).
  destruct (String.eqb (g_id g0) id); [apply JSON_goal_idem|].
  pose proof (stored_goals_JSON w) as HJ. rewrite Forall_forall in HJ.
  apply HJ. by apply list_elem_of_In.
Qed.

Lemma map_id_on {A} (f : A -> A) (l : list A) :
  (forall x, In x l -> f x = x) -> map f l = l.
Proof.
  induction l as [|x l IH]; intros H; simpl; [done|].
  rewrite (H x) by (by left). f_equal. apply IH. intros y Hy. apply H. by right.
Qed.

(** [updateBudgetGoal id updates] keeps the number and the order of the
    goals, stores in place of each goal whose id is [id] the JSON image of
    the goal merged with the supplied fields and leaves every other goal as
    it is; when no goal has that id it succeeds and the goals are
    unchanged. *)
Theorem updateBudgetGoal_merges (w : World) (id : string) (updates : GoalUpdates) :
  faults w = [] ->
  exists w',
    updateBudgetGoal id updates w = (Ok tt, w') /\
    length (stored_goals w') = length (stored_goals w) /\
    (forall i goal,
        stored_goals w !! i = Some goal ->
        stored_goals w' !! i
        = Some (if String.eqb (g_id goal) id
                then JSON_goal (merge_goal goal updates) else goal)) /\
    (forall goal,
        match gu_amount updates with
        | Some n => is_finite n = true /\ is_zero n = false
        | None => JSON_goal goal = goal
        end ->
        JSON_goal (merge_goal goal updates) = merge_goal goal updates) /\
    ((forall goal, In goal (stored_goals w) -> g_id goal <> id) ->
     stored_goals w' = stored_goals w) /\
    s_transactions (store w') = s_transactions (store w) /\
    s_categories (store w') = s_categories (store w).
Proof.
  intros H. eexists. split; [by apply updateBudgetGoal_quiet|].
  rewrite stored_goals_fixed by apply merged_goals_JSON.
  split; [apply length_map|].
  split; [|split; [|split; [|done]]].
  - intros i goal Hi. change map with (@fmap list _). rewrite list_lookup_fmap, Hi. done.
  - intros goal Hu. unfold JSON_goal, merge_goal.
    cbn [g_id g_category g_amount g_period g_isActive g_createdAt].
    destruct (gu_amount updates) as [n|].
    + destruct Hu as [Hfin Hz]. by rewrite JSON_number_finite.
    + apply (f_equal g_amount) in Hu. cbn [JSON_goal g_amount] in Hu. by rewrite Hu.
  - intros Habs. apply map_id_on. intros goal Hin.
    specialize (Habs goal Hin). by destruct (String.eqb_spec (g_id goal) id).
Qed.

Lemma toggled_JSON (goal g : BudgetGoal) :
  JSON_goal g = g ->
  JSON_goal (merge_goal g (toggle_updates goal)) = merge_goal g (toggle_updates goal).
Proof.
  intros Hg. apply (f_equal g_amount) in Hg. cbn [JSON_goal g_amount] in Hg.
  unfold JSON_goal, merge_goal, toggle_updates.
  cbn [g_id g_category g_amount g_period g_isActive g_createdAt gu_amount]. by rewrite Hg.
Qed.

Lemma handleToggleGoal_quiet (goal : BudgetGoal) (w : World) :
  faults w = [] ->
  handleToggleGoal goal w
  = (Ok tt,
     mkWorld
       (set_goals
          (Some (map (fun g => if String.eqb (g_id g) (g_id goal)
                               then merge_goal g (toggle_updates goal) else g)
                   (stored_goals w)))
          (store w))
       [] (tick w) (writes w ++ [GOALS_STORAGE_KEY])).
Proof.
  intros H. unfold handleToggleGoal, try_catch.
  rewrite updateBudgetGoal_quiet by done. do 4 f_equal.
  apply map_ext_in. intros g Hg.
  destruct (String.eqb (g_id g) (g_id goal)); [|done].
  apply toggled_JSON.
  pose proof (stored_goals_JSON w) as HJ. rewrite Forall_forall in HJ.
  apply HJ. by apply list_elem_of_In.
Qed.

Lemma toggled_list_JSON (goal : BudgetGoal) (l : list BudgetGoal) :
  Forall (fun g => JSON_goal g = g) l ->
  Forall (fun g => JSON_goal g = g)
    (map (fun g => if String.eqb (g_id g) (g_id goal)
                   then merge_goal g (toggle_updates goal) else g) l).
Proof.
  intros HJ. apply Forall_forall. intros g Hg. apply list_elem_of_In, in_map_iff in Hg.
  destruct Hg as (g0 & <- & Hg0). rewrite Forall_forall in HJ.
  assert (H0 : JSON_goal g0 = g0) by (apply HJ; by apply list_elem_of_In).
  destruct (String.eqb (g_id g0) (g_id goal)); [by apply toggled_JSON | done].
Qed.

Lemma toggled_goals_JSON (goal : BudgetGoal) (w : World) :
  Forall (fun g => JSON_goal g = g)
    (map (fun g => if String.eqb (g_id g) (g_id goal)
                   then merge_goal g (toggle_updates goal) else g)
       (stored_goals w)).
Proof. apply toggled_list_JSON, stored_goals_JSON. Qed.

(** Toggling a goal on the goals screen flips its [isActive] flag and nothing
    else; toggling the flipped goal again restores the stored goals, when
    the goal is the only stored goal with its id. *)
Theorem handleToggleGoal_twice (w : World) (goal : BudgetGoal) :
  faults w = [] ->
  In goal (stored_goals w) ->
  (forall g, In g (stored_goals w) -> g_id g = g_id goal -> g = goal) ->
  let flipped :=
    mkGoal (g_id goal) (g_category goal) (g_amount goal) (g_period goal)
      (negb (g_isActive goal)) (g_createdAt goal) in
  exists w1 w2,
    handleToggleGoal goal w = (Ok tt, w1) /\
    In flipped (stored_goals w1) /\
    (forall g, In g (stored_goals w) -> g_id g <> g_id goal -> In g (stored_goals w1)) /\
    handleToggleGoal flipped w1 = (Ok tt, w2) /\
    stored_goals w2 = stored_goals w.
Proof.
  intros H Hin Huniq flipped. do 2 eexists.
  split; [by apply handleToggleGoal_quiet|].
  rewrite stored_goals_fixed by apply toggled_goals_JSON.
  split; [|split; [|split; [by apply handleToggleGoal_quiet|]]].
  - apply in_map_iff. exists goal. split; [|done].
    by rewrite String.eqb_refl.
  - intros g Hg Hne. apply in_map_iff. exists g. split; [|done].
    by destruct (String.eqb_spec (g_id g) (g_id goal)).
  - rewrite (stored_goals_fixed _ (store w) [] (tick w)
               (writes w ++ [GOALS_STORAGE_KEY]) (toggled_goals_JSON goal w)).
    rewrite stored_goals_fixed by apply toggled_list_JSON, toggled_goals_JSON.
    rewrite map_map. apply map_id_on.
    intros g Hg. cbn [g_id flipped].
    destruct (String.eqb_spec (g_id g) (g_id goal)) as [E|Hne].
    + rewrite (Huniq g Hg E). clear.
      destruct goal as [i c a p act cr]. cbn. rewrite String.eqb_refl. cbn.
      by destruct act.
    + by destruct (String.eqb_spec (g_id g) (g_id goal)).
Qed.

Lemma deleteBudgetGoal_quiet (id : string) (w : World) :
  faults w = [] ->
  deleteBudgetGoal id w
  = (Ok tt,
     mkWorld
       (set_goals
          (Some (List.filter (fun goal => negb (String.eqb (g_id goal) id))
                   (stored_goals w)))
          (store w))
       [] (tick w) (writes w ++ [GOALS_STORAGE_KEY])).
Proof.
  intros H. unfold deleteBudgetGoal, try_catch, bind.
  rewrite getBudgetGoals_quiet by done.
  unfold setItem_goals. rewrite put_quiet by done.
  by rewrite (map_fixed _ _ (Forall_filter_list _ _ _ (stored_goals_JSON w))).
Qed.

(** [deleteBudgetGoal id] removes every goal whose id is [id] and keeps the
    others in their order; when no goal has that id it succeeds and the
    goals are unchanged. *)
Theorem deleteBudgetGoal_removes_id (w : World) (id : string) :
  faults w = [] ->
  exists w',
    deleteBudgetGoal id w = (Ok tt, w') /\
    (forall goal, In goal (stored_goals w')
                  <-> In goal (stored_goals w) /\ g_id goal <> id) /\
    sublist (stored_goals w') (stored_goals w) /\
    ((forall goal, In goal (stored_goals w) -> g_id goal <> id) ->
     stored_goals w' = stored_goals w) /\
    s_transactions (store w') = s_transactions (store w) /\
    s_categories (store w') = s_categories (store w).
Proof.
  intros H. eexists. split; [by apply deleteBudgetGoal_quiet|].
  rewrite stored_goals_fixed by apply Forall_filter_list, stored_goals_JSON.
  split; [|split; [|split; [|done]]].
  - intros goal. rewrite filter_In. split; intros [Hin Hne]; split; try done.
    + intros E. by rewrite E, String.eqb_refl in Hne.
    + by destruct (String.eqb_spec (g_id goal) id).
  - induction (stored_goals w) as [|g l IH]; simpl; [done|].
    destruct (negb _); [by apply sublist_skip | by apply sublist_cons].
  - intros Habs. apply filter_all. intros goal Hin.
    specialize (Habs goal Hin). by destruct (String.eqb_spec (g_id goal) id).
Qed.

(** ** The category registry *)

Lemma seeded_names (n : nat) :
  map c_name (seeded_categories nowISO n)
  = defaultExpenseCategories ++ defaultIncomeCategories.
Proof. reflexivity. Qed.

Lemma seeded_ids (n : nat) :
  map c_id (seeded_categories nowISO n)
  = ["expense-0"; "expense-1"; "expense-2"; "expense-3"; "expense-4";
     "expense-5"; "expense-6"; "expense-7"; "expense-8"; "expense-9";
     "income-0"; "income-1"; "income-2"; "income-3"; "income-4"; "income-5"]%string.
Proof. by vm_compute. Qed.

Lemma seeded_types (n : nat) :
  map c_type (seeded_categories nowISO n)
  = replicate 10 expense ++ replicate 6 income.
Proof. reflexivity. Qed.

Lemma seeded_not_custom (n : nat) :
  Forall (fun c => c_isCustom c = false) (seeded_categories nowISO n).
Proof. unfold seeded_categories. simpl. repeat constructor. Qed.

Lemma seeded_ids_NoDup (n : nat) : NoDup (map c_id (seeded_categories nowISO n)).
Proof.
  rewrite seeded_ids. apply (bool_decide_unpack _). by vm_compute.
Qed.

(** The first [getCategories()] on a store without a category list seeds and
    persists the sixteen default categories: the ten expense names and the
    six income names in their order, none custom, with pairwise distinct ids
    [expense-0] ... [income-5]; the next call returns the same list and
    writes nothing. *)
Theorem getCategories_seeds_once (w : World) :
  faults w = [] -> s_categories (store w) = None ->
  exists categories w',
    getCategories nowISO w = (Ok categories, w') /\
    map c_name categories = defaultExpenseCategories ++ defaultIncomeCategories /\
    map c_type categories = replicate 10 expense ++ replicate 6 income /\
    Forall (fun c => c_isCustom c = false) categories /\
    NoDup (map c_id categories) /\
    s_categories (store w') = Some categories /\
    writes w' = writes w ++ [CATEGORIES_STORAGE_KEY] /\
    s_transactions (store w') = s_transactions (store w) /\
    s_goals (store w') = s_goals (store w) /\
    getCategories nowISO w' = (Ok categories, w').
Proof.
  intros H Hc. do 2 eexists. split; [by apply getCategories_quiet|].
  assert (Hv : visible_categories nowISO w = seeded_categories nowISO (tick w))
    by (unfold visible_categories; by rewrite Hc).
  rewrite Hv.
  split; [apply seeded_names|]. split; [apply seeded_types|].
  split; [apply seeded_not_custom|]. split; [apply seeded_ids_NoDup|].
  split; [by rewrite after_getCategories_categories, Hv|].
  split; [unfold after_getCategories; by rewrite Hc|].
  split; [apply after_getCategories_transactions|].
  split; [apply after_getCategories_goals|].
  rewrite getCategories_quiet by (by apply after_getCategories_quiet).
  assert (Hs : s_categories (store (after_getCategories nowISO w))
               = Some (seeded_categories nowISO (tick w)))
    by (by rewrite after_getCategories_categories, Hv).
  rewrite (after_getCategories_stored nowISO (after_getCategories nowISO w))
    by (rewrite Hs; eauto).
  unfold visible_categories at 1. by rewrite Hs.
Qed.

Lemma addCategory_quiet (category : CategoryDraft) (w : World) :
  faults w = [] ->
  let w2 := mkWorld (store w) [] (S (S (tick w))) (writes w) in
  let newCategory :=
    mkCategory (genId (tick w)) (cd_name category) (cd_type category)
      (cd_isCustom category) (cd_icon category) (nowISO (S (tick w))) in
  addCategory genId nowISO category w
  = (Ok newCategory,
     mkWorld
       (set_categories (Some (visible_categories nowISO w2 ++ [newCategory]))
          (store (after_getCategories nowISO w2)))
       [] (tick (after_getCategories nowISO w2))
       (writes (after_getCategories nowISO w2) ++ [CATEGORIES_STORAGE_KEY])).
Proof.
  intros H w2 newCategory. unfold addCategory, try_catch, bind at 1 2 3.
  unfold next_tick. cbn [tick store faults writes]. rewrite H. fold w2.
  rewrite (getCategories_quiet nowISO w2) by done.
  unfold setItem_categories, bind.
  by rewrite put_quiet by (by apply after_getCategories_quiet).
Qed.

Lemma stored_categories_set (l : list Category) (s : Store) (fs : list bool)
    (t : nat) (wr : list Key) :
  visible_categories nowISO (mkWorld (set_categories (Some l) s) fs t wr) = l.
Proof. done. Qed.

(** [addCategory] returns the draft completed with the generated id and the
    current time and appends it to the category list: a following
    [getCategories()] returns the list as it was (the stored one, or the
    defaults seeded by this very call) followed by the new category.  The
    name is not checked against the existing ones and the custom flag is
    stored as the caller passes it. *)
Theorem addCategory_appends (w : World) (category : CategoryDraft) :
  faults w = [] ->
  exists newCategory w',
    addCategory genId nowISO category w = (Ok newCategory, w') /\
    c_id newCategory = genId (tick w) /\
    c_createdAt newCategory = nowISO (S (tick w)) /\
    c_name newCategory = cd_name category /\ c_type newCategory = cd_type category /\
    c_isCustom newCategory = cd_isCustom category /\
    c_icon newCategory = cd_icon category /\
    (forall categories,
        s_categories (store w) = Some categories ->
        getCategories nowISO w' = (Ok (categories ++ [newCategory]), w')) /\
    (s_categories (store w) = None ->
     getCategories nowISO w'
     = (Ok (seeded_categories nowISO (S (S (tick w))) ++ [newCategory]), w')) /\
    s_transactions (store w') = s_transactions (store w) /\
    s_goals (store w') = s_goals (store w).
Proof.
  intros H. do 2 eexists. split; [by apply addCategory_quiet|].
  do 6 (split; [done|]).
  split; [|split; [|split]].
  - intros categories Hc. rewrite getCategories_quiet by done.
    rewrite stored_categories_set.
    unfold visible_categories, after_getCategories. cbn [store]. by rewrite Hc.
  - intros Hc. rewrite getCategories_quiet by done.
    rewrite stored_categories_set.
    unfold visible_categories, after_getCategories. cbn [store tick]. by rewrite Hc.
  - cbn [store s_transactions set_categories].
    by rewrite after_getCategories_transactions.
  - cbn [store s_goals set_categories].
    by rewrite after_getCategories_goals.
Qed.

Lemma deleteCategory_custom_quiet (id : string) (w : World)
    (categories : list Category) (category : Category) :
  faults w = [] -> s_categories (store w) = Some categories ->
  List.find (fun cat => String.eqb (c_id cat) id) categories = Some category ->
  c_isCustom category = true ->
  deleteCategory Date_parse LocalTZA nowISO id w
  = (Ok tt,
     mkWorld
       (mkStore
          (Some (map (rename_transaction (c_name category) "Other")
                   (sorted_desc (stored_transactions w))))
          (Some (map (rename_goal (c_name category) "Other") (stored_goals w)))
          (Some (List.filter (fun cat => negb (String.eqb (c_id cat) id)) categories)))
       [] (tick w)
       (writes w ++ [STORAGE_KEY; GOALS_STORAGE_KEY; CATEGORIES_STORAGE_KEY])).
Proof.
  intros H Hc Hfind Hcustom. unfold deleteCategory, try_catch, bind at 1.
  rewrite getCategories_quiet by done.
  unfold visible_categories, after_getCategories. rewrite Hc, Hfind, Hcustom.
  cbn [negb]. by rewrite cascade_quiet.
Qed.

Lemma find_id_last (id : string) (categories : list Category) (category : Category) :
  (forall c, In c categories -> c_id c <> id) -> c_id category = id ->
  List.find (fun cat => String.eqb (c_id cat) id) (categories ++ [category])
  = Some category.
Proof.
  intros Habs Hid. induction categories as [|c l IH]; simpl.
  - by rewrite Hid, String.eqb_refl.
  - destruct (String.eqb_spec (c_id c) id) as [E|_].
    + exfalso. apply (Habs c); [by left|done].
    + apply IH. intros c' Hc'. apply Habs. by right.
Qed.

(** Adding a custom category and deleting it again by the id that was
    returned leaves the category list that [addCategory] found: the stored
    list or, when none was stored, the defaults that the call seeded.  The
    generated id must not be the id of a category of that list.  The cascade
    of the deletion still runs: transactions and goals that carry the
    category's name, also those that carried it before the category was
    added, end up under "Other". *)
Theorem addCategory_then_deleteCategory (w : World) (category : CategoryDraft) :
  faults w = [] ->
  cd_isCustom category = true ->
  let categories := visible_categories nowISO (two_ticks w) in
  (forall c, In c categories -> c_id c <> genId (tick w)) ->
  exists newCategory w1 w2,
    addCategory genId nowISO category w = (Ok newCategory, w1) /\
    deleteCategory Date_parse LocalTZA nowISO (c_id newCategory) w1 = (Ok tt, w2) /\
    s_categories (store w2) = Some categories /\
    (forall stored, s_categories (store w) = Some stored -> categories = stored) /\
    (s_categories (store w) = None ->
     categories = seeded_categories nowISO (S (S (tick w)))) /\
    stored_transactions w2
    = map (rename_transaction (cd_name category) "Other")
        (sorted_desc (stored_transactions w)) /\
    stored_goals w2 = map (rename_goal (cd_name category) "Other") (stored_goals w).
Proof.
  intros H Hcustom categories Hfresh. do 3 eexists.
  split; [by apply addCategory_quiet|].
  change (visible_categories nowISO
            (mkWorld (store w) [] (S (S (tick w))) (writes w))) with categories.
  set (w0 := after_getCategories nowISO
               (mkWorld (store w) [] (S (S (tick w))) (writes w))).
  cbn [c_id].
  set (newCategory := mkCategory (genId (tick w)) _ _ _ _ _).
  set (w1 := mkWorld _ _ _ _).
  assert (Et : stored_transactions w1 = stored_transactions w).
  { unfold stored_transactions, w1, w0. cbn [store s_transactions set_categories].
    by rewrite after_getCategories_transactions. }
  assert (Eg : stored_goals w1 = stored_goals w).
  { unfold stored_goals, w1, w0. cbn [store s_goals set_categories].
    by rewrite after_getCategories_goals. }
  pose proof (deleteCategory_custom_quiet (genId (tick w)) w1
                (categories ++ [newCategory]) newCategory eq_refl eq_refl
                (find_id_last _ _ newCategory Hfresh eq_refl) Hcustom) as Hd.
  rewrite Et, Eg in Hd.
  split; [exact Hd|].
  cbn [store s_categories c_name].
  split; [|split; [|split; [|split]]].
  - f_equal. rewrite List.filter_app. simpl. rewrite String.eqb_refl. simpl.
    rewrite app_nil_r. apply filter_all. intros c Hin.
    specialize (Hfresh c Hin).
    by destruct (String.eqb_spec (c_id c) (genId (tick w))).
  - intros stored Hs. unfold categories, visible_categories, two_ticks.
    cbn [store]. by rewrite Hs.
  - intros Hs. unfold categories, visible_categories, two_ticks.
    cbn [store tick]. by rewrite Hs.
  - unfold stored_transactions at 1, JSON_parse_transactions.
    cbn [store s_transactions]. change (default [] (Some ?l)) with l.
    apply (renamed_JSON Date_parse LocalTZA).
  - unfold stored_goals at 1, JSON_parse_goals.
    cbn [store s_goals]. change (default [] (Some ?l)) with l.
    apply renamed_goals_JSON.
Qed.

(** [updateCategory] with updates that carry no name, the old name or the
    empty name replaces the first category that has the id by the merged
    record and writes the category list only: transactions and goals stay
    as they are, and the list keeps its length and its other entries. *)
Theorem updateCategory_without_rename (w : World) (id : string)
    (updates : CategoryUpdates) (i : nat) (old : Category) :
  faults w = [] ->
  findIndex id (visible_categories nowISO w) = Some i ->
  visible_categories nowISO w !! i = Some old ->
  name_changed old updates = None ->
  exists w',
    updateCategory Date_parse LocalTZA nowISO id updates w = (Ok tt, w') /\
    s_categories (store w')
    = Some (<[i := merge_category old updates]> (visible_categories nowISO w)) /\
    s_transactions (store w') = s_transactions (store w) /\
    s_goals (store w') = s_goals (store w) /\
    writes w' = writes (after_getCategories nowISO w) ++ [CATEGORIES_STORAGE_KEY] /\
    length (<[i := merge_category old updates]> (visible_categories nowISO w))
    = length (visible_categories nowISO w) /\
    forall j, j <> i ->
      <[i := merge_category old updates]> (visible_categories nowISO w) !! j
      = visible_categories nowISO w !! j.
Proof.
  intros H Hi Hold Hn.
  assert (E : updateCategory Date_parse LocalTZA nowISO id updates w
    = (Ok tt,
       mkWorld
         (set_categories
            (Some (<[i := merge_category old updates]> (visible_categories nowISO w)))
            (store (after_getCategories nowISO w)))
         [] (tick (after_getCategories nowISO w))
         (writes (after_getCategories nowISO w) ++ [CATEGORIES_STORAGE_KEY]))).
  { unfold updateCategory, try_catch, bind at 1.
    rewrite getCategories_quiet by done. rewrite Hi, Hold, Hn.
    unfold bind, ret, setItem_categories.
    by rewrite put_quiet by (by apply after_getCategories_quiet). }
  eexists. split; [exact E|]. cbn [store s_categories s_transactions s_goals
                                   set_categories writes].
  split; [done|].
  split; [apply after_getCategories_transactions|].
  split; [apply after_getCategories_goals|].
  split; [done|]. split; [apply length_insert|].
  intros j Hj. by apply list_lookup_insert_ne.
Qed.

(** [clearAllData] removes the three keys, transactions first, then goals,
    then categories.  Afterwards the ledger and the goals read as empty, no
    alert is raised, and [getCategories()] seeds the defaults afresh, so that
    no custom category is left. *)
Theorem clearAllData_resets (w : World) :
  faults w = [] ->
  exists w',
    clearAllData w = (Ok tt, w') /\
    store w' = mkStore None None None /\
    writes w' = writes w ++ [STORAGE_KEY; GOALS_STORAGE_KEY; CATEGORIES_STORAGE_KEY] /\
    (forall month year,
        getTransactions Date_parse LocalTZA month year w' = (Ok [], w')) /\
    getBudgetGoals w' = (Ok [], w') /\
    (forall month year,
        checkBudgetAlerts Date_parse LocalTZA month year w'
        = (Ok (mkAlerts [] []), w')) /\
    exists categories w'',
      getCategories nowISO w' = (Ok categories, w'') /\
      length categories = 16%nat /\
      Forall (fun c => c_isCustom c = false) categories.
Proof.
  intros H.
  assert (E : clearAllData w
    = (Ok tt,
       mkWorld (mkStore None None None) [] (tick w)
         (writes w ++ [STORAGE_KEY; GOALS_STORAGE_KEY; CATEGORIES_STORAGE_KEY]))).
  { unfold clearAllData, try_catch, bind at 1.
    rewrite put_quiet by done. unfold bind at 1. rewrite put_quiet by done.
    rewrite put_quiet by done. cbn. by rewrite <- !app_assoc. }
  eexists. split; [exact E|]. split; [done|]. split; [done|].
  split; [|split; [|split]].
  - intros month year. rewrite getTransactions_quiet by done.
    unfold stored_transactions. cbn. by rewrite month_filter_nil.
  - by rewrite getBudgetGoals_quiet.
  - intros month year. rewrite checkBudgetAlerts_quiet by done. done.
  - do 2 eexists. split; [by apply getCategories_quiet|].
    unfold visible_categories. cbn [store s_categories tick].
    split; [done|apply seeded_not_custom].
Qed.


(** ** getUniqueCategories *)

Lemma Set_add_In (set : list string) (x y : string) :
  In y (Set_add set x) <-> In y set \/ y = x.
Proof.
  unfold Set_add. destruct (existsb (String.eqb x) set) eqn:E.
  - apply existsb_exists in E as (z & Hz & Ez). apply String.eqb_eq in Ez. subst z.
    split; [by left|]. intros [?| ->]; done.
  - rewrite in_app_iff. simpl. split; [intros [?|[<-|[]]]; auto | intros [?| ->]; auto].
Qed.

Lemma Set_add_NoDup (set : list string) (x : string) :
  List.NoDup set -> List.NoDup (Set_add set x).
Proof.
  intros Hnd. unfold Set_add. destruct (existsb (String.eqb x) set) eqn:E; [done|].
  apply NoDup_ListNoDup. apply NoDup_app. split; [by apply NoDup_ListNoDup|].
  split; [|apply NoDup_singleton].
  intros y Hy Hx%list_elem_of_singleton. subst y.
  apply list_elem_of_In in Hy.
  assert (existsb (String.eqb x) set = true); [|congruence].
  apply existsb_exists. exists x. split; [done|apply String.eqb_refl].
Qed.

Lemma Set_fold_In (l set : list string) (y : string) :
  In y (fold_left Set_add l set) <-> In y set \/ In y l.
Proof.
  revert set. induction l as [|x l IH]; intros set; simpl; [tauto|].
  rewrite IH, Set_add_In. split; [intros [[?|?]|?]|intros [?|[?|?]]]; auto.
Qed.

Lemma Set_fold_NoDup (l set : list string) :
  List.NoDup set -> List.NoDup (fold_left Set_add l set).
Proof.
  revert set. induction l as [|x l IH]; intros set Hnd; simpl; [done|].
  by apply IH, Set_add_NoDup.
Qed.

Lemma units_compare_antisym (x y : list N) :
  units_compare y x = CompOpp (units_compare x y).
Proof.
  revert y. induction x as [|a x IH]; intros [|b y]; simpl; try done.
  rewrite (N.compare_antisym a b).
  destruct (a ?= b)%N; simpl; [apply IH|done|done].
Qed.

Lemma units_compare_trans (x y z : list N) :
  units_compare x y <> Gt -> units_compare y z <> Gt -> units_compare x z <> Gt.
Proof.
  revert y z. induction x as [|a x IH]; intros [|b y] [|c z]; simpl; try done.
  destruct (N.compare_spec a b) as [Eab|Lab|Gab];
    destruct (N.compare_spec b c) as [Ebc|Lbc|Gbc]; try done; intros Hab Hbc.
  - subst. rewrite N.compare_refl. by eapply IH.
  - subst. by apply N.compare_lt_iff in Lbc as ->.
  - subst. by apply N.compare_lt_iff in Lab as ->.
  - assert (L : (a < c)%N) by lia. by apply N.compare_lt_iff in L as ->.
Qed.

Lemma units_le_trans (a b c : string) : units_le a b -> units_le b c -> units_le a c.
Proof. unfold units_le. apply units_compare_trans. Qed.

Lemma units_le_flip (a b : string) :
  units_compare (code_units a) (code_units b) = Gt -> units_le b a.
Proof. unfold units_le. intros H. by rewrite units_compare_antisym, H. Qed.

Lemma sort_insert_strings (x : string) (l : list string) :
  StronglySorted units_le l ->
  StronglySorted units_le (sort_insert default_compare x l).
Proof.
  intros Hs. induction Hs as [|y l Hs IH Hy]; simpl.
  - repeat constructor.
  - unfold SortCompare, default_compare. simpl.
    destruct (units_compare (code_units x) (code_units y)) eqn:C; simpl.
    + assert (Hxy : units_le x y) by (unfold units_le; by rewrite C).
      constructor; [by constructor|]. constructor; [done|].
      eapply Forall_impl; [exact Hy|]. intros z Hz. by eapply units_le_trans.
    + assert (Hxy : units_le x y) by (unfold units_le; by rewrite C).
      constructor; [by constructor|]. constructor; [done|].
      eapply Forall_impl; [exact Hy|]. intros z Hz. by eapply units_le_trans.
    + constructor; [exact IH|].
      rewrite sort_insert_perm. constructor; [by apply units_le_flip|done].
Qed.

Lemma Array_sort_strings (l : list string) :
  StronglySorted units_le (Array_sort default_compare l).
Proof.
  induction l as [|x l IH]; simpl; [constructor|]. by apply sort_insert_strings.
Qed.

Lemma Array_sort_NoDup {A} (comparefn : A -> A -> option Z) (l : list A) :
  List.NoDup l -> List.NoDup (Array_sort comparefn l).
Proof.
  intros H. apply NoDup_ListNoDup. rewrite Array_sort_perm. by apply NoDup_ListNoDup.
Qed.

Lemma getUniqueCategories_run (w : World) (transactions : list Transaction)
    (w' : World) :
  getTransactions Date_parse LocalTZA None None w = (Ok transactions, w') ->
  getUniqueCategories Date_parse LocalTZA w
  = (Ok (Array_sort default_compare
           (Set_from (map t_category (List.filter (is_type expense) transactions)
                      ++ defaultCategories))), w').
Proof.
  intros E. unfold getUniqueCategories, try_catch, bind. by rewrite E.
Qed.

(** [getUniqueCategories] never throws.  Its result is in ascending order
    of the UTF-16 code units of the names, without duplicates, and always
    holds the ten default expense names; when the store can be read it
    holds, besides those, exactly the categories of the stored expense
    transactions, and never the category of a mere income transaction. *)
Theorem getUniqueCategories_sorted_union (w : World) :
  (exists l w',
      getUniqueCategories Date_parse LocalTZA w = (Ok l, w') /\
      StronglySorted units_le l /\
      List.NoDup l /\
      forall c, In c defaultCategories -> In c l) /\
  (faults w = [] ->
   exists l,
     getUniqueCategories Date_parse LocalTZA w = (Ok l, w) /\
     forall c,
       In c l <->
       In c defaultCategories \/
       exists t, In t (stored_transactions w) /\ t_type t = expense /\ t_category t = c).
Proof.
  split.
  - destruct (getTransactions_total Date_parse LocalTZA None None w) as (ts & w' & E).
    do 2 eexists. split; [by apply getUniqueCategories_run|].
    split; [apply Array_sort_strings|].
    split; [apply Array_sort_NoDup, Set_fold_NoDup; constructor|].
    intros c Hc. apply list_elem_of_In. rewrite Array_sort_perm.
    apply list_elem_of_In, Set_fold_In. right. apply in_app_iff. by right.
  - intros H. eexists. split.
    + apply getUniqueCategories_run. by apply getTransactions_quiet.
    + intros c. rewrite month_filter_none.
      rewrite <- (list_elem_of_In _ c), Array_sort_perm, list_elem_of_In.
      unfold Set_from. rewrite Set_fold_In, in_app_iff, in_map_iff.
      split.
      * intros [[]|[(t & Ht & Hin)|Hd]]; [|by left].
        right. apply filter_In in Hin as [Hin Hty]. exists t. split.
        -- apply list_elem_of_In.
           rewrite <- (Array_sort_perm (by_date_desc Date_parse)).
           by apply list_elem_of_In.
        -- split; [|done]. unfold is_type in Hty. by destruct (t_type t).
      * intros [Hd|(t & Hin & Hty & Hc)]; right; [by right|].
        left. exists t. split; [done|]. apply filter_In. split.
        -- apply list_elem_of_In. rewrite Array_sort_perm. by apply list_elem_of_In.
        -- unfold is_type. by rewrite Hty.
Qed.

(** ** The progress bar of the goals screen *)

Section Progress.
Local Open Scope float_scope.

Lemma Math_min_100 (x : float) :
  Math_min x 100
  = if is_nan x then nan
    else if x <? 100 then x
    else if 100 <? x then 100
    else if get_sign x then x else 100.
Proof.
  unfold Math_min. change (is_nan 100) with false. by rewrite orb_false_r.
Qed.

Lemma Math_min_ge (x c : float) :
  c = 100 \/ (c <? 100) = true ->
  js_ge (Math_min x 100) c = js_ge x c.
Proof.
  intros Hc. rewrite Math_min_100. unfold js_ge.
  destruct (is_nan x) eqn:Hn.
  { by rewrite !leb_nan_r. }
  destruct (x <? 100) eqn:L1; [done|].
  assert (G : (100 <=? x) = true).
  { rewrite (ltb_leb_total x 100 Hn eq_refl) in L1. by destruct (100 <=? x). }
  assert (Hx : (c <=? x) = true).
  { destruct Hc as [->|Hc]; [done|]. by apply ltb_leb, (ltb_leb_trans c 100 x). }
  assert (H100 : (c <=? 100) = true).
  { destruct Hc as [->|Hc]; [done|]. by apply ltb_leb. }
  destruct (100 <? x); [by rewrite Hx, H100|].
  destruct (get_sign x); [done|]. by rewrite Hx, H100.
Qed.

Lemma Math_min_capped (x c : float) :
  (100 <? c) = true -> js_ge (Math_min x 100) c = false.
Proof.
  intros Hc. rewrite Math_min_100. unfold js_ge.
  destruct (is_nan x) eqn:Hn.
  { by apply leb_nan_r. }
  destruct (x <? 100) eqn:L1.
  { apply ltb_asym. by apply (ltb_trans x 100 c). }
  destruct (100 <? x) eqn:L2.
  { by apply ltb_asym. }
  assert (G : (x <=? 100) = true).
  { rewrite (ltb_leb_total 100 x eq_refl Hn) in L2. by destruct (x <=? 100). }
  destruct (get_sign x); [|by apply ltb_asym].
  apply ltb_asym. by apply (leb_ltb_trans x 100 c).
Qed.

Lemma getProgressColor_capped (x : float) :
  getProgressColor (Math_min x 100) = getProgressColor x.
Proof.
  unfold getProgressColor.
  rewrite !Math_min_ge; [done|by right|by right|by left].
Qed.

End Progress.

(** The progress bar of a goal shows the spending that [checkBudgetAlerts]
    measures and a percentage that never passes 100; for an active goal its
    colour is the red [#FF3B30] exactly when the goal is among the exceeded
    goals and the orange [#FF9500] exactly when it is among the warning
    goals. *)
Theorem getGoalProgress_agrees_with_alerts (stats : Stats) (goal : BudgetGoal) :
  g_isActive goal = true ->
  let progress := getGoalProgress stats goal in
  let alerts := evaluate_goals [goal] stats in
  p_currentSpending progress = currentSpending_of stats goal /\
  p_currentSpending progress
  = (if ToBoolean (spending stats goal) then spending stats goal else VNumber 0) /\
  (forall alert,
      In alert (exceededGoals alerts ++ warningGoals alerts) ->
      a_currentSpending alert = p_currentSpending progress) /\
  (forall c, (100 <? c)%float = true -> js_ge (p_percentage progress) c = false) /\
  (js_lt (percentage_of stats goal) 100 = true ->
   p_percentage progress = percentage_of stats goal) /\
  (getProgressColor (p_percentage progress) = "#FF3B30"%string
   <-> alerted (exceededGoals alerts) goal) /\
  (getProgressColor (p_percentage progress) = "#FF9500"%string
   <-> alerted (warningGoals alerts) goal).
Proof.
  intros Ha progress alerts.
  assert (Hp : p_percentage progress = Math_min (percentage_of stats goal) 100)
    by reflexivity.
  assert (Hal : alerts
                = if js_ge (percentage_of stats goal) 100 then
                    mkAlerts [mkAlert goal (currentSpending_of stats goal)
                                (percentage_of stats goal)] []
                  else if js_ge (percentage_of stats goal) 80 then
                    mkAlerts [] [mkAlert goal (currentSpending_of stats goal)
                                   (percentage_of stats goal)]
                  else mkAlerts [] []).
  { unfold alerts, evaluate_goals. cbn [fold_left]. unfold evaluate_goal.
    rewrite Ha. cbn [negb exceededGoals warningGoals app]. done. }
  split; [done|].
  split.
  { unfold progress, getGoalProgress, spending. cbn [p_currentSpending].
    by destruct (js_get (expensesByCategory stats) (g_category goal)). }
  split.
  { intros alert. rewrite Hal.
    destruct (js_ge (percentage_of stats goal) 100);
      [|destruct (js_ge (percentage_of stats goal) 80)];
      cbn [exceededGoals warningGoals app In]; intros H;
      repeat (destruct H as [H|H]); try done; by subst. }
  split; [intros c Hc; rewrite Hp; by apply Math_min_capped|].
  split.
  { intros Hlt. rewrite Hp, Math_min_100. unfold js_lt in Hlt.
    destruct (ltb_not_nan _ _ Hlt) as [-> _]. by rewrite Hlt. }
  rewrite Hp, getProgressColor_capped, Hal. unfold getProgressColor, alerted.
  destruct (js_ge (percentage_of stats goal) 100).
  { cbn [exceededGoals warningGoals]. split; split; try done.
    - intros _. eexists. split; [by left|done].
    - by intros (al & [] & _). }
  destruct (js_ge (percentage_of stats goal) 80).
  { cbn [exceededGoals warningGoals]. split; split; try done.
    - by intros (al & [] & _).
    - intros _. eexists. split; [by left|done]. }
  cbn [exceededGoals warningGoals].
  destruct (js_ge (percentage_of stats goal) 60);
    split; split; try done; by intros (al & [] & _).
Qed.

(** ** Edges of the month selector *)

Lemma month_filter_falsy (month year : option Z) (l : list Transaction) :
  truthy month && truthy year = false ->
  month_filter Date_parse LocalTZA month year l = l.
Proof.
  unfold month_filter. destruct month as [m|], year as [y|]; try done.
  by intros ->.
Qed.

(** A selector of which the month or the year is missing or 0 is ignored:
    the whole collection is returned.  A stored record whose date does not
    parse is returned by [getTransactions()] but by no
    [getTransactions(month, year)], whatever the month and the year. *)
Theorem getTransactions_selector_edges (w : World) :
  faults w = [] ->
  (forall month year,
      truthy month && truthy year = false ->
      getTransactions Date_parse LocalTZA month year w
      = getTransactions Date_parse LocalTZA None None w) /\
  (forall m y t,
      m <> 0 -> y <> 0 ->
      In t (stored_transactions w) -> time_of Date_parse t = None ->
      exists all monthly,
        getTransactions Date_parse LocalTZA None None w = (Ok all, w) /\ In t all /\
        getTransactions Date_parse LocalTZA (Some m) (Some y) w = (Ok monthly, w) /\
        ~ In t monthly).
Proof.
  intros H. split.
  - intros month year Hf. rewrite !getTransactions_quiet by done.
    by rewrite month_filter_falsy, month_filter_none.
  - intros m y t Hm Hy Hin Hnone. do 2 eexists.
    split; [by apply getTransactions_quiet|]. rewrite month_filter_none.
    split.
    { apply list_elem_of_In. rewrite Array_sort_perm. by apply list_elem_of_In. }
    split; [by apply getTransactions_quiet|].
    intros Ht. apply list_elem_of_In in Ht. rewrite Array_sort_perm in Ht.
    apply list_elem_of_In in Ht. unfold month_filter, truthy in Ht.
    destruct (Z.eqb_spec m 0); [done|]. destruct (Z.eqb_spec y 0); [done|].
    simpl in Ht. apply filter_In in Ht as [_ Ht].
    apply in_month_valid in Ht as [k Hk]. congruence.
Qed.

(** ** The months of a year do not overlap *)

Lemma year_length (yr : Z) :
  DayFromYear (yr + 1)
  = DayFromYear yr + 365 + (if InLeapYear yr then 1 else 0).
Proof.
  unfold DayFromYear, InLeapYear.
  destruct (Z.eqb_spec (yr mod 4) 0), (Z.eqb_spec (yr mod 100) 0),
    (Z.eqb_spec (yr mod 400) 0); simpl;
    Z.to_euclidean_division_equations; lia.
Qed.

(** The day number of the first day of month [k] (0 = January, 12 = January
    of the next year), counted from 1 January. *)
Lemma MakeDay_first (yr k : Z) :
  0 <= k <= 12 ->
  MakeDay yr k 1
  = DayFromYear yr
    + (if k =? 12 then 365 + (if InLeapYear yr then 1 else 0)
       else DaysBeforeMonth (InLeapYear yr) k).
Proof.
  intros Hk. unfold MakeDay.
  destruct (Z.eqb_spec k 12) as [->|Hne].
  - change (12 / 12) with 1. change (12 mod 12) with 0. rewrite year_length.
    simpl. lia.
  - rewrite Z.div_small, Z.mod_small by lia. rewrite Z.add_0_r. lia.
Qed.

Lemma MakeDay_first_mono (yr k1 k2 : Z) :
  0 <= k1 -> k1 <= k2 -> k2 <= 12 -> MakeDay yr k1 1 <= MakeDay yr k2 1.
Proof.
  intros H0 H12 Hk. rewrite !MakeDay_first by lia.
  assert (C1 : k1 = 0 \/ k1 = 1 \/ k1 = 2 \/ k1 = 3 \/ k1 = 4 \/ k1 = 5 \/ k1 = 6
               \/ k1 = 7 \/ k1 = 8 \/ k1 = 9 \/ k1 = 10 \/ k1 = 11 \/ k1 = 12) by lia.
  assert (C2 : k2 = 0 \/ k2 = 1 \/ k2 = 2 \/ k2 = 3 \/ k2 = 4 \/ k2 = 5 \/ k2 = 6
               \/ k2 = 7 \/ k2 = 8 \/ k2 = 9 \/ k2 = 10 \/ k2 = 11 \/ k2 = 12) by lia.
  destruct (InLeapYear yr);
    repeat (destruct C1 as [->|C1]); subst;
    repeat (destruct C2 as [->|C2]); subst; simpl; lia.
Qed.

Lemma month_ranges_disjoint (tz y m1 m2 : Z) (d : option Z) :
  (forall t, LocalTZA t = tz) -> 1 <= m1 -> m1 < m2 -> m2 <= 12 ->
  date_le d (endDate LocalTZA m1 y) = true ->
  date_ge d (startDate LocalTZA m2 y) = false.
Proof.
  intros Htz H1 Hlt H12. unfold endDate, startDate, Date_local, UTC.
  rewrite !Htz. set (yr := if (0 <=? y) && (y <=? 99) then 1900 + y else y).
  assert (Hm : MakeDay yr m1 1 <= MakeDay yr (m2 - 1) 1)
    by (apply MakeDay_first_mono; lia).
  assert (Hd : MakeDay yr m1 0 = MakeDay yr m1 1 - 1) by (unfold MakeDay; lia).
  unfold TimeClip, MakeDate, MakeTime, msPerDay in *.
  destruct d as [x|]; [|done].
  destruct (_ <=? 8640000000000000); [|done].
  destruct (_ <=? 8640000000000000); [|done].
  simpl. intros Hle%Z.leb_le. apply Z.leb_gt. lia.
Qed.

(** In a time zone of fixed offset, no transaction is returned for two
    different months (1 to 12) of one non-zero year: the month views do not
    overlap. *)
Theorem getTransactions_months_disjoint (w : World) (tz y m1 m2 : Z) :
  faults w = [] -> (forall t, LocalTZA t = tz) ->
  y <> 0 -> 1 <= m1 -> m1 < m2 -> m2 <= 12 ->
  exists r1 r2,
    getTransactions Date_parse LocalTZA (Some m1) (Some y) w = (Ok r1, w) /\
    getTransactions Date_parse LocalTZA (Some m2) (Some y) w = (Ok r2, w) /\
    forall t, In t r1 -> ~ In t r2.
Proof.
  intros H Htz Hy H1 Hlt H12. do 2 eexists.
  split; [by apply getTransactions_quiet|].
  split; [by apply getTransactions_quiet|].
  intros t Ht1 Ht2.
  apply list_elem_of_In in Ht1, Ht2. rewrite Array_sort_perm in Ht1, Ht2.
  apply list_elem_of_In in Ht1, Ht2. unfold month_filter, truthy in Ht1, Ht2.
  destruct (Z.eqb_spec m1 0); [lia|]. destruct (Z.eqb_spec m2 0); [lia|].
  destruct (Z.eqb_spec y 0); [done|]. simpl in Ht1, Ht2.
  apply filter_In in Ht1 as [_ Ht1]. apply filter_In in Ht2 as [_ Ht2].
  unfold in_month in Ht1, Ht2.
  apply andb_true_iff in Ht1 as [_ Hle]. apply andb_true_iff in Ht2 as [Hge _].
  rewrite (month_ranges_disjoint tz y m1 m2 _ Htz H1 Hlt H12 Hle) in Hge. done.
Qed.


(** ** Renaming a category moves its spending *)

Lemma updateCategory_rename_quiet (w : World) (id : string) (updates : CategoryUpdates)
    (i : nat) (old : Category) (name : string) :
  faults w = [] ->
  findIndex id (visible_categories nowISO w) = Some i ->
  visible_categories nowISO w !! i = Some old ->
  name_changed old updates = Some name ->
  updateCategory Date_parse LocalTZA nowISO id updates w
  = (Ok tt,
     mkWorld
       (mkStore
          (Some (map (rename_transaction (c_name old) name)
                   (sorted_desc (stored_transactions w))))
          (Some (map (rename_goal (c_name old) name) (stored_goals w)))
          (Some (<[i := merge_category old updates]> (visible_categories nowISO w))))
       [] (tick (after_getCategories nowISO w))
       (writes (after_getCategories nowISO w)
        ++ [STORAGE_KEY; GOALS_STORAGE_KEY; CATEGORIES_STORAGE_KEY])).
Proof.
  intros H Hi Hold Hn. unfold updateCategory, try_catch, bind at 1.
  rewrite getCategories_quiet by done. rewrite Hi, Hold, Hn.
  rewrite bind_assoc.
  rewrite cascade_quiet by (by apply after_getCategories_quiet).
  by rewrite stored_transactions_after, stored_goals_after.
Qed.

Lemma deleteCategory_custom_run (id : string) (w : World) (category : Category) :
  faults w = [] ->
  List.find (fun cat => String.eqb (c_id cat) id) (visible_categories nowISO w)
  = Some category ->
  c_isCustom category = true ->
  deleteCategory Date_parse LocalTZA nowISO id w
  = (Ok tt,
     mkWorld
       (mkStore
          (Some (map (rename_transaction (c_name category) "Other")
                   (sorted_desc (stored_transactions w))))
          (Some (map (rename_goal (c_name category) "Other") (stored_goals w)))
          (Some (List.filter (fun cat => negb (String.eqb (c_id cat) id))
                   (visible_categories nowISO w))))
       [] (tick (after_getCategories nowISO w))
       (writes (after_getCategories nowISO w)
        ++ [STORAGE_KEY; GOALS_STORAGE_KEY; CATEGORIES_STORAGE_KEY])).
Proof.
  intros H Hfind Hcustom. unfold deleteCategory, try_catch, bind at 1.
  rewrite getCategories_quiet by done. rewrite Hfind, Hcustom. cbn [negb].
  rewrite cascade_quiet by (by apply after_getCategories_quiet).
  by rewrite stored_transactions_after, stored_goals_after.
Qed.

Lemma rename_transaction_time (old new : string) (t : Transaction) :
  t_date (rename_transaction old new t) = t_date t.
Proof. unfold rename_transaction. by destruct (String.eqb _ _). Qed.

Lemma month_filter_rename (old new : string) (month year : option Z)
    (l : list Transaction) :
  month_filter Date_parse LocalTZA month year (map (rename_transaction old new) l)
  = map (rename_transaction old new) (month_filter Date_parse LocalTZA month year l).
Proof.
  unfold month_filter. destruct month as [m|], year as [y|]; try done.
  destruct (truthy _ && truthy _); [|done].
  induction l as [|t l IH]; [done|].
  cbn [map List.filter].
  assert (E : in_month Date_parse LocalTZA m y (rename_transaction old new t)
              = in_month Date_parse LocalTZA m y t).
  { unfold in_month. by rewrite rename_transaction_time. }
  rewrite E, IH. by destruct (in_month Date_parse LocalTZA m y t).
Qed.

(** The selection after a rename is the selection before it, renamed:
    neither the filter nor the sort looks at the category. *)
Lemma selected_rename (old new : string) (month year : option Z)
    (l : list Transaction) :
  Forall (valid_date Date_parse) l ->
  sorted_desc (month_filter Date_parse LocalTZA month year
                 (map (rename_transaction old new) (sorted_desc l)))
  = map (rename_transaction old new)
      (sorted_desc (month_filter Date_parse LocalTZA month year l)).
Proof.
  intros Hv. rewrite month_filter_rename.
  rewrite Array_sort_map
    by (intros a b; unfold by_date_desc; by rewrite !rename_transaction_time).
  f_equal. unfold month_filter.
  destruct month as [m|], year as [y|]; try (by apply Array_sort_idempotent).
  destruct (truthy _ && truthy _); [|by apply Array_sort_idempotent].
  rewrite <- Array_sort_filter by done.
  apply Array_sort_idempotent. by apply Forall_filter_list.
Qed.

Lemma rename_transaction_type (old new : string) (ty : TxType) (t : Transaction) :
  is_type ty (rename_transaction old new t) = is_type ty t.
Proof. unfold rename_transaction, is_type. by destruct (String.eqb _ _). Qed.

Lemma rename_transaction_amount (old new : string) (t : Transaction) :
  t_amount (rename_transaction old new t) = t_amount t.
Proof. unfold rename_transaction. by destruct (String.eqb _ _). Qed.

Lemma rename_transaction_category (old new c : string) (t : Transaction) :
  has_category c (rename_transaction old new t)
  = if String.eqb (t_category t) old then String.eqb new c else has_category c t.
Proof.
  unfold rename_transaction, has_category.
  by destruct (String.eqb (t_category t) old).
Qed.

Lemma amounts_type_rename (old new : string) (ty : TxType) (l : list Transaction) :
  map t_amount (List.filter (is_type ty) (map (rename_transaction old new) l))
  = map t_amount (List.filter (is_type ty) l).
Proof.
  induction l as [|t l IH]; [done|]. cbn [map List.filter].
  rewrite rename_transaction_type. destruct (is_type ty t); [|done].
  cbn [map]. by rewrite rename_transaction_amount, IH.
Qed.

Lemma spent_rename_other (old new c : string) (l : list Transaction) :
  c <> old -> c <> new ->
  List.filter (has_category c)
    (List.filter (is_type expense) (map (rename_transaction old new) l))
  = List.filter (has_category c) (List.filter (is_type expense) l).
Proof.
  intros Ho Hn. induction l as [|t l IH]; [done|]. cbn [map List.filter].
  rewrite rename_transaction_type. destruct (is_type expense t); [|done].
  cbn [List.filter]. rewrite rename_transaction_category, IH.
  unfold has_category.
  destruct (String.eqb_spec (t_category t) old) as [E|E].
  2:{ unfold rename_transaction.
      by destruct (String.eqb_spec (t_category t) old). }
  rewrite E. destruct (String.eqb_spec new c); [congruence|].
  destruct (String.eqb_spec old c); [congruence|done].
Qed.

Lemma spent_rename_old (old new : string) (l : list Transaction) :
  new <> old ->
  List.filter (has_category old)
    (List.filter (is_type expense) (map (rename_transaction old new) l)) = [].
Proof.
  intros Hne. induction l as [|t l IH]; [done|]. cbn [map List.filter].
  destruct (is_type expense (rename_transaction old new t)); [|done].
  cbn [List.filter]. rewrite IH. unfold has_category.
  pose proof (rename_transaction_clears old new t Hne) as Hc.
  by destruct (String.eqb_spec (t_category (rename_transaction old new t)) old).
Qed.

Lemma spent_rename_new (old new : string) (l : list Transaction) :
  map t_amount
    (List.filter (has_category new)
       (List.filter (is_type expense) (map (rename_transaction old new) l)))
  = map t_amount
      (List.filter (has_either old new) (List.filter (is_type expense) l)).
Proof.
  induction l as [|t l IH]; [done|]. cbn [map List.filter].
  rewrite rename_transaction_type. destruct (is_type expense t); [|done].
  cbn [List.filter]. rewrite rename_transaction_category.
  assert (E : has_either old new t
              = if String.eqb (t_category t) old then true else has_category new t)
    by reflexivity.
  rewrite E.
  destruct (String.eqb (t_category t) old).
  - rewrite String.eqb_refl. cbn [map]. by rewrite rename_transaction_amount, IH.
  - destruct (has_category new t); [|done].
    cbn [map]. by rewrite rename_transaction_amount, IH.
Qed.

Lemma rename_moves_spending (old new : string) (selected : list Transaction) :
  new <> old ->
  let before := compute_stats selected in
  let after := compute_stats (map (rename_transaction old new) selected) in
  totalIncome after = totalIncome before /\
  totalExpense after = totalExpense before /\
  netBalance after = netBalance before /\
  expensesByCategory after !! old = None /\
  expensesByCategory after !! new
  = breakdown_entry new
      (map t_amount
         (List.filter (has_either old new) (List.filter (is_type expense) selected))) /\
  forall c, c <> old -> c <> new ->
            expensesByCategory after !! c = expensesByCategory before !! c.
Proof.
  intros Hd. cbv zeta.
  assert (Hi : forall ty,
             sum_amounts (List.filter (is_type ty)
                            (map (rename_transaction old new) selected))
             = sum_amounts (List.filter (is_type ty) selected)).
  { intros ty. unfold sum_amounts. by rewrite amounts_type_rename. }
  split; [rewrite !compute_stats_income; apply Hi|].
  split; [rewrite !compute_stats_expense; apply Hi|].
  split.
  { change (netBalance (compute_stats ?l))
      with (totalIncome (compute_stats l) - totalExpense (compute_stats l))%float.
    by rewrite !compute_stats_income, !compute_stats_expense, !Hi. }
  split; [|split].
  - rewrite compute_stats_lookup. by rewrite spent_rename_old.
  - rewrite compute_stats_lookup. by rewrite spent_rename_new.
  - intros c Ho Hn. rewrite !compute_stats_lookup. by rewrite spent_rename_other.
Qed.

(** After a category has been renamed by [updateCategory], and when the
    stored dates parse, [getTransactions] returns for every period the
    records it returned before, renamed, in the same order.  The statistics
    of the period therefore keep their totals; the old name has left the
    breakdown, the entry of the new name is what the fold makes of the
    amounts of the expenses that carried either name, in the order they are
    returned, and every other category keeps its entry. *)
Theorem updateCategory_moves_spending (w : World) (id : string)
    (updates : CategoryUpdates) (i : nat) (old : Category) (name : string)
    (month year : option Z) :
  faults w = [] ->
  Forall (valid_date Date_parse) (stored_transactions w) ->
  findIndex id (visible_categories nowISO w) = Some i ->
  visible_categories nowISO w !! i = Some old ->
  cu_name updates = Some name -> name <> ""%string -> name <> c_name old ->
  exists w' selected before after,
    getTransactions Date_parse LocalTZA month year w = (Ok selected, w) /\
    getTransactionStats Date_parse LocalTZA month year w = (Ok before, w) /\
    updateCategory Date_parse LocalTZA nowISO id updates w = (Ok tt, w') /\
    getTransactions Date_parse LocalTZA month year w'
    = (Ok (map (rename_transaction (c_name old) name) selected), w') /\
    getTransactionStats Date_parse LocalTZA month year w' = (Ok after, w') /\
    totalIncome after = totalIncome before /\
    totalExpense after = totalExpense before /\
    netBalance after = netBalance before /\
    expensesByCategory after !! c_name old = None /\
    expensesByCategory after !! name
    = breakdown_entry name
        (map t_amount
           (List.filter (has_either (c_name old) name)
              (List.filter (is_type expense) selected))) /\
    forall c, c <> c_name old -> c <> name ->
              expensesByCategory after !! c = expensesByCategory before !! c.
Proof.
  intros H Hv Hi Hold Hname Hne Hd. do 4 eexists.
  split; [by apply getTransactions_quiet|].
  split; [by apply getTransactionStats_quiet|].
  split; [apply updateCategory_rename_quiet; try done;
          by apply name_changed_Some|].
  set (w' := mkWorld _ _ _ _).
  assert (Es : stored_transactions w'
               = map (rename_transaction (c_name old) name)
                   (sorted_desc (stored_transactions w))).
  { unfold stored_transactions at 1, JSON_parse_transactions, w'.
    cbn [store s_transactions]. change (default [] (Some ?l)) with l.
    apply (renamed_JSON Date_parse LocalTZA). }
  split.
  { rewrite getTransactions_quiet by done. by rewrite Es, selected_rename. }
  split.
  { rewrite getTransactionStats_quiet by done. by rewrite Es, selected_rename. }
  by apply rename_moves_spending.
Qed.

(** After a custom category whose name is not "Other" has been deleted by
    [deleteCategory], and when the stored dates parse, [getTransactions]
    returns for every period the records it returned before, those of the
    deleted category now under "Other", in the same order.  The statistics
    of the period keep their totals; the deleted name has left the
    breakdown, the entry of "Other" is what the fold makes of the amounts of
    the expenses that carried either name, in the order they are returned,
    and every other category keeps its entry. *)
Theorem deleteCategory_moves_spending_to_Other (w : World) (id : string)
    (category : Category) (month year : option Z) :
  faults w = [] ->
  Forall (valid_date Date_parse) (stored_transactions w) ->
  List.find (fun cat => String.eqb (c_id cat) id) (visible_categories nowISO w)
  = Some category ->
  c_isCustom category = true -> c_name category <> "Other"%string ->
  exists w' selected before after,
    getTransactions Date_parse LocalTZA month year w = (Ok selected, w) /\
    getTransactionStats Date_parse LocalTZA month year w = (Ok before, w) /\
    deleteCategory Date_parse LocalTZA nowISO id w = (Ok tt, w') /\
    getTransactions Date_parse LocalTZA month year w'
    = (Ok (map (rename_transaction (c_name category) "Other") selected), w') /\
    getTransactionStats Date_parse LocalTZA month year w' = (Ok after, w') /\
    totalIncome after = totalIncome before /\
    totalExpense after = totalExpense before /\
    netBalance after = netBalance before /\
    expensesByCategory after !! c_name category = None /\
    expensesByCategory after !! "Other"%string
    = breakdown_entry "Other"
        (map t_amount
           (List.filter (has_either (c_name category) "Other")
              (List.filter (is_type expense) selected))) /\
    forall c, c <> c_name category -> c <> "Other"%string ->
              expensesByCategory after !! c = expensesByCategory before !! c.
Proof.
  intros H Hv Hfind Hcustom Hne. do 4 eexists.
  split; [by apply getTransactions_quiet|].
  split; [by apply getTransactionStats_quiet|].
  split; [by apply deleteCategory_custom_run|].
  set (w' := mkWorld _ _ _ _).
  assert (Es : stored_transactions w'
               = map (rename_transaction (c_name category) "Other")
                   (sorted_desc (stored_transactions w))).
  { unfold stored_transactions at 1, JSON_parse_transactions, w'.
    cbn [store s_transactions]. change (default [] (Some ?l)) with l.
    apply (renamed_JSON Date_parse LocalTZA). }
  split.
  { rewrite getTransactions_quiet by done. by rewrite Es, selected_rename. }
  split.
  { rewrite getTransactionStats_quiet by done. by rewrite Es, selected_rename. }
  apply rename_moves_spending. congruence.
Qed.

(** ** The annual report *)

Lemma annual_stats_compute_stats (l : list Transaction) :
  annual_stats l = compute_stats l.
Proof. reflexivity. Qed.

Lemma collect_months_quiet (months : list Z) (y : Z) (acc : list Transaction)
    (w : World) :
  faults w = [] ->
  collect_months Date_parse LocalTZA months y acc w
  = (Ok (acc ++ concat
           (map (fun m => sorted_desc
                            (month_filter Date_parse LocalTZA (Some m) (Some y)
                               (stored_transactions w))) months)), w).
Proof.
  intros H. revert acc. induction months as [|m months IH]; intros acc; simpl.
  - by rewrite app_nil_r.
  - unfold bind. rewrite getTransactions_quiet by done. rewrite IH.
    by rewrite <- app_assoc.
Qed.

Lemma filter_none {A} (l : list A) : List.filter (fun _ => false) l = [].
Proof. by induction l. Qed.

Lemma filter_or_perm {A} (f g : A -> bool) (l : list A) :
  (forall x, f x = true -> g x = false) ->
  Permutation (List.filter f l ++ List.filter g l)
    (List.filter (fun x => f x || g x) l).
Proof.
  intros Hd. induction l as [|x l IH]; simpl; [done|].
  destruct (f x) eqn:Fx; simpl.
  - rewrite (Hd x Fx). by constructor.
  - destruct (g x); [|done].
    rewrite <- Permutation_middle. by constructor.
Qed.

Lemma in_month_disjoint (tz y m1 m2 : Z) (t : Transaction) :
  (forall k, LocalTZA k = tz) -> 1 <= m1 -> m1 < m2 -> m2 <= 12 ->
  in_month Date_parse LocalTZA m1 y t = true ->
  in_month Date_parse LocalTZA m2 y t = false.
Proof.
  intros Htz H1 Hlt H12. unfold in_month.
  intros [_ Hle]%andb_true_iff.
  by rewrite (month_ranges_disjoint tz y m1 m2 _ Htz H1 Hlt H12 Hle).
Qed.

(** In a time zone of fixed offset the views of increasing months, put one
    after the other, hold each stored record of those months once. *)
Lemma month_views_perm (tz y : Z) (l : list Transaction) (months : list Z) :
  (forall k, LocalTZA k = tz) ->
  StronglySorted Z.lt months -> Forall (fun m => 1 <= m <= 12) months ->
  Permutation
    (concat (map (fun m => sorted_desc
                             (List.filter (in_month Date_parse LocalTZA m y) l))
               months))
    (List.filter
       (fun t => existsb (fun m => in_month Date_parse LocalTZA m y t) months) l).
Proof.
  intros Htz Hs. induction Hs as [|m months Hs IH Hm]; intros Hr.
  - simpl. by rewrite filter_none.
  - apply Forall_cons in Hr as [Hm12 Hr]. cbn [map concat existsb].
    rewrite Array_sort_perm, (IH Hr).
    apply filter_or_perm. intros t Ht.
    apply not_true_iff_false. intros (m' & Hin & Ht')%existsb_exists.
    rewrite Forall_forall in Hm, Hr.
    apply list_elem_of_In in Hin.
    specialize (Hm m' Hin). specialize (Hr m' Hin).
    rewrite (in_month_disjoint tz y m m' t Htz) in Ht'; [done|lia|done|lia|done].
Qed.

(** The statistics of the annual report are those of the twelve month views
    put one after the other, January first, each view most recent first:
    the totals are the binary64 sums taken in that order, and the breakdown
    is what the fold makes of the expenses in that order.  In a time zone of
    fixed offset and for a non-zero year, that list holds each stored
    transaction of the twelve month ranges once. *)
Theorem generatePDF_annual_over_months (w : World) (selectedYear : Z) :
  faults w = [] ->
  exists annual monthly,
    generatePDF_annual Date_parse LocalTZA selectedYear w = (Ok annual, w) /\
    (forall m,
        getTransactions Date_parse LocalTZA (Some m) (Some selectedYear) w
        = (Ok (monthly m), w)) /\
    let all := concat (map monthly months_of_year) in
    annual = compute_stats all /\
    totalIncome annual = sum_amounts (List.filter (is_type income) all) /\
    totalExpense annual = sum_amounts (List.filter (is_type expense) all) /\
    netBalance annual = (totalIncome annual - totalExpense annual)%float /\
    (forall c,
        expensesByCategory annual !! c
        = breakdown_entry c
            (map t_amount
               (List.filter (has_category c) (List.filter (is_type expense) all)))) /\
    (forall tz,
        (forall k, LocalTZA k = tz) -> selectedYear <> 0 ->
        Permutation all
          (List.filter (in_year Date_parse LocalTZA selectedYear)
             (stored_transactions w))).
Proof.
  intros H.
  set (monthly := fun m =>
         sorted_desc (month_filter Date_parse LocalTZA (Some m) (Some selectedYear)
                        (stored_transactions w))).
  exists (annual_stats (concat (map monthly months_of_year))), monthly.
  split.
  { unfold generatePDF_annual, bind. by rewrite collect_months_quiet. }
  split; [intros m; by apply getTransactions_quiet|].
  cbv zeta. rewrite annual_stats_compute_stats.
  split; [done|]. split; [apply compute_stats_income|].
  split; [apply compute_stats_expense|]. split; [done|].
  split; [intros c; apply compute_stats_lookup|].
  intros tz Htz Hy.
  assert (Em : map monthly months_of_year
               = map (fun m => sorted_desc
                                 (List.filter
                                    (in_month Date_parse LocalTZA m selectedYear)
                                    (stored_transactions w))) months_of_year).
  { apply map_ext_in. intros m Hm. unfold monthly, month_filter, truthy.
    destruct (Z.eqb_spec selectedYear 0); [done|].
    destruct (Z.eqb_spec m 0) as [->|_]; [|done].
    vm_compute in Hm. intuition discriminate. }
  rewrite Em. apply (month_views_perm tz); [done| |].
  - unfold months_of_year. repeat constructor; lia.
  - unfold months_of_year. repeat constructor; lia.
Qed.

End MoreProperties.

(** * The further properties on the sample data *)

Lemma deleteTransaction_removes_id_witness :
  faults demo_world = [] /\
  exists w',
    deleteTransaction parse_iso utc_zone "t1" demo_world = (Ok tt, w') /\
    In tx_salary (stored_transactions w') /\
    ~ In tx_food (stored_transactions w').
Proof.
  split; [reflexivity|].
  destruct (deleteTransaction_removes_id parse_iso utc_zone demo_world "t1" eq_refl)
    as (w' & E & Hin & _).
  exists w'. split; [exact E|]. split.
  - apply Hin. split; [right; left; reflexivity | discriminate].
  - intros H. apply Hin in H as [_ Hne]. by apply Hne.
Defined.

Lemma addTransaction_then_deleteTransaction_witness :
  faults demo_world = [] /\
  Forall (valid_date parse_iso) (stored_transactions demo_world) /\
  (forall t, In t (stored_transactions demo_world) -> t_id t <> demo_id (tick demo_world)) /\
  exists new w1 w2,
    addTransaction parse_iso utc_zone demo_id draft_rent demo_world = (Ok new, w1) /\
    deleteTransaction parse_iso utc_zone (t_id new) w1 = (Ok tt, w2) /\
    stored_transactions w2 = Array_sort (by_date_desc parse_iso) [tx_food; tx_salary].
Proof.
  assert (Hv : Forall (valid_date parse_iso) (stored_transactions demo_world)).
  { repeat constructor; eexists; vm_compute; reflexivity. }
  assert (Hid : forall t, In t (stored_transactions demo_world) ->
                          t_id t <> demo_id (tick demo_world)).
  { intros t [<-|[<-|[]]]; vm_compute; discriminate. }
  split; [reflexivity|]. split; [exact Hv|]. split; [exact Hid|].
  destruct (addTransaction_then_deleteTransaction parse_iso utc_zone demo_id
              demo_world draft_rent eq_refl Hv Hid)
    as (new & w1 & w2 & E1 & E2 & Hs & _).
  exists new, w1, w2. split; [exact E1|]. split; [exact E2 | exact Hs].
Defined.

Lemma getTransactions_month_view_witness :
  faults demo_world = [] /\ 1 <> 0 /\ 2024 <> 0 /\
  Forall (valid_date parse_iso) (stored_transactions demo_world) /\
  exists all,
    getTransactions parse_iso utc_zone None None demo_world = (Ok all, demo_world) /\
    getTransactions parse_iso utc_zone (Some 1) (Some 2024) demo_world
    = (Ok (List.filter (in_month parse_iso utc_zone 1 2024) all), demo_world).
Proof.
  assert (Hv : Forall (valid_date parse_iso) (stored_transactions demo_world)).
  { repeat constructor; eexists; vm_compute; reflexivity. }
  split; [reflexivity|]. split; [lia|]. split; [lia|]. split; [exact Hv|].
  apply (getTransactions_month_view parse_iso utc_zone demo_world 1 2024);
    [reflexivity | lia | lia | exact Hv].
Defined.

Lemma addBudgetGoal_roundtrip_witness :
  faults demo_world = [] /\
  exists newGoal w',
    addBudgetGoal demo_id demo_now draft_goal demo_world = (Ok newGoal, w') /\
    getBudgetGoals w' = (Ok [newGoal; goal_food], w') /\
    g_id newGoal = "id-0"%string /\ g_category newGoal = "Travel"%string.
Proof.
  split; [reflexivity|].
  destruct (addBudgetGoal_roundtrip demo_id demo_now demo_world draft_goal eq_refl)
    as (newGoal & w' & E & _ & Hget & _ & Hid & _ & Hcat & _).
  exists newGoal, w'. split; [exact E|]. split; [exact (Hget eq_refl eq_refl)|].
  split; [exact Hid | exact Hcat].
Defined.

Lemma updateBudgetGoal_merges_witness :
  faults goals_world = [] /\
  exists w',
    updateBudgetGoal "g1" (toggle_updates goal_food) goals_world = (Ok tt, w') /\
    length (stored_goals w') = 2%nat /\
    stored_goals w' !! 1%nat = Some goal_rent.
Proof.
  split; [reflexivity|].
  destruct (updateBudgetGoal_merges goals_world "g1" (toggle_updates goal_food) eq_refl)
    as (w' & E & Hlen & Hlook & _).
  exists w'. split; [exact E|]. split; [exact Hlen|].
  exact (Hlook 1%nat goal_rent eq_refl).
Defined.

Lemma handleToggleGoal_twice_witness :
  faults goals_world = [] /\
  In goal_food (stored_goals goals_world) /\
  (forall g, In g (stored_goals goals_world) -> g_id g = g_id goal_food -> g = goal_food) /\
  exists w1 w2,
    handleToggleGoal goal_food goals_world = (Ok tt, w1) /\
    handleToggleGoal
      (mkGoal "g1" "Food" (Num 500) monthly false "2024-01-01T00:00:00.000Z") w1
    = (Ok tt, w2) /\
    stored_goals w2 = [goal_food; goal_rent].
Proof.
  assert (Hu : forall g, In g (stored_goals goals_world) ->
                         g_id g = g_id goal_food -> g = goal_food).
  { intros g [<-|[<-|[]]] H; [reflexivity | vm_compute in H; discriminate]. }
  split; [reflexivity|]. split; [left; reflexivity|]. split; [exact Hu|].
  pose proof (handleToggleGoal_twice goals_world goal_food eq_refl
                (or_introl eq_refl) Hu) as H.
  cbv zeta in H. destruct H as (w1 & w2 & E1 & _ & _ & E2 & Hs).
  exists w1, w2. split; [exact E1|]. split; [exact E2 | exact Hs].
Defined.

Lemma deleteBudgetGoal_removes_id_witness :
  faults goals_world = [] /\
  exists w',
    deleteBudgetGoal "g2" goals_world = (Ok tt, w') /\
    In goal_food (stored_goals w') /\ ~ In goal_rent (stored_goals w').
Proof.
  split; [reflexivity|].
  destruct (deleteBudgetGoal_removes_id goals_world "g2" eq_refl)
    as (w' & E & Hin & _).
  exists w'. split; [exact E|]. split.
  - apply Hin. split; [left; reflexivity | discriminate].
  - intros H. apply Hin in H as [_ Hne]. by apply Hne.
Defined.

Lemma getCategories_seeds_once_witness :
  faults empty_world = [] /\ s_categories (store empty_world) = None /\
  exists categories w',
    getCategories demo_now empty_world = (Ok categories, w') /\
    map c_name categories = defaultExpenseCategories ++ defaultIncomeCategories /\
    getCategories demo_now w' = (Ok categories, w').
Proof.
  split; [reflexivity|]. split; [reflexivity|].
  destruct (getCategories_seeds_once demo_now empty_world eq_refl eq_refl)
    as (categories & w' & E & Hn & _ & _ & _ & _ & _ & _ & _ & Hagain).
  exists categories, w'. split; [exact E|]. split; [exact Hn | exact Hagain].
Defined.

Lemma addCategory_appends_witness :
  faults demo_world = [] /\
  exists newCategory w',
    addCategory demo_id demo_now draft_category demo_world = (Ok newCategory, w') /\
    c_name newCategory = "Pets"%string /\
    getCategories demo_now w' = (Ok ([cat_food; cat_other] ++ [newCategory]), w').
Proof.
  split; [reflexivity|].
  destruct (addCategory_appends demo_id demo_now demo_world draft_category eq_refl)
    as (newCategory & w' & E & _ & _ & Hn & _ & _ & _ & Hget & _).
  exists newCategory, w'. split; [exact E|]. split; [exact Hn|].
  exact (Hget [cat_food; cat_other] eq_refl).
Defined.

Lemma addCategory_then_deleteCategory_witness :
  faults empty_world = [] /\
  cd_isCustom draft_category = true /\
  (forall c, In c (visible_categories demo_now (two_ticks empty_world)) ->
             c_id c <> demo_id (tick empty_world)) /\
  exists newCategory w1 w2,
    addCategory demo_id demo_now draft_category empty_world = (Ok newCategory, w1) /\
    deleteCategory parse_iso utc_zone demo_now (c_id newCategory) w1 = (Ok tt, w2) /\
    s_categories (store w2) = Some (seeded_categories demo_now 2).
Proof.
  assert (Hid : forall c, In c (visible_categories demo_now (two_ticks empty_world)) ->
                          c_id c <> demo_id (tick empty_world)).
  { intros c Hc. vm_compute in Hc.
    repeat (destruct Hc as [<-|Hc]; [vm_compute; discriminate|]). destruct Hc. }
  do 2 (split; [reflexivity|]). split; [exact Hid|].
  destruct (addCategory_then_deleteCategory parse_iso utc_zone demo_id demo_now
              empty_world draft_category eq_refl eq_refl Hid)
    as (newCategory & w1 & w2 & E1 & E2 & Hc & _).
  exists newCategory, w1, w2. split; [exact E1|]. split; [exact E2 | exact Hc].
Defined.

Lemma updateCategory_without_rename_witness :
  faults demo_world = [] /\
  findIndex "c1" (visible_categories demo_now demo_world) = Some 0%nat /\
  visible_categories demo_now demo_world !! 0%nat = Some cat_food /\
  name_changed cat_food icon_only = None /\
  exists w',
    updateCategory parse_iso utc_zone demo_now "c1" icon_only demo_world = (Ok tt, w') /\
    s_transactions (store w') = Some [tx_food; tx_salary] /\
    s_goals (store w') = Some [goal_food] /\
    writes w' = [CATEGORIES_STORAGE_KEY].
Proof.
  do 4 (split; [reflexivity|]).
  destruct (updateCategory_without_rename parse_iso utc_zone demo_now demo_world
              "c1" icon_only 0%nat cat_food eq_refl eq_refl eq_refl eq_refl)
    as (w' & E & _ & Ht & Hg & Hw & _).
  exists w'. split; [exact E|]. split; [exact Ht|]. split; [exact Hg | exact Hw].
Defined.

Lemma clearAllData_resets_witness :
  faults demo_world = [] /\
  exists w',
    clearAllData demo_world = (Ok tt, w') /\
    store w' = mkStore None None None /\
    getBudgetGoals w' = (Ok [], w') /\
    getTransactions parse_iso utc_zone (Some 1) (Some 2024) w' = (Ok [], w').
Proof.
  split; [reflexivity|].
  destruct (clearAllData_resets parse_iso utc_zone demo_now demo_world eq_refl)
    as (w' & E & Hs & _ & Ht & Hg & _).
  exists w'. split; [exact E|]. split; [exact Hs|]. split; [exact Hg|].
  exact (Ht (Some 1) (Some 2024)).
Defined.

Lemma getUniqueCategories_sorted_union_witness :
  faults demo_world = [] /\
  exists l,
    getUniqueCategories parse_iso utc_zone demo_world = (Ok l, demo_world) /\
    In "Food"%string l /\ In "Other"%string l /\ ~ In "Salary"%string l.
Proof.
  split; [reflexivity|].
  destruct (getUniqueCategories_sorted_union parse_iso utc_zone demo_world)
    as (_ & H).
  destruct (H eq_refl) as (l & E & Hin).
  exists l. split; [exact E|]. split; [|split].
  - apply Hin. right. exists tx_food.
    split; [left; reflexivity|]. split; reflexivity.
  - apply Hin. left. vm_compute. tauto.
  - intros Hs. apply Hin in Hs as [Hd | (t & Ht & Hty & Hc)].
    + vm_compute in Hd. intuition discriminate.
    + destruct Ht as [<-|[<-|[]]]; vm_compute in Hty, Hc; discriminate.
Defined.

Lemma getGoalProgress_agrees_with_alerts_witness :
  g_isActive goal_food = true /\
  p_currentSpending (getGoalProgress stats_groceries goal_food)
  = currentSpending_of stats_groceries goal_food /\
  (getProgressColor (p_percentage (getGoalProgress stats_groceries goal_food))
   = "#FF9500"%string
   <-> alerted (warningGoals (evaluate_goals [goal_food] stats_groceries)) goal_food).
Proof.
  split; [reflexivity|].
  pose proof (getGoalProgress_agrees_with_alerts stats_groceries goal_food eq_refl)
    as H.
  cbv zeta in H. destruct H as (Hs & _ & _ & _ & _ & _ & Hw).
  split; [exact Hs | exact Hw].
Defined.

Lemma getTransactions_selector_edges_witness :
  faults demo_world = [] /\
  truthy (Some 0) && truthy (Some 2024) = false /\
  getTransactions parse_iso utc_zone (Some 0) (Some 2024) demo_world
  = getTransactions parse_iso utc_zone None None demo_world.
Proof.
  split; [reflexivity|]. split; [reflexivity|].
  destruct (getTransactions_selector_edges parse_iso utc_zone demo_world eq_refl)
    as (H & _).
  exact (H (Some 0) (Some 2024) eq_refl).
Defined.

Lemma getTransactions_months_disjoint_witness :
  faults demo_world = [] /\ (forall t, utc_zone t = 0) /\
  2024 <> 0 /\ 1 <= 1 /\ 1 < 2 /\ 2 <= 12 /\
  exists r1 r2,
    getTransactions parse_iso utc_zone (Some 1) (Some 2024) demo_world
    = (Ok r1, demo_world) /\
    getTransactions parse_iso utc_zone (Some 2) (Some 2024) demo_world
    = (Ok r2, demo_world) /\
    forall t, In t r1 -> ~ In t r2.
Proof.
  split; [reflexivity|]. split; [intros t; reflexivity|].
  split; [lia|]. split; [lia|]. split; [lia|]. split; [lia|].
  apply (getTransactions_months_disjoint parse_iso utc_zone demo_world 0 2024 1 2);
    [reflexivity | intros t; reflexivity | lia | lia | lia | lia].
Defined.

Lemma updateCategory_moves_spending_witness :
  faults demo_world = [] /\
  Forall (valid_date parse_iso) (stored_transactions demo_world) /\
  findIndex "c1" (visible_categories demo_now demo_world) = Some 0%nat /\
  visible_categories demo_now demo_world !! 0%nat = Some cat_food /\
  cu_name (rename_to "Dining") = Some "Dining"%string /\
  "Dining"%string <> ""%string /\ "Dining"%string <> c_name cat_food /\
  exists w' before after,
    getTransactionStats parse_iso utc_zone None None demo_world
    = (Ok before, demo_world) /\
    updateCategory parse_iso utc_zone demo_now "c1" (rename_to "Dining") demo_world
    = (Ok tt, w') /\
    getTransactionStats parse_iso utc_zone None None w' = (Ok after, w') /\
    totalExpense after = totalExpense before /\
    expensesByCategory after !! "Food"%string = None.
Proof.
  assert (Hv : Forall (valid_date parse_iso) (stored_transactions demo_world)).
  { repeat constructor; eexists; vm_compute; reflexivity. }
  split; [reflexivity|]. split; [exact Hv|].
  do 3 (split; [reflexivity|]). split; [discriminate|]. split; [discriminate|].
  destruct (updateCategory_moves_spending parse_iso utc_zone demo_now demo_world
              "c1" (rename_to "Dining") 0%nat cat_food "Dining" None None
              eq_refl Hv eq_refl eq_refl eq_refl)
    as (w' & selected & before & after & _ & E1 & E2 & _ & E3 & _ & He & _ & Hold & _);
    [discriminate | discriminate |].
  exists w', before, after. split; [exact E1|]. split; [exact E2|].
  split; [exact E3|]. split; [exact He | exact Hold].
Defined.

Lemma deleteCategory_moves_spending_to_Other_witness :
  faults demo_world = [] /\
  Forall (valid_date parse_iso) (stored_transactions demo_world) /\
  List.find (fun cat => String.eqb (c_id cat) "c1")
    (visible_categories demo_now demo_world) = Some cat_food /\
  c_isCustom cat_food = true /\ c_name cat_food <> "Other"%string /\
  exists w' before after,
    getTransactionStats parse_iso utc_zone (Some 1) (Some 2024) demo_world
    = (Ok before, demo_world) /\
    deleteCategory parse_iso utc_zone demo_now "c1" demo_world = (Ok tt, w') /\
    getTransactionStats parse_iso utc_zone (Some 1) (Some 2024) w' = (Ok after, w') /\
    totalExpense after = totalExpense before /\
    expensesByCategory after !! "Food"%string = None /\
    expensesByCategory after !! "Other"%string = Some (VNumber 50).
Proof.
  assert (Hv : Forall (valid_date parse_iso) (stored_transactions demo_world)).
  { repeat constructor; eexists; vm_compute; reflexivity. }
  split; [reflexivity|]. split; [exact Hv|].
  do 2 (split; [reflexivity|]). split; [discriminate|].
  destruct (deleteCategory_moves_spending_to_Other parse_iso utc_zone demo_now
              demo_world "c1" cat_food (Some 1) (Some 2024)
              eq_refl Hv eq_refl eq_refl)
    as (w' & selected & before & after & Eg & E1 & E2 & _ & E3 & _ & He & _ & Hold
        & Hnew & _);
    [discriminate |].
  exists w', before, after. split; [exact E1|]. split; [exact E2|].
  split; [exact E3|]. split; [exact He|]. split; [exact Hold|].
  rewrite Hnew. injection Eg as <-. by vm_compute.
Defined.

Lemma generatePDF_annual_over_months_witness :
  faults rounding_world = [] /\
  exists annual monthly,
    generatePDF_annual parse_iso utc_zone 2024 rounding_world
    = (Ok annual, rounding_world) /\
    (forall m,
        getTransactions parse_iso utc_zone (Some m) (Some 2024) rounding_world
        = (Ok (monthly m), rounding_world)) /\
    totalExpense annual
    = sum_amounts
        (List.filter (is_type expense) (concat (map monthly months_of_year))) /\
    Permutation (concat (map monthly months_of_year))
      (List.filter (in_year parse_iso utc_zone 2024)
         (stored_transactions rounding_world)).
Proof.
  split; [reflexivity|].
  destruct (generatePDF_annual_over_months parse_iso utc_zone rounding_world 2024
              eq_refl) as (annual & monthly & E & Hm & H).
  cbv zeta in H. destruct H as (_ & _ & He & _ & _ & Hp).
  exists annual, monthly. split; [exact E|]. split; [exact Hm|].
  split; [exact He|]. apply (Hp 0); [intros k; reflexivity | lia].
Defined.
